(** * A shallow embedding of the namespaced rotating logger

    Two variants of the [Logger] class live in the repository:
    - [src/logger.ts]        (modelled in [Module LoggerTs]),
    - an unnamed sibling     (modelled in [Module Sibling]).
    They share the template renderer and differ in the month table, in the
    day component used for rotation, in the settings record and in the way
    rotation sequences (and awaits) compression.

    JavaScript strings are [string]; numbers that the code only uses as
    integers are [Z]; the [Map<LogType, LogFile>] is a [gmap]; the file
    system, the table of write streams and the console are an explicit
    [World] that every operation threads through.

    Conventions of the model:
    - every [new Date()] is an argument of the function that makes it;
    - an I/O call takes effect on the [World] when it is issued, and the
      continuations of [async] functions run in the order the event loop
      gives them, all before the next public call;
    - paths are POSIX paths;
    - creating a directory and opening a write stream succeed; the gzip call
      rejects when its source file is missing or unreadable, and then leaves
      an empty destination file behind. *)

From Stdlib Require Import ZArith DecimalString Ascii.
From stdpp Require Import gmap strings list.

Local Open Scope Z_scope.

(** ** JavaScript string primitives *)

Module JsString.

(** [strip_prefix p s] is [Some rest] when [s = p ++ rest]. *)
Fixpoint strip_prefix (p s : string) : option string :=
  match p with
  | "" => Some s
  | String a p' =>
      match s with
      | "" => None
      | String b s' => if Ascii.eqb a b then strip_prefix p' s' else None
      end
  end.

(** ECMAScript [GetSubstitution] for a pattern without capture groups:
    in the replacement text [$$] is a dollar sign, [$&] the matched
    substring, [$`] the part of the subject before the match and [$'] the
    part after it; every other character, and a dollar sign followed by
    anything else (a digit has no group to refer to), stands for itself. *)
Fixpoint GetSubstitution (matched before after replacement : string) : string :=
  match replacement with
  | "" => ""
  | String c r =>
      if Ascii.eqb c "$" then
        match r with
        | String c2 r2 =>
            if Ascii.eqb c2 "$" then
              String "$" (GetSubstitution matched before after r2)
            else if Ascii.eqb c2 "&" then
              matched +:+ GetSubstitution matched before after r2
            else if Ascii.eqb c2 "`" then
              before +:+ GetSubstitution matched before after r2
            else if Ascii.eqb c2 "'" then
              after +:+ GetSubstitution matched before after r2
            else String "$" (GetSubstitution matched before after r)
        | "" => "$"
        end
      else String c (GetSubstitution matched before after r)
  end.

(** One left-to-right scan of the subject.  [before] is the part of the
    subject already passed, [skip] counts the characters of the current
    match that are still to be stepped over. *)
Fixpoint replace_scan (pat rep before : string) (skip : nat) (s : string) : string :=
  match s with
  | "" => ""
  | String c s' =>
      match skip with
      | S k => replace_scan pat rep (before +:+ String c "") k s'
      | O =>
          match strip_prefix pat s with
          | Some after =>
              GetSubstitution pat before after rep
                +:+ replace_scan pat rep (before +:+ String c "")
                      (String.length pat - 1) s'
          | None => String c (replace_scan pat rep (before +:+ String c "") 0 s')
          end
      end
  end.

(** [s.replace(/pat/g, rep)] for a literal, non-empty [pat]. *)
Definition replace_g (pat rep s : string) : string :=
  replace_scan pat rep "" 0 s.

(** [s.slice(-2)]: the last two characters (all of [s] when it is shorter). *)
Fixpoint slice_last2 (s : string) : string :=
  match s with
  | String _ (String _ (String _ _) as u) => slice_last2 u
  | _ => s
  end.

(** [n.toString()] for an integral number. *)
Definition Number_toString (n : Z) : string :=
  NilZero.string_of_int (Z.to_int n).

End JsString.

Import JsString.

(** ** Node's POSIX [path.join] *)

Module Path.

(** The pieces of a path between separators; ["a//b/"] has the segments
    ["a"], [""], ["b"], [""]. *)
Fixpoint segments (s : string) : list string :=
  match s with
  | "" => [""]
  | String c s' =>
      if Ascii.eqb c "/" then "" :: segments s'
      else match segments s' with
           | seg :: rest => String c seg :: rest
           | [] => [String c ""]
           end
  end.

Fixpoint join_with (sep : string) (l : list string) : string :=
  match l with
  | [] => ""
  | [x] => x
  | x :: rest => x +:+ sep +:+ join_with sep rest
  end.

(** One step of [normalizeString]: the stack holds the segments kept so
    far, innermost first.  Empty and ["."] segments vanish, [".."] removes
    the innermost kept segment, or is kept itself when nothing is left to
    remove and the path is relative. *)
Definition normalize_step (allowAboveRoot : bool) (stack : list string) (seg : string)
  : list string :=
  if decide (seg = "" ∨ seg = ".") then stack
  else if decide (seg = "..") then
    match stack with
    | top :: below =>
        if decide (top = "..") then (if allowAboveRoot then seg :: stack else stack)
        else below
    | [] => if allowAboveRoot then [seg] else []
    end
  else seg :: stack.

Definition normalizeString (path : string) (allowAboveRoot : bool) : string :=
  join_with "/" (reverse (foldl (normalize_step allowAboveRoot) [] (segments path))).

Definition first_is_slash (s : string) : bool :=
  match s with String c _ => Ascii.eqb c "/" | "" => false end.

Fixpoint last_is_slash (s : string) : bool :=
  match s with
  | "" => false
  | String c "" => Ascii.eqb c "/"
  | String _ s' => last_is_slash s'
  end.

Definition normalize (path : string) : string :=
  match path with
  | "" => "."
  | _ =>
      let isAbsolute := first_is_slash path in
      let trailingSeparator := last_is_slash path in
      let path' := normalizeString path (negb isAbsolute) in
      match path' with
      | "" => if isAbsolute then "/" else if trailingSeparator then "./" else "."
      | _ =>
          let path'' := if trailingSeparator then path' +:+ "/" else path' in
          if isAbsolute then "/" +:+ path'' else path''
      end
  end.

(** [path.join(...args)]: the non-empty arguments glued with ["/"], then
    normalised. *)
Definition join (args : list string) : string :=
  match filter (λ a, a ≠ "") args with
  | [] => "."
  | parts => normalize (join_with "/" parts)
  end.

End Path.

(** ** The environment: clock readings, file system, streams, console *)

(** A clock reading [new Date()], seen through the accessors the logger
    uses.  [getDay] is the day of the week (0 to 6), [getDate] the day of the
    month (1 to 31), [getMonth] is 0-based. *)
Module JsDate.
Record Date := {
  getFullYear : Z;
  getMonth : Z;
  getDate : Z;
  getDay : Z;
  getHours : Z;
  getMinutes : Z;
  toISOString : string
}.

Definition in_range (d : Date) : Prop :=
  0 ≤ getMonth d ≤ 11 ∧ 1 ≤ getDate d ≤ 31 ∧ 0 ≤ getDay d ≤ 6 ∧
  0 ≤ getHours d ≤ 23 ∧ 0 ≤ getMinutes d ≤ 59.
End JsDate.
Export JsDate (Date).

(** The optional [object] argument is only ever handed to the console or to
    [JSON.stringify]; it is represented by what the latter returns. *)
Record JsObject := { JSON_stringify : string }.

(** The rejection value of a failed [compressing.gzip.compressFile]. *)
Inductive Error := GzipError (source : string).

Inductive ConsoleMethod := console_info | console_warn | console_debug | console_error.

Inductive ConsoleArg := ArgObject (o : JsObject) | ArgError (e : Error).

Record ConsoleCall := {
  method : ConsoleMethod;
  text : string;
  extra : option ConsoleArg
}.

(** What a file holds: the text written to it, or the gzip archive of
    another content. *)
Inductive FileContent := Text (data : string) | Gzipped (data : FileContent).

(** A [WriteStream] is a handle into the table of streams. *)
Record StreamState := { target : string; ended : bool }.

(** The outside of the logger: the directories made so far, the files with
    their contents, the paths whose files cannot be read back (say, for lack
    of permission), the write streams in the order they were created, and
    the calls made on the console, oldest first. *)
Record World := {
  dirs : gset string;
  disk : gmap string FileContent;
  unreadable : gset string;
  streams : list StreamState;
  console : list ConsoleCall
}.

(** How a promise ends: fulfilled, rejected with an error, or never settled. *)
Inductive Outcome := Fulfilled | Rejected (e : Error) | Pending.

Module Env.

Definition set_disk (f : gmap string FileContent → gmap string FileContent) (w : World) : World :=
  {| dirs := dirs w; disk := f (disk w); unreadable := unreadable w;
     streams := streams w; console := console w |}.

(** [fs.mkdirSync(path, { recursive: true })]; creation is taken to
    succeed. *)
Definition mkdirSync (path : string) (w : World) : World :=
  {| dirs := {[path]} ∪ dirs w; disk := disk w; unreadable := unreadable w;
     streams := streams w; console := console w |}.

(** [fs.createWriteStream(path, { flags: "w" })]: the file is created or
    truncated and a fresh handle is returned. *)
Definition createWriteStream (path : string) (w : World) : nat * World :=
  (length (streams w),
   {| dirs := dirs w; disk := <[path := Text ""]> (disk w); unreadable := unreadable w;
      streams := streams w ++ [ {| target := path; ended := false |} ];
      console := console w |}).

Definition append_data (chunk : string) (c : FileContent) : FileContent :=
  match c with
  | Text data => Text (data +:+ chunk)
  | Gzipped _ => c
  end.

(** [stream.write(chunk)]: the chunk lands at the end of the file the
    handle was opened on; nothing is visible once the stream has ended or
    the file has been removed. *)
Definition write (h : nat) (chunk : string) (w : World) : World :=
  match streams w !! h with
  | Some st =>
      if ended st then w
      else set_disk (alter (append_data chunk) (target st)) w
  | None => w
  end.

(** [stream.end()]. *)
Definition end_stream (h : nat) (w : World) : World :=
  {| dirs := dirs w; disk := disk w; unreadable := unreadable w;
     streams := alter (λ st, {| target := target st; ended := true |}) h (streams w);
     console := console w |}.

(** [fs.unlink(path, () => {})]: a failure is ignored. *)
Definition unlink (path : string) (w : World) : World :=
  set_disk (delete path) w.

(** [compressing.gzip.compressFile(source, dest)]: the destination is
    opened for writing before the source is read, so it is created or
    truncated in every case.  It ends up holding the archive of the source
    file, or nothing when the call rejects because the source is missing or
    cannot be read. *)
Definition gzip_compressFile (source dest : string) (w : World) : Error * World + World :=
  match disk w !! source with
  | Some c =>
      if decide (source ∈ unreadable w)
      then inl (GzipError source, set_disk (insert dest (Text "")) w)
      else inr (set_disk (insert dest (Gzipped c)) w)
  | None => inl (GzipError source, set_disk (insert dest (Text "")) w)
  end.

Definition console_call (m : ConsoleMethod) (t : string) (x : option ConsoleArg) (w : World)
  : World :=
  {| dirs := dirs w; disk := disk w; unreadable := unreadable w; streams := streams w;
     console := console w ++ [ {| method := m; text := t; extra := x |} ] |}.

Definition open_streams (w : World) : list StreamState :=
  filter (λ st, ended st = false) (streams w).

End Env.

(** ** What both variants share *)

Inductive LogType := INFO | WARN | DEBUG | ERROR.

Global Instance LogType_eq_dec : EqDecision LogType.
Proof. solve_decision. Defined.

(** The numeric value of the enum member. *)
Definition LogType_value (t : LogType) : Z :=
  match t with INFO => 0 | WARN => 1 | DEBUG => 2 | ERROR => 3 end.

Definition LogType_of_value (n : Z) : option LogType :=
  match n with 0 => Some INFO | 1 => Some WARN | 2 => Some DEBUG | 3 => Some ERROR | _ => None end.

Global Instance LogType_countable : Countable LogType.
Proof.
  apply (inj_countable LogType_value LogType_of_value). by intros [].
Defined.

(** [type.toString()] on a member of a numeric enum. *)
Definition LogType_toString (t : LogType) : string := Number_toString (LogType_value t).

(** The member's declared name, [LogType[type]]. *)
Definition LogType_name (t : LogType) : string :=
  match t with INFO => "INFO" | WARN => "WARN" | DEBUG => "DEBUG" | ERROR => "ERROR" end.

Record LogFile := {
  filePath : string;
  fileName : string;
  writeStream : nat
}.

Definition beautifyNumber (number : Z) : string :=
  slice_last2 ("0" +:+ Number_toString number).

(** [getDate()], given the clock reading its [new Date()] makes. *)
Definition getDate (now : Date) : string := JsDate.toISOString now.

(** The line feed that ends every line written to a file. *)
Definition newline : string := String "010" "".

Definition default_template : string := "[%date%] [%type%] [%namespace%] [%message%]".

(** The body of [assembleTemplate], with [this.template] and
    [this.namespace] made explicit. *)
Definition assemble (template namespace : string) (now : Date) (type : LogType) (message : string)
  : string :=
  replace_g "%message%" message
    (replace_g "%namespace%" namespace
       (replace_g "%type%" (LogType_toString type)
          (replace_g "%date%" (getDate now) template))).

(** A property that is set and true; [undefined] and [false] are falsy. *)
Definition truthy (o : option bool) : bool :=
  match o with Some true => true | _ => false end.

Definition fullPath (f : LogFile) : string := Path.join [filePath f; fileName f].

(** ** [src/logger.ts] *)

Module LoggerTs.

Record LoggerSettings := {
  consoleLog : option bool;
  includeObjects : option bool
}.

Definition parseMonth (month : Z) : string :=
  match month with
  | 2 => "February"
  | 3 => "March"
  | 4 => "April"
  | 5 => "May"
  | 6 => "June"
  | 7 => "July"
  | 8 => "August"
  | 9 => "September"
  | 10 => "October"
  | 11 => "November"
  | 12 => "December"
  | _ => "January"
  end.

Record Logger := {
  namespace : string;
  logsPath : string;
  template : string;
  settings : LoggerSettings;
  currentDay : Z;
  logFiles : gmap LogType LogFile
}.

Definition default_settings : LoggerSettings :=
  {| consoleLog := Some true; includeObjects := Some true |}.

Definition assembleTemplate (this : Logger) (now : Date) (type : LogType) (message : string)
  : string :=
  assemble (template this) (namespace this) now type message.

Definition set_logFile (type : LogType) (f : LogFile) (this : Logger) : Logger :=
  {| namespace := namespace this; logsPath := logsPath this; template := template this;
     settings := settings this; currentDay := currentDay this;
     logFiles := <[type := f]> (logFiles this) |}.

Definition logDir (date : Date) : string :=
  Path.join [Number_toString (JsDate.getFullYear date); parseMonth (JsDate.getMonth date)].

Definition logName (date : Date) : string :=
  beautifyNumber (JsDate.getDay date) +:+ "-" +:+ beautifyNumber (JsDate.getHours date)
    +:+ "_" +:+ beautifyNumber (JsDate.getMinutes date) +:+ ".log".

Definition typePath (this : Logger) (folder : string) (date : Date) : string :=
  Path.join [logsPath this; folder; logDir date].

(** Opens one severity's file: the stream is created on
    [path.join(dir, logName)] and the map entry is replaced. *)
Definition openFile (type : LogType) (dir name : string) (st : Logger * World)
  : Logger * World :=
  let '(h, w) := Env.createWriteStream (Path.join [dir; name]) st.2 in
  (set_logFile type {| filePath := dir; fileName := name; writeStream := h |} st.1, w).

Definition loadFiles (this : Logger) (date : Date) (w : World) : Logger * World :=
  let this1 :=
    {| namespace := namespace this; logsPath := logsPath this; template := template this;
       settings := settings this; currentDay := JsDate.getDay date;
       logFiles := logFiles this |} in
  let infoPath := typePath this "info" date in
  let warnPath := typePath this "warn" date in
  let debugPath := typePath this "debug" date in
  let errorPath := typePath this "error" date in
  let w1 :=
    Env.mkdirSync errorPath (Env.mkdirSync debugPath
      (Env.mkdirSync warnPath (Env.mkdirSync infoPath w))) in
  openFile ERROR errorPath (logName date)
    (openFile DEBUG debugPath (logName date)
       (openFile WARN warnPath (logName date)
          (openFile INFO infoPath (logName date) (this1, w1)))).

Definition constructor (namespace logsPath : string) (settings : option LoggerSettings)
    (template : option string) (now : Date) (w : World) : Logger * World :=
  let this :=
    {| namespace := namespace; logsPath := logsPath;
       template := match template with
                   | Some t => if decide (t = "") then default_template else t
                   | None => default_template
                   end;
       settings := match settings with Some s => s | None => default_settings end;
       currentDay := 0;
       logFiles := ∅ |} in
  loadFiles this now w.

(** The promise of the gzip call is not awaited; its [then] does nothing
    and its [catch] reports on the console. *)
Definition compressFile (this : Logger) (type : LogType) (w : World) : World :=
  match logFiles this !! type with
  | Some file =>
      match Env.gzip_compressFile (Path.join [filePath file; fileName file])
              (Path.join [filePath file; fileName file +:+ ".gz"]) w with
      | inr w' => w'
      | inl (error, w') =>
          Env.console_call console_error
            ("Couldn't compress file " +:+ filePath file +:+ "/" +:+ fileName file)
            (Some (ArgError error)) w'
      end
  | None => w
  end.

(** [compressFiles] runs up to its first [await], that is through
    [compressFile(LogType.INFO)], and is then suspended. *)
Definition compressFiles_until_await (this : Logger) (w : World) : World :=
  compressFile this INFO w.

(** The rest of [compressFiles], run when it is resumed. *)
Definition compressFiles_resumed (this : Logger) (w : World) : World :=
  compressFile this ERROR (compressFile this DEBUG (compressFile this WARN w)).

(** [reloadFiles] calls [compressFiles] without awaiting it, so
    [loadFiles] runs while [compressFiles] is suspended at its first
    [await]; the remaining three [compressFile] calls read [this.logFiles]
    after [loadFiles] has replaced its entries. *)
Definition reloadFiles (this : Logger) (newDate : Date) (w : World) : Logger * World :=
  if decide (JsDate.getDay newDate ≠ currentDay this) then
    let w1 := compressFiles_until_await this w in
    let '(this', w2) := loadFiles this newDate w1 in
    (this', compressFiles_resumed this' w2)
  else (this, w).

Definition logToConsole (this : Logger) (func : ConsoleMethod) (templated : string)
    (object : option JsObject) (w : World) : World :=
  match truthy (includeObjects (settings this)), object with
  | true, Some o => Env.console_call func templated (Some (ArgObject o)) w
  | _, _ => Env.console_call func templated None w
  end.

Definition logToFile (this : Logger) (type : LogType) (templated : string)
    (object : option JsObject) (newDate : Date) (w : World) : Logger * World :=
  let w1 :=
    match logFiles this !! type with
    | Some file =>
        match truthy (includeObjects (settings this)), object with
        | true, Some o =>
            Env.write (writeStream file)
              (templated +:+ "[" +:+ JSON_stringify o +:+ "]" +:+ newline) w
        | _, _ => Env.write (writeStream file) (templated +:+ newline) w
        end
    | None => w
    end in
  reloadFiles this newDate w1.

(** The public calls.  [now] is the clock reading taken while rendering,
    [newDate] the one taken by the rollover check.  Nothing is awaited and
    nothing throws, so the promise handed back is fulfilled. *)
Definition info (this : Logger) (message : string) (object : option JsObject)
    (now newDate : Date) (w : World) : Outcome * (Logger * World) :=
  let templated := assembleTemplate this now INFO message in
  let w1 := if truthy (consoleLog (settings this))
            then logToConsole this console_info templated object w else w in
  (Fulfilled, logToFile this INFO templated object newDate w1).

Definition warn (this : Logger) (message : string) (object : option JsObject)
    (now newDate : Date) (w : World) : Outcome * (Logger * World) :=
  let templated := assembleTemplate this now WARN message in
  let w1 := if truthy (consoleLog (settings this))
            then logToConsole this console_warn templated object w else w in
  (Fulfilled, logToFile this WARN templated object newDate w1).

Definition debug (this : Logger) (message : string) (object : option JsObject)
    (now newDate : Date) (w : World) : Outcome * (Logger * World) :=
  let templated := assembleTemplate this now DEBUG message in
  let w1 := if truthy (consoleLog (settings this))
            then logToConsole this console_debug templated object w else w in
  (Fulfilled, logToFile this DEBUG templated object newDate w1).

Definition error (this : Logger) (message : string) (object : option JsObject)
    (now newDate : Date) (w : World) : Outcome * (Logger * World) :=
  let templated := assembleTemplate this now ERROR message in
  let w1 := if truthy (consoleLog (settings this))
            then logToConsole this console_error templated object w else w in
  (Fulfilled, logToFile this ERROR templated object newDate w1).

End LoggerTs.

(** ** The sibling variant of the class *)

Module Sibling.

(** The option [logToConsole] carries an underscore here because the class
    has a method of that name. *)
Record LoggerSettings := {
  logToFiles : option bool;
  logToConsole_ : option bool;
  logObjects : option bool
}.

Definition parseMonth (month : Z) : string :=
  match month with
  | 1 => "February"
  | 2 => "March"
  | 3 => "April"
  | 4 => "May"
  | 5 => "June"
  | 6 => "July"
  | 7 => "August"
  | 8 => "September"
  | 9 => "October"
  | 10 => "November"
  | 11 => "December"
  | _ => "January"
  end.

Record Logger := {
  namespace : string;
  logsPath : string;
  template : string;
  settings : LoggerSettings;
  currentDay : Z;
  logFiles : gmap LogType LogFile
}.

Definition default_settings : LoggerSettings :=
  {| logToFiles := Some true; logToConsole_ := Some true; logObjects := Some true |}.

Definition assembleTemplate (this : Logger) (now : Date) (type : LogType) (message : string)
  : string :=
  assemble (template this) (namespace this) now type message.

Definition set_logFile (type : LogType) (f : LogFile) (this : Logger) : Logger :=
  {| namespace := namespace this; logsPath := logsPath this; template := template this;
     settings := settings this; currentDay := currentDay this;
     logFiles := <[type := f]> (logFiles this) |}.

Definition logDir (date : Date) : string :=
  Path.join [Number_toString (JsDate.getFullYear date); parseMonth (JsDate.getMonth date)].

Definition logName (date : Date) : string :=
  beautifyNumber (JsDate.getDate date) +:+ "-" +:+ beautifyNumber (JsDate.getHours date)
    +:+ "_" +:+ beautifyNumber (JsDate.getMinutes date) +:+ ".log".

Definition typePath (this : Logger) (folder : string) (date : Date) : string :=
  Path.join [logsPath this; folder; logDir date].

Definition openFile (type : LogType) (dir name : string) (st : Logger * World)
  : Logger * World :=
  let '(h, w) := Env.createWriteStream (Path.join [dir; name]) st.2 in
  (set_logFile type {| filePath := dir; fileName := name; writeStream := h |} st.1, w).

Definition loadFiles (this : Logger) (date : Date) (w : World) : Logger * World :=
  let this1 :=
    {| namespace := namespace this; logsPath := logsPath this; template := template this;
       settings := settings this; currentDay := JsDate.getDate date;
       logFiles := logFiles this |} in
  let infoPath := typePath this "info" date in
  let warnPath := typePath this "warn" date in
  let debugPath := typePath this "debug" date in
  let errorPath := typePath this "error" date in
  let w1 :=
    Env.mkdirSync errorPath (Env.mkdirSync debugPath
      (Env.mkdirSync warnPath (Env.mkdirSync infoPath w))) in
  openFile ERROR errorPath (logName date)
    (openFile DEBUG debugPath (logName date)
       (openFile WARN warnPath (logName date)
          (openFile INFO infoPath (logName date) (this1, w1)))).

Definition constructor (namespace logsPath : string) (settings : option LoggerSettings)
    (template : option string) (now : Date) (w : World) : Logger * World :=
  let this :=
    {| namespace := namespace; logsPath := logsPath;
       template := match template with
                   | Some t => if decide (t = "") then default_template else t
                   | None => default_template
                   end;
       settings := match settings with Some s => s | None => default_settings end;
       currentDay := 0;
       logFiles := ∅ |} in
  loadFiles this now w.

(** The promise built by [compressFile]: resolved after the archive is
    written, the stream ended and the original unlinked; rejected with the
    error of the gzip call; never settled when the map has no entry. *)
Definition compressFile (this : Logger) (type : LogType) (w : World) : Outcome * World :=
  match logFiles this !! type with
  | Some file =>
      match Env.gzip_compressFile (Path.join [filePath file; fileName file])
              (Path.join [filePath file; fileName file +:+ ".gz"]) w with
      | inr w' =>
          (Fulfilled,
           Env.unlink (Path.join [filePath file; fileName file])
             (Env.end_stream (writeStream file) w'))
      | inl (exception, w') => (Rejected exception, w')
      end
  | None => (Pending, w)
  end.

(** [await p; rest]: the rest runs only when [p] is fulfilled. *)
Definition and_then (p : Outcome * World) (rest : World → Outcome * World) : Outcome * World :=
  match p.1 with
  | Fulfilled => rest p.2
  | _ => p
  end.

(** The [catch] of [compressFiles] rethrows what it caught. *)
Definition compressFiles (this : Logger) (w : World) : Outcome * World :=
  and_then (compressFile this INFO w) (λ w1,
  and_then (compressFile this WARN w1) (λ w2,
  and_then (compressFile this DEBUG w2) (λ w3,
  compressFile this ERROR w3))).

Definition reloadFiles (this : Logger) (newDate : Date) (w : World)
  : Outcome * (Logger * World) :=
  if decide (JsDate.getDate newDate ≠ currentDay this) then
    match compressFiles this w with
    | (Fulfilled, w1) => (Fulfilled, loadFiles this newDate w1)
    | (o, w1) => (o, (this, w1))
    end
  else (Fulfilled, (this, w)).

Definition logToConsole (this : Logger) (func : ConsoleMethod) (templated : string)
    (object : option JsObject) (w : World) : World :=
  match truthy (logObjects (settings this)), object with
  | true, Some o => Env.console_call func templated (Some (ArgObject o)) w
  | _, _ => Env.console_call func templated None w
  end.

Definition logToFile (this : Logger) (type : LogType) (templated : string)
    (object : option JsObject) (newDate : Date) (w : World) : Outcome * (Logger * World) :=
  let w1 :=
    match logFiles this !! type with
    | Some file =>
        match truthy (logObjects (settings this)), object with
        | true, Some o =>
            Env.write (writeStream file)
              (templated +:+ "[" +:+ JSON_stringify o +:+ "]" +:+ newline) w
        | _, _ => Env.write (writeStream file) (templated +:+ newline) w
        end
    | None => w
    end in
  reloadFiles this newDate w1.

(** The public calls await the console step and the file step, so what
    the file step's promise does is what the caller sees. *)
Definition info (this : Logger) (message : string) (object : option JsObject)
    (now newDate : Date) (w : World) : Outcome * (Logger * World) :=
  let templated := assembleTemplate this now INFO message in
  let w1 := if truthy (logToConsole_ (settings this))
            then logToConsole this console_info templated object w else w in
  if truthy (logToFiles (settings this))
  then logToFile this INFO templated object newDate w1
  else (Fulfilled, (this, w1)).

Definition warn (this : Logger) (message : string) (object : option JsObject)
    (now newDate : Date) (w : World) : Outcome * (Logger * World) :=
  let templated := assembleTemplate this now WARN message in
  let w1 := if truthy (logToConsole_ (settings this))
            then logToConsole this console_warn templated object w else w in
  if truthy (logToFiles (settings this))
  then logToFile this WARN templated object newDate w1
  else (Fulfilled, (this, w1)).

Definition debug (this : Logger) (message : string) (object : option JsObject)
    (now newDate : Date) (w : World) : Outcome * (Logger * World) :=
  let templated := assembleTemplate this now DEBUG message in
  let w1 := if truthy (logToConsole_ (settings this))
            then logToConsole this console_debug templated object w else w in
  if truthy (logToFiles (settings this))
  then logToFile this DEBUG templated object newDate w1
  else (Fulfilled, (this, w1)).

Definition error (this : Logger) (message : string) (object : option JsObject)
    (now newDate : Date) (w : World) : Outcome * (Logger * World) :=
  let templated := assembleTemplate this now ERROR message in
  let w1 := if truthy (logToConsole_ (settings this))
            then logToConsole this console_error templated object w else w in
  if truthy (logToFiles (settings this))
  then logToFile this ERROR templated object newDate w1
  else (Fulfilled, (this, w1)).

End Sibling.

(** ** Vocabulary of the statements *)

(** The public entry point of each severity. *)
Definition LoggerTs_emit (type : LogType) :=
  match type with
  | INFO => LoggerTs.info
  | WARN => LoggerTs.warn
  | DEBUG => LoggerTs.debug
  | ERROR => LoggerTs.error
  end.

Definition Sibling_emit (type : LogType) :=
  match type with
  | INFO => Sibling.info
  | WARN => Sibling.warn
  | DEBUG => Sibling.debug
  | ERROR => Sibling.error
  end.

(** The severity's sub-directory below the base directory. *)
Definition folder (type : LogType) : string :=
  match type with INFO => "info" | WARN => "warn" | DEBUG => "debug" | ERROR => "error" end.

(** The full English name of the month with 0-based index [month]. *)
Definition MonthName (month : Z) : string :=
  nth (Z.to_nat month)
    ["January"; "February"; "March"; "April"; "May"; "June"; "July"; "August";
     "September"; "October"; "November"; "December"] "".

(** A decimal digit as a character, and the zero-padded two-digit numeral. *)
Definition digit (n : Z) : ascii := ascii_of_nat (48 + Z.to_nat n).
Definition two_digits (n : Z) : string := String (digit (n / 10)) (String (digit (n mod 10)) "").

(** [x] occurs in [s] as a contiguous substring. *)
Definition contains (x s : string) : Prop := ∃ l r, s = l +:+ x +:+ r.

(** No character of [s] can take part in a replacement pattern. *)
Fixpoint pattern_free (s : string) : bool :=
  match s with
  | "" => true
  | String c s' =>
      negb (Ascii.eqb c "$" || Ascii.eqb c "&" || Ascii.eqb c "`" || Ascii.eqb c "'")
        && pattern_free s'
  end.

(** A clock reading and a world used in the examples: Monday 15 March 2021,
    10:30, then Tuesday 16 March 2021, 00:05, on an empty disk. *)
Definition monday : Date :=
  {| JsDate.getFullYear := 2021; JsDate.getMonth := 2; JsDate.getDate := 15;
     JsDate.getDay := 1; JsDate.getHours := 10; JsDate.getMinutes := 30;
     JsDate.toISOString := "2021-03-15T10:30:00.000Z" |}.

Definition tuesday : Date :=
  {| JsDate.getFullYear := 2021; JsDate.getMonth := 2; JsDate.getDate := 16;
     JsDate.getDay := 2; JsDate.getHours := 0; JsDate.getMinutes := 5;
     JsDate.toISOString := "2021-03-16T00:05:00.000Z" |}.

Definition empty_world : World :=
  {| dirs := ∅; disk := ∅; unreadable := ∅; streams := []; console := [] |}.

(** The console routine each public call passes to [logToConsole]. *)
Definition console_of (type : LogType) : ConsoleMethod :=
  match type with
  | INFO => console_info
  | WARN => console_warn
  | DEBUG => console_debug
  | ERROR => console_error
  end.

(** [c] is one of the characters of [s]. *)
Fixpoint occurs (c : ascii) (s : string) : bool :=
  match s with
  | "" => false
  | String a s' => Ascii.eqb a c || occurs c s'
  end.

(** Every character of [x] is one of the characters of [s]. *)
Fixpoint all_in (x s : string) : bool :=
  match x with
  | "" => true
  | String a x' => occurs a s && all_in x' s
  end.

(** The template after the date, type and namespace passes, that is the
    subject of the message pass. *)
Definition before_message_pass (template namespace : string) (now : Date) (type : LogType)
  : string :=
  replace_g "%namespace%" namespace
    (replace_g "%type%" (LogType_toString type)
       (replace_g "%date%" (getDate now) template)).

(** A path segment that normalisation keeps as it is. *)
Definition plain_segment (x : string) : Prop :=
  occurs "/" x = false ∧ x ≠ "" ∧ x ≠ "." ∧ x ≠ "..".

(** The stack of segments that normalisation keeps of [p], innermost first. *)
Definition Path_stack (p : string) : list string :=
  foldl (Path.normalize_step (negb (Path.first_is_slash p))) [] (Path.segments p).

(** A normalised path written out from its stack. *)
Definition Path_render (absolute : bool) (stack : list string) : string :=
  (if absolute then "/" else "") +:+ Path.join_with "/" (reverse stack).

(** What a normalised path below the base directory starts with: the
    normalised base directory followed by a separator, or nothing when the
    base directory is the current one. *)
Definition base_prefix (base : string) : string :=
  match base with
  | "" => ""
  | _ =>
      (if Path.first_is_slash base then "/" else "")
        +:+ match Path_stack base with
            | [] => ""
            | stack => Path.join_with "/" (reverse stack) +:+ "/"
            end
  end.

(** The stacks normalisation can leave: kept segments on top of a block of
    [".."], which is empty for an absolute path. *)
Definition normal_stack (allowAboveRoot : bool) (stack : list string) : Prop :=
  ∃ top k, stack = top ++ replicate k ".." ∧ Forall plain_segment top
           ∧ (allowAboveRoot = false → k = 0%nat).

(** The path of a log file as the layout describes it, below the
    normalised base directory. *)
Definition log_path (base : string) (type : LogType) (year : Z) (month name : string)
  : string :=
  base_prefix base +:+ folder type +:+ "/" +:+ Number_toString year +:+ "/" +:+ month
    +:+ "/" +:+ name.

(** The file name [<DD>-<HH>_<MM>.log] for a day, an hour and a minute. *)
Definition stem (day hours minutes : Z) : string :=
  two_digits day +:+ "-" +:+ two_digits hours +:+ "_" +:+ two_digits minutes +:+ ".log".

(** The map entry [loadFiles] makes for a severity, and the invariant that
    the whole map was made by [loadFiles] at one clock reading. *)
Definition LoggerTs_file (this : LoggerTs.Logger) (date : Date) (type : LogType) (h : nat)
  : LogFile :=
  {| filePath := LoggerTs.typePath this (folder type) date;
     fileName := LoggerTs.logName date;
     writeStream := h |}.

Definition LoggerTs_generation (this : LoggerTs.Logger) (date : Date) : Prop :=
  LoggerTs.currentDay this = JsDate.getDay date
  ∧ ∀ type, ∃ h, LoggerTs.logFiles this !! type = Some (LoggerTs_file this date type h).

Definition Sibling_file (this : Sibling.Logger) (date : Date) (type : LogType) (h : nat)
  : LogFile :=
  {| filePath := Sibling.typePath this (folder type) date;
     fileName := Sibling.logName date;
     writeStream := h |}.

Definition Sibling_generation (this : Sibling.Logger) (date : Date) : Prop :=
  Sibling.currentDay this = JsDate.getDate date
  ∧ ∀ type, ∃ h, Sibling.logFiles this !! type = Some (Sibling_file this date type h).

(** The handle of a map entry is an open stream on the entry's file. *)
Definition open_on (w : World) (file : LogFile) : Prop :=
  streams w !! writeStream file = Some {| target := fullPath file; ended := false |}.

(** The position of a severity in the order [loadFiles] opens the files. *)
Definition LogType_index (type : LogType) : nat := Z.to_nat (LogType_value type).

(** The chunk a call hands to the stream: the rendered line, the bracketed
    JSON text when the include-objects setting is on and an object was
    supplied, and a line feed. *)
Definition file_line (include : bool) (templated : string) (object : option JsObject)
  : string :=
  match include, object with
  | true, Some o => templated +:+ "[" +:+ JSON_stringify o +:+ "]" +:+ newline
  | _, _ => templated +:+ newline
  end.

(** The console call that echoes a rendered line. *)
Definition echo (include : bool) (func : ConsoleMethod) (templated : string)
    (object : option JsObject) : ConsoleCall :=
  {| method := func; text := templated;
     extra := match include, object with
              | true, Some o => Some (ArgObject o)
              | _, _ => None
              end |}.

(** The console call that reports a failed compression of [file]. *)
Definition compress_report (file : LogFile) : ConsoleCall :=
  {| method := console_error;
     text := "Couldn't compress file " +:+ filePath file +:+ "/" +:+ fileName file;
     extra := Some (ArgError (GzipError (fullPath file))) |}.

Definition is_compress_report (c : ConsoleCall) : Prop := ∃ file, c = compress_report file.

(** The archive path the compression step writes for a map entry. *)
Definition archivePath (file : LogFile) : string :=
  Path.join [filePath file; fileName file +:+ ".gz"].

(** The file of a map entry is on the disk and can be read. *)
Definition readable (w : World) (file : LogFile) : Prop :=
  is_Some (disk w !! fullPath file) ∧ fullPath file ∉ unreadable w.

(** The logger's map was made at [date] and its handles are open. *)
Definition LoggerTs_ready (this : LoggerTs.Logger) (w : World) (date : Date) : Prop :=
  JsDate.in_range date ∧ LoggerTs_generation this date
  ∧ ∀ type file, LoggerTs.logFiles this !! type = Some file → open_on w file.

Definition Sibling_ready (this : Sibling.Logger) (w : World) (date : Date) : Prop :=
  JsDate.in_range date ∧ Sibling_generation this date
  ∧ ∀ type file, Sibling.logFiles this !! type = Some file → open_on w file.

(** The two variants constructed on Monday on the empty disk, with default
    settings and template. *)
Definition LoggerTs_example : LoggerTs.Logger * World :=
  LoggerTs.constructor "svc" "logs" None None monday empty_world.

Definition Sibling_example : Sibling.Logger * World :=
  Sibling.constructor "svc" "logs" None None monday empty_world.

(** The gzip call on [file] rejects in [w]. *)
Definition gzip_fails (w : World) (file : LogFile) : Prop :=
  disk w !! fullPath file = None ∨ fullPath file ∈ unreadable w.

(** The world after the console step of a public call. *)
Definition LoggerTs_echoed (this : LoggerTs.Logger) (type : LogType) (templated : string)
    (object : option JsObject) (w : World) : World :=
  if truthy (LoggerTs.consoleLog (LoggerTs.settings this))
  then LoggerTs.logToConsole this (console_of type) templated object w else w.

Definition Sibling_echoed (this : Sibling.Logger) (type : LogType) (templated : string)
    (object : option JsObject) (w : World) : World :=
  if truthy (Sibling.logToConsole_ (Sibling.settings this))
  then Sibling.logToConsole this (console_of type) templated object w else w.

(** A public call together with the two clock readings it makes. *)
Record Call := {
  call_type : LogType;
  call_message : string;
  call_object : option JsObject;
  call_now : Date;
  call_newDate : Date
}.

(** A sequence of public calls of [src/logger.ts], oldest first. *)
Definition LoggerTs_run (calls : list Call) (st : LoggerTs.Logger * World)
  : LoggerTs.Logger * World :=
  foldl (λ st c, (LoggerTs_emit (call_type c) st.1 (call_message c) (call_object c)
                    (call_now c) (call_newDate c) st.2).2) st calls.

(** On the way from [w] to [w'] no file was removed and no stream was
    ended. *)
Definition World_keeps (w w' : World) : Prop :=
  (∀ p, is_Some (disk w !! p) → is_Some (disk w' !! p))
  ∧ ∀ h st, streams w !! h = Some st → streams w' !! h = Some st.

(** The stream a map entry's handle names when it has just been opened. *)
Definition fresh_stream (file : LogFile) : StreamState :=
  {| target := fullPath file; ended := false |}.

(** Every stream that is still open is the handle of a map entry. *)
Definition Sibling_owned (that : Sibling.Logger) (w : World) : Prop :=
  ∀ h st, streams w !! h = Some st → ended st = false →
          ∃ type file, Sibling.logFiles that !! type = Some file ∧ writeStream file = h.

(** The chunk a public call of [src/logger.ts] writes, and the chunks a
    sequence of calls writes for one severity, in order. *)
Definition LoggerTs_line (this : LoggerTs.Logger) (c : Call) : string :=
  file_line (truthy (LoggerTs.includeObjects (LoggerTs.settings this)))
    (LoggerTs.assembleTemplate this (call_now c) (call_type c) (call_message c))
    (call_object c).

Fixpoint LoggerTs_lines (this : LoggerTs.Logger) (type : LogType) (calls : list Call)
  : string :=
  match calls with
  | [] => ""
  | c :: rest =>
      (if decide (call_type c = type) then LoggerTs_line this c else "")
        +:+ LoggerTs_lines this type rest
  end.

(** No stream that is open afterwards was ended, or absent, before. *)
Definition never_reopens (w w' : World) : Prop :=
  ∀ h st, streams w' !! h = Some st → ended st = false → streams w !! h = Some st.

(** The world after a gzip call on [file] has rejected: the archive path
    holds an empty file. *)
Definition empty_archive (file : LogFile) (w : World) : World :=
  Env.set_disk (insert (archivePath file) (Text "")) w.

(** The length of the path rendered from a stack of segments. *)
Definition jl (stack : list string) : nat :=
  String.length (Path.join_with "/" (reverse stack)).

(** ** The severity placeholder *)

Lemma LogType_toString_digit (type : LogType) :
  LogType_toString type = String (digit (LogType_value type)) "".
Proof. by destruct type. Qed.

Lemma LogType_toString_not_name (type : LogType) :
  LogType_toString type ≠ LogType_name type.
Proof. by destruct type. Qed.

(** C1: with namespace "svc" and default settings, rendering info("boot")
    puts the enum member's number between the second pair of brackets: the
    line is [<iso>] [0] [svc] [boot] in both variants, not
    [<iso>] [INFO] [svc] [boot]. *)
Theorem C1_info_boot_renders_index :
  let this := (LoggerTs.constructor "svc" "logs" None None monday empty_world).1 in
  let that := (Sibling.constructor "svc" "logs" None None monday empty_world).1 in
  LoggerTs.assembleTemplate this monday INFO "boot"
    = "[2021-03-15T10:30:00.000Z] [0] [svc] [boot]"
  ∧ Sibling.assembleTemplate that monday INFO "boot"
    = "[2021-03-15T10:30:00.000Z] [0] [svc] [boot]"
  ∧ LoggerTs.assembleTemplate this monday INFO "boot"
    ≠ "[2021-03-15T10:30:00.000Z] [INFO] [svc] [boot]".
Proof. by vm_compute. Qed.

(** ** The on-disk layout *)

Lemma Sibling_parseMonth_MonthName (month : Z) :
  0 ≤ month ≤ 11 → Sibling.parseMonth month = MonthName month.
Proof.
  intros Hm.
  assert (month = 0 ∨ month = 1 ∨ month = 2 ∨ month = 3 ∨ month = 4 ∨ month = 5 ∨
          month = 6 ∨ month = 7 ∨ month = 8 ∨ month = 9 ∨ month = 10 ∨ month = 11)
    as Hcases by lia.
  destruct_or!; by subst.
Qed.

(** C2: on Monday 15 March 2021 at 10:30, [src/logger.ts] opens the info
    file under the month name "February" and with the day-of-week numeral
    "01"; the path of the claim, with "March" and the day-of-month numeral
    "15", is the one the sibling variant opens. *)
Theorem C2_logger_ts_misnames_month_and_day :
  let this := (LoggerTs.constructor "svc" "logs" None None monday empty_world).1 in
  let that := (Sibling.constructor "svc" "logs" None None monday empty_world).1 in
  fullPath <$> LoggerTs.logFiles this !! INFO = Some "logs/info/2021/February/01-10_30.log"
  ∧ fullPath <$> Sibling.logFiles that !! INFO = Some "logs/info/2021/March/15-10_30.log"
  ∧ MonthName (JsDate.getMonth monday) = "March"
  ∧ two_digits (JsDate.getDate monday) = "15".
Proof. by vm_compute. Qed.

(** ** Settings *)

(** C3 (as stated, refuted): a settings record that gives only the console
    option leaves the include-objects option unset, not true, and the line
    written for info("boot", [1,2]) carries no JSON suffix. *)
Lemma C3_unset_option_is_not_defaulted :
  let s := {| LoggerTs.consoleLog := Some true; LoggerTs.includeObjects := None |} in
  let st := LoggerTs.constructor "svc" "logs" (Some s) None monday empty_world in
  let st' := (LoggerTs.info st.1 "boot" (Some {| JSON_stringify := "[1,2]" |})
                monday monday st.2).2 in
  LoggerTs.includeObjects (LoggerTs.settings st.1) ≠ Some true
  ∧ disk st'.2 !! "logs/info/2021/February/01-10_30.log"
    = Some (Text ("[2021-03-15T10:30:00.000Z] [0] [svc] [boot]" +:+ newline))
  ∧ disk st'.2 !! "logs/info/2021/February/01-10_30.log"
    ≠ Some (Text ("[2021-03-15T10:30:00.000Z] [0] [svc] [boot][[1,2]]" +:+ newline)).
Proof. by vm_compute. Qed.

(** C3 (amended): when the settings argument is omitted both options are
    true; a settings record that is passed replaces the defaults as a whole,
    and an option it does not set to true makes the file step treat a
    supplied object as if none had been supplied.  Both variants. *)
Theorem C3_settings_record_replaces_defaults
    (ns path : string) (tmpl : option string) (now newDate : Date) (w w2 : World)
    (s : LoggerTs.LoggerSettings) (s' : Sibling.LoggerSettings)
    (type : LogType) (templated : string) (o : JsObject) :
  LoggerTs.includeObjects s ≠ Some true →
  Sibling.logObjects s' ≠ Some true →
  let this := (LoggerTs.constructor ns path (Some s) tmpl now w).1 in
  let that := (Sibling.constructor ns path (Some s') tmpl now w).1 in
  LoggerTs.settings (LoggerTs.constructor ns path None tmpl now w).1
    = {| LoggerTs.consoleLog := Some true; LoggerTs.includeObjects := Some true |}
  ∧ Sibling.settings (Sibling.constructor ns path None tmpl now w).1
    = {| Sibling.logToFiles := Some true; Sibling.logToConsole_ := Some true;
         Sibling.logObjects := Some true |}
  ∧ LoggerTs.settings this = s
  ∧ Sibling.settings that = s'
  ∧ LoggerTs.logToFile this type templated (Some o) newDate w2
    = LoggerTs.logToFile this type templated None newDate w2
  ∧ Sibling.logToFile that type templated (Some o) newDate w2
    = Sibling.logToFile that type templated None newDate w2.
Proof.
  intros Hs Hs'. repeat split; try reflexivity.
  - unfold LoggerTs.logToFile. cbn [LoggerTs.settings LoggerTs.constructor].
    change (LoggerTs.settings (LoggerTs.constructor ns path (Some s) tmpl now w).1) with s.
    destruct (LoggerTs.includeObjects s) as [[]|]; [congruence|done..].
  - unfold Sibling.logToFile.
    change (Sibling.settings (Sibling.constructor ns path (Some s') tmpl now w).1) with s'.
    destruct (Sibling.logObjects s') as [[]|]; [congruence|done..].
Qed.

Lemma C3_settings_record_replaces_defaults_witness :
  let s := {| LoggerTs.consoleLog := Some true; LoggerTs.includeObjects := None |} in
  let s' := {| Sibling.logToFiles := Some true; Sibling.logToConsole_ := None;
               Sibling.logObjects := Some false |} in
  let this := (LoggerTs.constructor "svc" "logs" (Some s) None monday empty_world).1 in
  LoggerTs.settings this = s
  ∧ LoggerTs.logToFile this INFO "line" (Some {| JSON_stringify := "[1,2]" |}) tuesday empty_world
    = LoggerTs.logToFile this INFO "line" None tuesday empty_world.
Proof.
  intros s s' this.
  pose proof (C3_settings_record_replaces_defaults "svc" "logs" None monday tuesday
                empty_world empty_world s s' INFO "line" {| JSON_stringify := "[1,2]" |}) as H.
  destruct H as (_ & _ & H1 & _ & H2 & _); [discriminate | discriminate | ].
  split; [exact H1 | exact H2].
Defined.

(** ** The public calls, uniformly *)

Lemma LoggerTs_emit_unfold (type : LogType) (this : LoggerTs.Logger) (message : string)
    (object : option JsObject) (now newDate : Date) (w : World) :
  LoggerTs_emit type this message object now newDate w
  = (Fulfilled,
     LoggerTs.logToFile this type (LoggerTs.assembleTemplate this now type message) object
       newDate
       (if truthy (LoggerTs.consoleLog (LoggerTs.settings this))
        then LoggerTs.logToConsole this (console_of type)
               (LoggerTs.assembleTemplate this now type message) object w
        else w)).
Proof. by destruct type. Qed.

Lemma Sibling_emit_unfold (type : LogType) (this : Sibling.Logger) (message : string)
    (object : option JsObject) (now newDate : Date) (w : World) :
  Sibling_emit type this message object now newDate w
  = let templated := Sibling.assembleTemplate this now type message in
    let w1 := if truthy (Sibling.logToConsole_ (Sibling.settings this))
              then Sibling.logToConsole this (console_of type) templated object w else w in
    if truthy (Sibling.logToFiles (Sibling.settings this))
    then Sibling.logToFile this type templated object newDate w1
    else (Fulfilled, (this, w1)).
Proof. by destruct type. Qed.

(** ** A missing map entry *)



(** ** What a call may change in the logger *)

Lemma LoggerTs_loadFiles_config (this : LoggerTs.Logger) (date : Date) (w : World) :
  let this' := (LoggerTs.loadFiles this date w).1 in
  LoggerTs.namespace this' = LoggerTs.namespace this
  ∧ LoggerTs.logsPath this' = LoggerTs.logsPath this
  ∧ LoggerTs.template this' = LoggerTs.template this
  ∧ LoggerTs.settings this' = LoggerTs.settings this.
Proof. done. Qed.

Lemma LoggerTs_reloadFiles_frame (this : LoggerTs.Logger) (newDate : Date) (w : World) :
  let this' := (LoggerTs.reloadFiles this newDate w).1 in
  (LoggerTs.namespace this' = LoggerTs.namespace this
   ∧ LoggerTs.logsPath this' = LoggerTs.logsPath this
   ∧ LoggerTs.template this' = LoggerTs.template this
   ∧ LoggerTs.settings this' = LoggerTs.settings this)
  ∧ (this' = this ∨ JsDate.getDay newDate ≠ LoggerTs.currentDay this).
Proof.
  unfold LoggerTs.reloadFiles. case_decide as Hday; [|by auto].
  split; [|by right].
  destruct (LoggerTs.loadFiles this newDate _) as [this' w'] eqn:Hload.
  pose proof (LoggerTs_loadFiles_config this newDate
                (LoggerTs.compressFiles_until_await this w)) as Hcfg.
  rewrite Hload in Hcfg. exact Hcfg.
Qed.

Lemma Sibling_reloadFiles_frame (this : Sibling.Logger) (newDate : Date) (w : World) :
  let this' := (Sibling.reloadFiles this newDate w).2.1 in
  (Sibling.namespace this' = Sibling.namespace this
   ∧ Sibling.logsPath this' = Sibling.logsPath this
   ∧ Sibling.template this' = Sibling.template this
   ∧ Sibling.settings this' = Sibling.settings this)
  ∧ (this' = this ∨ JsDate.getDate newDate ≠ Sibling.currentDay this).
Proof.
  unfold Sibling.reloadFiles. case_decide as Hday; [|by auto].
  split; [|by right].
  by destruct (Sibling.compressFiles this w) as [[] w1].
Qed.

(** C10: every public call, in both variants, hands back a logger with the
    same namespace, base path, template and settings record; the logger is
    unchanged altogether unless the clock reading of the rollover check
    differs from the rotation marker. *)
Theorem C10_calls_preserve_configuration
    (type : LogType) (this : LoggerTs.Logger) (that : Sibling.Logger) (message : string)
    (object : option JsObject) (now newDate : Date) (w : World) :
  let this' := (LoggerTs_emit type this message object now newDate w).2.1 in
  let that' := (Sibling_emit type that message object now newDate w).2.1 in
  (LoggerTs.namespace this' = LoggerTs.namespace this
   ∧ LoggerTs.logsPath this' = LoggerTs.logsPath this
   ∧ LoggerTs.template this' = LoggerTs.template this
   ∧ LoggerTs.settings this' = LoggerTs.settings this)
  ∧ (this' = this ∨ JsDate.getDay newDate ≠ LoggerTs.currentDay this)
  ∧ (Sibling.namespace that' = Sibling.namespace that
     ∧ Sibling.logsPath that' = Sibling.logsPath that
     ∧ Sibling.template that' = Sibling.template that
     ∧ Sibling.settings that' = Sibling.settings that)
  ∧ (that' = that ∨ JsDate.getDate newDate ≠ Sibling.currentDay that).
Proof.
  cbn zeta. rewrite LoggerTs_emit_unfold, Sibling_emit_unfold. cbn zeta.
  split; [apply LoggerTs_reloadFiles_frame|].
  split; [apply LoggerTs_reloadFiles_frame|].
  destruct (truthy (Sibling.logToFiles (Sibling.settings that))); [|by auto].
  split; apply Sibling_reloadFiles_frame.
Qed.

(** ** Strings *)

#[local] Arguments String.append : simpl nomatch.

Section string_facts.
Implicit Types s t u x : string.

Lemma string_app_nil_r s : s +:+ "" = s.
Proof. induction s as [|c s IH]; [done|]. cbn. by rewrite IH. Qed.

Lemma string_app_assoc s t u : (s +:+ t) +:+ u = s +:+ t +:+ u.
Proof. induction s as [|c s IH]; [done|]. cbn. by rewrite IH. Qed.

Lemma string_app_length s t :
  String.length (s +:+ t) = (String.length s + String.length t)%nat.
Proof. induction s as [|c s IH]; [done|]. cbn. by rewrite IH. Qed.

Lemma string_app_inv_tail s t u : s +:+ u = t +:+ u → s = t.
Proof.
  revert t. induction s as [|c s IH]; intros [|d t] Heq; cbn in Heq.
  - done.
  - apply (f_equal String.length) in Heq. cbn in Heq.
    rewrite string_app_length in Heq. lia.
  - apply (f_equal String.length) in Heq. cbn in Heq.
    rewrite string_app_length in Heq. lia.
  - injection Heq as -> Heq. f_equal. by apply IH.
Qed.

Lemma contains_empty s : contains "" s.
Proof. by exists "", s. Qed.

Lemma contains_app x s l r : contains x s → contains x (l +:+ s +:+ r).
Proof.
  intros (l' & r' & ->). exists (l +:+ l'), (r' +:+ r).
  by rewrite !string_app_assoc.
Qed.

Lemma contains_cons x s c : contains x s → contains x (String c s).
Proof. intros (l & r & ->). by exists (String c l), r. Qed.

Lemma contains_app_l x s l : contains x s → contains x (l +:+ s).
Proof.
  intros H. apply (contains_app x s l "") in H. by rewrite string_app_nil_r in H.
Qed.

Lemma strip_prefix_app x s : strip_prefix x (x +:+ s) = Some s.
Proof. induction x as [|c x IH]; [done|]. cbn. by rewrite Ascii.eqb_refl. Qed.

Lemma strip_prefix_Some x s rest : strip_prefix x s = Some rest → s = x +:+ rest.
Proof.
  revert s. induction x as [|c x IH]; intros s H; cbn in H.
  - by injection H as ->.
  - destruct s as [|d s]; [done|].
    destruct (Ascii.eqb c d) eqn:Hcd; [|done].
    apply Ascii.eqb_eq in Hcd as ->. cbn. f_equal. by apply IH.
Qed.

Lemma occurs_all_in_cons x s c : all_in x s = true → all_in x (String c s) = true.
Proof.
  induction x as [|a x IH]; [done|]. cbn.
  intros [Ha Hx]%andb_true_iff. rewrite Ha, orb_true_r. by apply IH.
Qed.

Lemma all_in_refl s : all_in s s = true.
Proof.
  induction s as [|c s IH]; [done|]. cbn. rewrite Ascii.eqb_refl. cbn.
  by apply occurs_all_in_cons.
Qed.
End string_facts.

(** ** The replacement text *)

Lemma GetSubstitution_literal (tok : string) (matched before after r : string) :
  pattern_free tok = true →
  GetSubstitution matched before after (tok +:+ r)
  = tok +:+ GetSubstitution matched before after r.
Proof.
  induction tok as [|c tok IH]; [done|]. cbn.
  intros [Hc Htok]%andb_true_iff.
  apply negb_true_iff in Hc. rewrite !orb_false_iff in Hc. destruct Hc as [[[Hc _] _] _].
  rewrite Hc. by rewrite IH.
Qed.

Lemma GetSubstitution_keeps_token (tok : string) (matched before after : string) (n : nat) :
  pattern_free tok = true →
  ∀ l r, (String.length l ≤ n)%nat →
    contains tok (GetSubstitution matched before after (l +:+ tok +:+ r)).
Proof.
  intros Htok.
  destruct tok as [|t tok']; [intros; apply contains_empty|].
  set (tok := String t tok') in *.
  induction n as [|n IH]; intros l r Hlen.
  - destruct l; [|cbn in Hlen; lia].
    change ("" +:+ tok +:+ r) with (tok +:+ r).
    rewrite GetSubstitution_literal by done.
    exists "", (GetSubstitution matched before after r). done.
  - destruct l as [|c l].
    { apply IH. cbn. lia. }
    cbn in Hlen. change (String c l +:+ tok +:+ r) with (String c (l +:+ tok +:+ r)).
    cbn [GetSubstitution]. destruct (Ascii.eqb c "$").
    + destruct l as [|c2 l].
      * change ("" +:+ tok +:+ r) with (String t ((tok' +:+ r))).
        pose proof Htok as Htok2.
        cbn in Htok2. apply andb_true_iff in Htok2 as [Ht Htok'].
        apply negb_true_iff in Ht. rewrite !orb_false_iff in Ht.
        destruct Ht as [[[Ht1 Ht2] Ht3] Ht4]. rewrite Ht1, Ht2, Ht3, Ht4.
        apply contains_cons.
        change (String t (tok' +:+ r)) with ("" +:+ tok +:+ r).
        apply IH. cbn; lia.
      * change (String c2 l +:+ tok +:+ r) with (String c2 (l +:+ tok +:+ r)).
        cbn in Hlen. cbv beta iota.
        repeat case_match;
          first [ apply contains_cons | apply contains_app_l ];
          first [ apply IH; lia
                | change (String c2 (l +:+ tok +:+ r)) with (String c2 l +:+ tok +:+ r);
                  apply IH; cbn; lia ].
    + apply contains_cons. apply IH. lia.
Qed.

Lemma GetSubstitution_contains (tok message : string) (matched before after : string) :
  pattern_free tok = true → contains tok message →
  contains tok (GetSubstitution matched before after message).
Proof.
  intros Htok (l & r & ->).
  by apply (GetSubstitution_keeps_token tok matched before after (String.length l)).
Qed.

(** ** The scan *)

(** Where the pattern occurs, the scan emits a replacement text. *)
Lemma replace_scan_hit (p : ascii) (pat' rep : string) (l r : string) :
  ∀ before, ∃ L b a R,
    replace_scan (String p pat') rep before 0 (l +:+ String p pat' +:+ r)
    = L +:+ GetSubstitution (String p pat') b a rep +:+ R.
Proof.
  induction l as [|c l IH]; intros before.
  - change ("" +:+ String p pat' +:+ r) with (String p (pat' +:+ r)).
    cbn [replace_scan].
    change (String p (pat' +:+ r)) with (String p pat' +:+ r).
    rewrite strip_prefix_app. by exists "", before, r, (replace_scan (String p pat') rep
      (before +:+ String p "") (String.length (String p pat') - 1) (pat' +:+ r)).
  - change (String c l +:+ String p pat' +:+ r) with (String c (l +:+ String p pat' +:+ r)).
    cbn [replace_scan].
    destruct (strip_prefix _ (String c _)) as [after|].
    + by exists "", before, after, (replace_scan (String p pat') rep
        (before +:+ String c "") (String.length (String p pat') - 1)
        (l +:+ String p pat' +:+ r)).
    + destruct (IH (before +:+ String c "")) as (L & b & a & R & ->).
      by exists (String c L), b, a, R.
Qed.

(** A boundary character that the pattern does not contain splits the
    scan: what follows the boundary is scanned afresh. *)
Lemma replace_scan_boundary (pat rep : string) (sep : ascii) (S : string) :
  occurs sep pat = false →
  ∀ A before skip x rest,
    String.length x = skip → all_in x pat = true → A +:+ String sep S = x +:+ rest →
    ∃ Y, replace_scan pat rep before skip (A +:+ String sep S)
         = Y +:+ replace_scan pat rep (before +:+ A) 0 (String sep S).
Proof.
  intros Hsep. induction A as [|c A IH]; intros before skip x rest Hlen Hx Heq.
  - destruct x as [|a x].
    + cbn in Hlen. subst skip. exists "". by rewrite string_app_nil_r.
    + cbn in Heq. injection Heq as <- _. cbn in Hx. by rewrite Hsep in Hx.
  - assert ((before +:+ String c "") +:+ A = before +:+ String c A) as Hassoc
      by (by rewrite string_app_assoc).
    specialize (IH (before +:+ String c "")). rewrite Hassoc in IH. clear Hassoc.
    change (String c A +:+ String sep S) with (String c (A +:+ String sep S)) in *.
    set (tail := replace_scan pat rep (before +:+ String c A) 0 (String sep S)) in *.
    clearbody tail.
    destruct skip as [|k].
    + destruct x; [|done]. cbn [replace_scan].
      destruct (strip_prefix pat _) as [after|] eqn:Hstrip.
      * destruct pat as [|p pat'].
        { destruct (IH (String.length "" - 1)%nat "" (A +:+ String sep S))
            as (Y & ->); [done..|].
          exists (GetSubstitution "" before after rep +:+ Y).
          by rewrite !string_app_assoc. }
        cbn in Hstrip. destruct (Ascii.eqb p c); [|done].
        apply strip_prefix_Some in Hstrip.
        destruct (IH (String.length (String p pat') - 1)%nat pat' after) as (Y & ->).
        { cbn. lia. }
        { apply occurs_all_in_cons, all_in_refl. }
        { done. }
        exists (GetSubstitution (String p pat') before after rep +:+ Y).
        by rewrite !string_app_assoc.
      * destruct (IH 0%nat "" (A +:+ String sep S)) as (Y & ->); [done..|].
        by exists (String c Y).
    + destruct x as [|a x]; [done|]. cbn in Hlen, Hx, Heq.
      injection Heq as -> Heq. apply andb_true_iff in Hx as [_ Hx].
      cbn [replace_scan].
      destruct (IH k x rest) as (Y & ->); [lia|done..|].
      by exists Y.
Qed.

Lemma replace_g_boundary (pat rep : string) (sep : ascii) (A S : string) :
  occurs sep pat = false →
  ∃ Y, replace_g pat rep (A +:+ String sep S)
       = Y +:+ replace_scan pat rep A 0 (String sep S).
Proof.
  intros Hsep.
  by apply (replace_scan_boundary pat rep sep S Hsep A "" 0%nat "" (A +:+ String sep S)).
Qed.

(** With the default template the message placeholder is still there when
    the message pass starts, whatever the clock reading and the namespace. *)
Lemma default_template_before_message_pass (namespace : string) (now : Date) (type : LogType) :
  contains "%message%" (before_message_pass default_template namespace now type).
Proof.
  unfold before_message_pass.
  set (d := getDate now). set (t := LogType_toString type).
  assert (∃ A, replace_g "%date%" d default_template
               = A +:+ "] [%type%] [%namespace%] [%message%]") as (A1 & ->).
  { by exists ("[" +:+ GetSubstitution "%date%" "[" "] [%type%] [%namespace%] [%message%]" d). }
  destruct (replace_g_boundary "%type%" t "]" A1 " [%type%] [%namespace%] [%message%]")
    as (Y2 & ->); [done|].
  assert (∃ A, Y2 +:+ replace_scan "%type%" t A1 0 "] [%type%] [%namespace%] [%message%]"
               = A +:+ "] [%namespace%] [%message%]") as (A2 & ->).
  { eexists (Y2 +:+ "] [" +:+ GetSubstitution "%type%" _ _ t).
    rewrite !string_app_assoc. reflexivity. }
  destruct (replace_g_boundary "%namespace%" namespace "]" A2 " [%namespace%] [%message%]")
    as (Y3 & ->); [done|].
  eexists (Y3 +:+ "] [" +:+ GetSubstitution "%namespace%" _ _ namespace +:+ "] ["), "]".
  rewrite !string_app_assoc. reflexivity.
Qed.

(** ** The message pass *)

Lemma assemble_keeps_token (template namespace : string) (now : Date) (type : LogType)
    (message tok : string) :
  pattern_free tok = true →
  contains tok message →
  contains "%message%" (before_message_pass template namespace now type) →
  contains tok (assemble template namespace now type message).
Proof.
  intros Htok Hmsg (l & r & Hpre).
  unfold assemble. fold (before_message_pass template namespace now type).
  rewrite Hpre. unfold replace_g.
  destruct (replace_scan_hit "%" "message%" message l r "") as (L & b & a & R & ->).
  apply contains_app. by apply GetSubstitution_contains.
Qed.

(** C7: a stretch of the message that holds no replacement-pattern
    character (each of the four placeholder tokens is one) is found verbatim
    in the rendered line, whenever the message is rendered at all: with the
    default template, or with any template that still holds the message
    placeholder when the message pass starts.  Both variants. *)
Theorem C7_message_tokens_stay_verbatim
    (this : LoggerTs.Logger) (that : Sibling.Logger) (now : Date) (type : LogType)
    (message tok : string) :
  pattern_free tok = true →
  contains tok message →
  LoggerTs.template this = default_template
    ∨ contains "%message%"
        (before_message_pass (LoggerTs.template this) (LoggerTs.namespace this) now type) →
  Sibling.template that = default_template
    ∨ contains "%message%"
        (before_message_pass (Sibling.template that) (Sibling.namespace that) now type) →
  contains tok (LoggerTs.assembleTemplate this now type message)
  ∧ contains tok (Sibling.assembleTemplate that now type message).
Proof.
  intros Htok Hmsg Hthis Hthat. split.
  - apply assemble_keeps_token; [done..|].
    destruct Hthis as [-> | H]; [apply default_template_before_message_pass | exact H].
  - apply assemble_keeps_token; [done..|].
    destruct Hthat as [-> | H]; [apply default_template_before_message_pass | exact H].
Qed.

Lemma C7_message_tokens_stay_verbatim_witness :
  contains "%namespace%"
    (LoggerTs.assembleTemplate
       (LoggerTs.constructor "svc" "logs" None None monday empty_world).1
       monday INFO "see %namespace% and %date%")
  ∧ LoggerTs.assembleTemplate
      (LoggerTs.constructor "svc" "logs" None None monday empty_world).1
      monday INFO "see %namespace% and %date%"
    = "[2021-03-15T10:30:00.000Z] [0] [svc] [see %namespace% and %date%]".
Proof.
  split; [|vm_compute; reflexivity].
  pose proof (C7_message_tokens_stay_verbatim
           (LoggerTs.constructor "svc" "logs" None None monday empty_world).1
           (Sibling.constructor "svc" "logs" None None monday empty_world).1
           monday INFO "see %namespace% and %date%" "%namespace%") as H.
  destruct H as [H _].
  - vm_compute; reflexivity.
  - exists "see ", " and %date%". vm_compute; reflexivity.
  - left. vm_compute; reflexivity.
  - left. vm_compute; reflexivity.
  - exact H.
Defined.

(** What the claim about the message does not extend to: text put in by an
    earlier pass is scanned by the later ones, and a message is read as a
    replacement text. *)
Example namespace_is_rescanned :
  assemble default_template "%message%" monday INFO "hi"
  = "[2021-03-15T10:30:00.000Z] [0] [hi] [hi]".
Proof. by vm_compute. Qed.

Example message_patterns_are_expanded :
  assemble default_template "svc" monday INFO "all: $&, $$1"
  = "[2021-03-15T10:30:00.000Z] [0] [svc] [all: %message%, $1]".
Proof. by vm_compute. Qed.

(** ** Path segments *)

Section segment_facts.
Implicit Types s x : string.
Implicit Types L : list string.

Lemma occurs_app c s t : occurs c (s +:+ t) = occurs c s || occurs c t.
Proof. induction s as [|a s IH]; [done|]. cbn. by rewrite IH, orb_assoc. Qed.

Lemma all_in_occurs x s c : all_in x s = true → occurs c s = false → occurs c x = false.
Proof.
  intros Hx Hc. induction x as [|a x IH]; [done|]. cbn in *.
  apply andb_true_iff in Hx as [Ha Hx]. rewrite (IH Hx), orb_false_r.
  destruct (Ascii.eqb a c) eqn:Hac; [|done].
  apply Ascii.eqb_eq in Hac as ->. congruence.
Qed.

Lemma segments_nonempty s : Path.segments s ≠ [].
Proof.
  destruct s as [|c s]; [done|]. cbn.
  destruct (Ascii.eqb c "/"); [done|]. by destruct (Path.segments s).
Qed.

Lemma segments_slash_free x : occurs "/" x = false → Path.segments x = [x].
Proof.
  induction x as [|c x IH]; [done|]. cbn.
  intros [Hc Hx]%orb_false_iff. by rewrite Hc, (IH Hx).
Qed.

Lemma segments_app_slash s t :
  Path.segments (s +:+ String "/" t) = Path.segments s ++ Path.segments t.
Proof.
  induction s as [|c s IH]; [done|]. cbn. rewrite IH.
  destruct (Ascii.eqb c "/"); [done|].
  pose proof (segments_nonempty s). by destruct (Path.segments s).
Qed.

Lemma segments_elem_slash_free s : Forall (λ x, occurs "/" x = false) (Path.segments s).
Proof.
  induction s as [|c s IH]; [by repeat constructor|]. cbn.
  destruct (Ascii.eqb c "/") eqn:Hc; [by constructor|].
  destruct (Path.segments s) as [|seg rest].
  { repeat constructor. cbn. by rewrite Hc. }
  inversion IH as [|? ? Hseg Hrest]; subst. constructor; [|done].
  cbn. by rewrite Hc, Hseg.
Qed.

Lemma join_with_cons sep x y L :
  Path.join_with sep (x :: y :: L) = x +:+ sep +:+ Path.join_with sep (y :: L).
Proof. done. Qed.

Lemma join_with_app sep L1 L2 :
  L1 ≠ [] → L2 ≠ [] →
  Path.join_with sep (L1 ++ L2) = Path.join_with sep L1 +:+ sep +:+ Path.join_with sep L2.
Proof.
  intros H1 H2. induction L1 as [|x L1 IH]; [done|].
  destruct L1 as [|y L1].
  - destruct L2; [done|]. done.
  - change ((x :: y :: L1) ++ L2) with (x :: y :: (L1 ++ L2)).
    rewrite !join_with_cons.
    change (y :: L1 ++ L2) with ((y :: L1) ++ L2). rewrite IH by done.
    by rewrite !string_app_assoc.
Qed.

Lemma segments_join_with L :
  L ≠ [] → Forall (λ x, occurs "/" x = false) L →
  Path.segments (Path.join_with "/" L) = L.
Proof.
  intros Hne HL. induction L as [|x L IH]; [done|].
  inversion HL as [|? ? Hx HL']; subst.
  destruct L as [|y L]; [by apply segments_slash_free|].
  rewrite join_with_cons.
  change (x +:+ "/" +:+ Path.join_with "/" (y :: L))
    with (x +:+ String "/" (Path.join_with "/" (y :: L))).
  rewrite segments_app_slash, segments_slash_free, IH by done. done.
Qed.

Lemma join_with_nonempty L :
  L ≠ [] → Forall (λ x, x ≠ "") L → Path.join_with "/" L ≠ "".
Proof.
  intros Hne HL. destruct L as [|x L]; [done|].
  inversion HL as [|? ? Hx _]; subst.
  destruct L as [|y L]; [done|]. rewrite join_with_cons. by destruct x.
Qed.

Lemma last_is_slash_app_plain s x :
  x ≠ "" → occurs "/" x = false → Path.last_is_slash (s +:+ x) = false.
Proof.
  intros Hne Hx. induction s as [|c s IH].
  - cbn. induction x as [|a x IHx]; [done|].
    cbn in Hx. apply orb_false_iff in Hx as [Ha Hx].
    destruct x as [|b x]; [done|]. by apply IHx.
  - change (String c s +:+ x) with (String c (s +:+ x)).
    cbn. destruct (s +:+ x) eqn:Hsx; [|done].
    destruct s; [|done]. cbn in Hsx. by subst.
Qed.

Lemma first_is_slash_app s t : s ≠ "" → Path.first_is_slash (s +:+ t) = Path.first_is_slash s.
Proof. by destruct s. Qed.

Lemma first_is_slash_plain x : x ≠ "" → occurs "/" x = false → Path.first_is_slash x = false.
Proof. destruct x as [|c x]; [done|]. cbn. by intros _ [? _]%orb_false_iff. Qed.
End segment_facts.

(** ** Normalisation *)

Section normalisation_facts.
Implicit Types x seg : string.
Implicit Types L stack : list string.

Lemma normalize_step_plain allow stack x :
  plain_segment x → Path.normalize_step allow stack x = x :: stack.
Proof.
  intros (_ & H1 & H2 & H3). unfold Path.normalize_step.
  rewrite decide_False by (intros [?|?]; done). by rewrite decide_False.
Qed.

Lemma foldl_normalize_step_plain allow stack L :
  Forall plain_segment L →
  foldl (Path.normalize_step allow) stack L = reverse L ++ stack.
Proof.
  intros HL. revert stack. induction HL as [|x L Hx HL IH]; intros stack; [done|].
  rewrite reverse_cons. cbn [foldl].
  rewrite normalize_step_plain, IH by done.
  by rewrite <- app_assoc.
Qed.

Lemma plain_segment_dec x :
  occurs "/" x = false → x = "" ∨ x = "." ∨ x = ".." ∨ plain_segment x.
Proof.
  intros Hx. unfold plain_segment.
  destruct (decide (x = "")); [by auto|].
  destruct (decide (x = ".")); [by auto|].
  destruct (decide (x = "..")); by auto 10.
Qed.

Lemma normalize_step_normal allow stack seg :
  occurs "/" seg = false → normal_stack allow stack →
  normal_stack allow (Path.normalize_step allow stack seg).
Proof.
  intros Hseg (top & k & -> & Htop & Hk).
  destruct (plain_segment_dec seg Hseg) as [-> | [-> | [-> | Hplain]]].
  - by exists top, k.
  - by exists top, k.
  - unfold Path.normalize_step. rewrite decide_False by (intros [?|?]; done).
    rewrite decide_True by done.
    destruct top as [|t top].
    + destruct k as [|k]; cbn.
      * destruct allow; [|by exists [], 0%nat].
        by exists [], 1%nat.
      * rewrite decide_True by done. destruct allow; [|by exists [], (S k)].
        by exists [], (S (S k)).
    + cbn. inversion Htop as [|? ? Ht Htop']; subst.
      rewrite decide_False by (by destruct Ht as (_ & _ & _ & ?)).
      by exists top, k.
  - rewrite normalize_step_plain by done.
    exists (seg :: top), k. split_and!; [done| by constructor | done].
Qed.

Lemma foldl_normalize_step_normal allow stack L :
  Forall (λ x, occurs "/" x = false) L → normal_stack allow stack →
  normal_stack allow (foldl (Path.normalize_step allow) stack L).
Proof.
  intros HL. revert stack. induction HL as [|x L Hx HL IH]; intros stack Hst; [done|].
  cbn. by apply IH, normalize_step_normal.
Qed.

Lemma normal_stack_nil allow : normal_stack allow [].
Proof. by exists [], 0%nat. Qed.

Lemma Path_stack_normal p : normal_stack (negb (Path.first_is_slash p)) (Path_stack p).
Proof.
  apply foldl_normalize_step_normal; [apply segments_elem_slash_free | apply normal_stack_nil].
Qed.

Lemma normal_stack_push allow stack L :
  Forall plain_segment L → normal_stack allow stack → normal_stack allow (L ++ stack).
Proof.
  intros HL (top & k & -> & Htop & Hk). exists (L ++ top), k.
  split_and!; [by rewrite app_assoc | by apply Forall_app | done].
Qed.

Lemma normal_stack_elems allow stack :
  normal_stack allow stack → Forall (λ x, occurs "/" x = false ∧ x ≠ "") stack.
Proof.
  intros (top & k & -> & Htop & _). apply Forall_app. split.
  - eapply Forall_impl; [exact Htop|]. by intros x (? & ? & _).
  - by apply Forall_replicate.
Qed.

(** Normalising the segments of a normalised path gives its stack back. *)
Lemma normal_stack_replay allow stack :
  normal_stack allow stack →
  foldl (Path.normalize_step allow) [] (reverse stack) = stack.
Proof.
  intros (top & k & -> & Htop & Hk).
  rewrite reverse_app, reverse_replicate, foldl_app.
  assert (foldl (Path.normalize_step allow) [] (replicate k "..") = replicate k "..") as ->.
  { destruct allow; [|by rewrite Hk].
    clear Hk. induction k as [|k IH]; [done|].
    rewrite replicate_S_end, foldl_app, IH. cbn.
    unfold Path.normalize_step. rewrite decide_False by (intros [?|?]; done).
    rewrite decide_True by done.
    destruct k as [|k]; [done|]. cbn. rewrite decide_True by done.
    by rewrite <- !replicate_S, replicate_S_end. }
  rewrite foldl_normalize_step_plain by (by apply Forall_reverse).
  by rewrite reverse_involutive.
Qed.
End normalisation_facts.

Section join_facts.
Implicit Types x p base : string.
Implicit Types L stack : list string.

Lemma plain_segments_slash_free L :
  Forall plain_segment L → Forall (λ x, occurs "/" x = false) L.
Proof. intros H. eapply Forall_impl; [exact H|]. by intros x (? & _). Qed.

Lemma plain_segments_nonempty L : Forall plain_segment L → Forall (λ x, x ≠ "") L.
Proof. intros H. eapply Forall_impl; [exact H|]. by intros x (_ & ? & _). Qed.

Lemma join_with_ends_plain s L :
  L ≠ [] → Forall plain_segment L →
  Path.last_is_slash (s +:+ Path.join_with "/" L) = false.
Proof.
  intros HL Hplain. destruct (exists_last HL) as (L' & x & ->).
  apply Forall_app in Hplain as [_ Hx]. inversion Hx as [|? ? (Hx1 & Hx2 & _) _]; subst.
  assert (∃ pre, Path.join_with "/" (L' ++ [x]) = pre +:+ x) as (pre & ->).
  { destruct L' as [|y L']; [by exists ""|].
    rewrite join_with_app by done. exists (Path.join_with "/" (y :: L') +:+ "/").
    by rewrite string_app_assoc. }
  rewrite <- string_app_assoc. by apply last_is_slash_app_plain.
Qed.

Lemma normalize_render p :
  p ≠ "" → Path_stack p ≠ [] → Path.last_is_slash p = false →
  Path.normalize p = Path_render (Path.first_is_slash p) (Path_stack p).
Proof.
  intros Hp Hstack Hlast. unfold Path.normalize, Path.normalizeString.
  destruct p as [|c p]; [done|]. rewrite Hlast.
  fold (Path_stack (String c p)).
  assert (Path.join_with "/" (reverse (Path_stack (String c p))) ≠ "") as Hne.
  { apply join_with_nonempty.
    - intros Hrev. apply Hstack. by rewrite <- (reverse_involutive (Path_stack _)), Hrev.
    - apply Forall_reverse.
      eapply Forall_impl; [apply (normal_stack_elems _ _ (Path_stack_normal _))|].
      by intros x [_ ?]. }
  unfold Path_render.
  destruct (Path.join_with "/" (reverse (Path_stack (String c p)))); [done|].
  by destruct (Path.first_is_slash (String c p)).
Qed.

(** Segments appended below a path are pushed on its stack. *)
Lemma Path_stack_under p L :
  p ≠ "" → L ≠ [] → Forall plain_segment L →
  let q := p +:+ "/" +:+ Path.join_with "/" L in
  Path_stack q = reverse L ++ Path_stack p
  ∧ Path.first_is_slash q = Path.first_is_slash p
  ∧ Path.last_is_slash q = false.
Proof.
  intros Hp HL Hplain q. subst q.
  assert (Path.first_is_slash (p +:+ "/" +:+ Path.join_with "/" L) = Path.first_is_slash p)
    as Hfirst by (by apply first_is_slash_app).
  split_and!; [|done|].
  - unfold Path_stack. rewrite Hfirst.
    change (p +:+ "/" +:+ Path.join_with "/" L)
      with (p +:+ String "/" (Path.join_with "/" L)).
    rewrite segments_app_slash, segments_join_with, foldl_app
      by auto using plain_segments_slash_free.
    by apply foldl_normalize_step_plain.
  - rewrite <- string_app_assoc. by apply join_with_ends_plain.
Qed.

Lemma Path_stack_plain L :
  L ≠ [] → Forall plain_segment L →
  let q := Path.join_with "/" L in
  Path_stack q = reverse L ∧ Path.first_is_slash q = false ∧ Path.last_is_slash q = false
  ∧ q ≠ "".
Proof.
  intros HL Hplain q. subst q.
  assert (Path.first_is_slash (Path.join_with "/" L) = false) as Hfirst.
  { destruct L as [|x L]; [done|]. inversion Hplain as [|? ? (Hx1 & Hx2 & _) _]; subst.
    destruct L as [|y L]; [by apply first_is_slash_plain|].
    rewrite join_with_cons, first_is_slash_app by done. by apply first_is_slash_plain. }
  split_and!; [|done| |].
  - unfold Path_stack. rewrite Hfirst, segments_join_with
      by auto using plain_segments_slash_free.
    rewrite foldl_normalize_step_plain by done. by rewrite app_nil_r.
  - by apply (join_with_ends_plain "").
  - by apply join_with_nonempty, plain_segments_nonempty.
Qed.

(** The stack of a path written out from a stack is that stack. *)
Lemma Path_stack_render absolute stack :
  normal_stack (negb absolute) stack → stack ≠ [] →
  let q := Path_render absolute stack in
  Path_stack q = stack ∧ Path.first_is_slash q = absolute ∧ q ≠ "".
Proof.
  intros Hnormal Hne q. subst q. unfold Path_render.
  assert (reverse stack ≠ []) as Hrev.
  { intros Hrev. apply Hne. by rewrite <- (reverse_involutive stack), Hrev. }
  assert (Forall (λ x, occurs "/" x = false) (reverse stack)) as Hfree.
  { apply Forall_reverse. eapply Forall_impl; [by apply normal_stack_elems in Hnormal|].
    by intros x [? _]. }
  destruct absolute; cbn [negb] in *.
  - change ("/" +:+ Path.join_with "/" (reverse stack))
      with (String "/" (Path.join_with "/" (reverse stack))).
    split_and!; [|done..].
    unfold Path_stack. cbn [Path.segments Path.first_is_slash].
    rewrite Ascii.eqb_refl. cbn [negb foldl].
    rewrite segments_join_with by done.
    change (Path.normalize_step false [] "") with (@nil string).
    by apply normal_stack_replay.
  - change ("" +:+ Path.join_with "/" (reverse stack))
      with (Path.join_with "/" (reverse stack)).
    assert (Path.first_is_slash (Path.join_with "/" (reverse stack)) = false) as Hfirst.
    { destruct (reverse stack) as [|x L] eqn:HL; [done|].
      assert (x ≠ "" ∧ occurs "/" x = false) as [Hx1 Hx2].
      { apply normal_stack_elems in Hnormal.
        apply Forall_reverse in Hnormal. rewrite HL in Hnormal.
        by inversion Hnormal as [|? ? [? ?] _]. }
      destruct L as [|y L]; [by apply first_is_slash_plain|].
      rewrite join_with_cons, first_is_slash_app by done.
      by apply first_is_slash_plain. }
    split_and!; [|done|].
    + unfold Path_stack. rewrite Hfirst, segments_join_with by done.
      by apply normal_stack_replay.
    + apply join_with_nonempty; [done|].
      apply Forall_reverse. eapply Forall_impl; [by apply normal_stack_elems in Hnormal|].
      by intros x [_ ?].
Qed.

Lemma Path_render_base_prefix base L :
  L ≠ [] →
  Path_render (Path.first_is_slash base) (reverse L ++ Path_stack base)
  = base_prefix base +:+ Path.join_with "/" L.
Proof.
  intros HL. unfold Path_render, base_prefix.
  rewrite reverse_app, reverse_involutive.
  destruct base as [|c base]; [done|].
  rewrite string_app_assoc. f_equal.
  destruct (Path_stack (String c base)) as [|x stack] eqn:Hst; [done|].
  rewrite join_with_app; [by rewrite !string_app_assoc| |done].
  intros Hrev. by apply (f_equal reverse) in Hrev; rewrite reverse_involutive in Hrev.
Qed.
End join_facts.

(** ** [path.join] on the arguments the logger passes *)

Local Ltac plain_list := repeat (apply Forall_cons_2; [assumption|]); apply Forall_nil_2.

Section layout_facts.
Implicit Types base f y m name : string.

Lemma Path_join_plain y m :
  plain_segment y → plain_segment m → Path.join [y; m] = y +:+ "/" +:+ m.
Proof.
  intros Hy Hm. unfold Path.join.
  assert (filter (λ a : string, a ≠ "") [y; m] = [y; m]) as ->.
  { destruct Hy as (_ & ? & _), Hm as (_ & ? & _).
    cbn. by rewrite !decide_True by done. }
  assert (Forall plain_segment [y; m]) as HL by plain_list.
  destruct (Path_stack_plain [y; m]) as (Hst & Hfirst & Hlast & Hne); [done..|].
  rewrite normalize_render by (by rewrite ?Hst).
  by rewrite Hst, Hfirst.
Qed.

(** The directory of a severity and the file inside it, written out. *)
Lemma Path_join_layout base f y m name :
  plain_segment f → plain_segment y → plain_segment m → plain_segment name →
  let dir := Path.join [base; f; Path.join [y; m]] in
  dir = base_prefix base +:+ f +:+ "/" +:+ y +:+ "/" +:+ m
  ∧ Path.join [dir; name] = dir +:+ "/" +:+ name.
Proof.
  intros Hf Hy Hm Hname dir. subst dir. rewrite (Path_join_plain y m) by done.
  assert (Forall plain_segment [f; y; m]) as HL by plain_list.
  set (stack := reverse [f; y; m] ++ Path_stack base).
  set (absolute := Path.first_is_slash base).
  assert (Path.join [base; f; y +:+ "/" +:+ m] = Path_render absolute stack) as Hdir.
  { unfold Path.join. destruct (decide (base = "")) as [-> | Hbase].
    - assert (filter (λ a : string, a ≠ "") [""; f; y +:+ "/" +:+ m] = [f; y +:+ "/" +:+ m])
        as ->.
      { destruct Hf as (_ & ? & _), Hy as (_ & ? & _).
        cbn. rewrite decide_False by (by intros []).
        rewrite !decide_True; [done| by destruct y | done]. }
      change (Path.join_with "/" [f; y +:+ "/" +:+ m]) with (Path.join_with "/" [f; y; m]).
      destruct (Path_stack_plain [f; y; m]) as (Hst & Hfirst & Hlast & Hne); [done..|].
      rewrite normalize_render by (by rewrite ?Hst). rewrite Hst, Hfirst.
      subst stack absolute. by rewrite app_nil_r.
    - assert (filter (λ a : string, a ≠ "") [base; f; y +:+ "/" +:+ m]
              = [base; f; y +:+ "/" +:+ m]) as ->.
      { destruct Hf as (_ & ? & _), Hy as (_ & ? & _).
        cbn. rewrite !decide_True; [done| by destruct y | done..]. }
      change (Path.join_with "/" [base; f; y +:+ "/" +:+ m])
        with (base +:+ "/" +:+ Path.join_with "/" [f; y; m]).
      destruct (Path_stack_under base [f; y; m]) as (Hst & Hfirst & Hlast); [done..|].
      rewrite normalize_render; [by rewrite Hst, Hfirst | by destruct base | |done].
      rewrite Hst. done. }
  rewrite Hdir.
  assert (normal_stack (negb absolute) stack) as Hnormal.
  { apply normal_stack_push; [by apply Forall_reverse | apply Path_stack_normal]. }
  destruct (Path_stack_render absolute stack) as (Hst & Hfirst & Hne); [done..|].
  split.
  - subst stack absolute. rewrite Path_render_base_prefix by done. done.
  - unfold Path.join.
    assert (filter (λ a : string, a ≠ "") [Path_render absolute stack; name]
            = [Path_render absolute stack; name]) as ->.
    { destruct Hname as (_ & ? & _). cbn. by rewrite !decide_True by done. }
    change (Path.join_with "/" [Path_render absolute stack; name])
      with (Path_render absolute stack +:+ "/" +:+ Path.join_with "/" [name]).
    destruct (Path_stack_under (Path_render absolute stack) [name])
      as (Hst' & Hfirst' & Hlast'); [done|done|plain_list|].
    rewrite normalize_render; [| by destruct (Path_render absolute stack) | by rewrite Hst' | done].
    rewrite Hst', Hfirst', Hst, Hfirst.
    unfold Path_render. rewrite reverse_app, (reverse_involutive [name]).
    rewrite join_with_app; [by rewrite !string_app_assoc| |done].
    intros Hrev. apply (f_equal reverse) in Hrev. by rewrite reverse_involutive in Hrev.
Qed.
End layout_facts.

(** ** The components of a log path *)

Lemma Z_below_forallb (k : nat) (P : Z → bool) :
  forallb P (map Z.of_nat (seq 0 k)) = true → ∀ n, 0 ≤ n < Z.of_nat k → P n = true.
Proof.
  intros Hall n Hn. rewrite forallb_forall in Hall. apply Hall.
  apply in_map_iff. exists (Z.to_nat n). split; [lia|]. apply in_seq. lia.
Qed.

Lemma beautifyNumber_two_digits (n : Z) : 0 ≤ n < 100 → beautifyNumber n = two_digits n.
Proof.
  intros Hn. apply String.eqb_eq.
  by apply (Z_below_forallb 100 (λ n, String.eqb (beautifyNumber n) (two_digits n))).
Qed.

Lemma two_digits_slash_free (n : Z) : 0 ≤ n < 100 → occurs "/" (two_digits n) = false.
Proof.
  intros Hn. apply negb_true_iff.
  by apply (Z_below_forallb 100 (λ n, negb (occurs "/" (two_digits n)))).
Qed.

Lemma two_digits_inj (n m : Z) :
  0 ≤ n < 100 → 0 ≤ m < 100 → two_digits n = two_digits m → n = m.
Proof.
  intros Hn Hm Heq.
  pose proof (Z_below_forallb 100
    (λ n, forallb (λ m, implb (String.eqb (two_digits n) (two_digits m)) (n =? m))
            (map Z.of_nat (seq 0 100)))) as Hall.
  specialize (Hall ltac:(by vm_compute) n Hn). cbv beta in Hall.
  pose proof (Z_below_forallb 100 _ Hall m Hm) as H. cbv beta in H.
  apply String.eqb_eq in Heq. rewrite Heq in H. by apply Z.eqb_eq.
Qed.

Lemma stem_length (day hours minutes : Z) : String.length (stem day hours minutes) = 12%nat.
Proof. reflexivity. Qed.

Lemma stem_plain (day hours minutes : Z) :
  0 ≤ day < 100 → 0 ≤ hours < 100 → 0 ≤ minutes < 100 →
  plain_segment (stem day hours minutes)
  ∧ plain_segment (stem day hours minutes +:+ ".gz").
Proof.
  intros Hd Hh Hm.
  assert (occurs "/" (stem day hours minutes) = false) as Hfree.
  { unfold stem. rewrite !occurs_app, !two_digits_slash_free by done. done. }
  split; (split_and!; [by rewrite ?occurs_app, Hfree| by intros H..]).
Qed.

Lemma stem_inj_day (d d' h h' m m' : Z) :
  0 ≤ d < 100 → 0 ≤ d' < 100 → stem d h m = stem d' h' m' → d = d'.
Proof.
  intros Hd Hd' Heq. apply two_digits_inj; [done..|].
  unfold stem, two_digits in *.
  change (String ?a (String ?b "") +:+ ?r) with (String a (String b r)) in Heq.
  injection Heq as H1 H2 _. by rewrite H1, H2.
Qed.

Lemma stem_not_archive (d h m d' h' m' : Z) : stem d h m ≠ stem d' h' m' +:+ ".gz".
Proof.
  intros Heq. apply (f_equal String.length) in Heq.
  by rewrite string_app_length, !stem_length in Heq.
Qed.

Lemma LoggerTs_logName_stem (date : Date) :
  JsDate.in_range date →
  LoggerTs.logName date
  = stem (JsDate.getDay date) (JsDate.getHours date) (JsDate.getMinutes date).
Proof.
  intros (_ & _ & ? & ? & ?). unfold LoggerTs.logName, stem.
  by rewrite !beautifyNumber_two_digits by lia.
Qed.

Lemma Sibling_logName_stem (date : Date) :
  JsDate.in_range date →
  Sibling.logName date
  = stem (JsDate.getDate date) (JsDate.getHours date) (JsDate.getMinutes date).
Proof.
  intros (_ & ? & _ & ? & ?). unfold Sibling.logName, stem.
  by rewrite !beautifyNumber_two_digits by lia.
Qed.

Lemma folder_plain (type : LogType) : plain_segment (folder type).
Proof. by destruct type. Qed.

Lemma folder_inj (type type' : LogType) : folder type = folder type' → type = type'.
Proof. by destruct type, type'. Qed.

Lemma string_of_uint_digits (d : Decimal.uint) :
  all_in (NilEmpty.string_of_uint d) "-0123456789" = true.
Proof. induction d; cbn; by rewrite ?IHd. Qed.

Lemma Number_toString_plain (n : Z) : plain_segment (Number_toString n).
Proof.
  assert (all_in (Number_toString n) "-0123456789" = true ∧ Number_toString n ≠ "")
    as [Hall Hne].
  { unfold Number_toString, NilZero.string_of_int, NilZero.string_of_uint.
    destruct (Z.to_int n) as [d|d]; (split; [|by destruct d]);
      destruct d; first [ done | apply (string_of_uint_digits (_ d)) | idtac ];
      cbn; by rewrite ?string_of_uint_digits. }
  split_and!; [by eapply all_in_occurs | done | by intros H; rewrite H in Hall..].
Qed.

Lemma LoggerTs_parseMonth_plain (month : Z) : plain_segment (LoggerTs.parseMonth month).
Proof. unfold LoggerTs.parseMonth. by repeat case_match. Qed.

Lemma Sibling_parseMonth_plain (month : Z) : plain_segment (Sibling.parseMonth month).
Proof. unfold Sibling.parseMonth. by repeat case_match. Qed.

(** ** Where the files are *)

Lemma log_path_inj (base : string) (type type' : LogType) (year year' : Z)
    (month month' name name' : string) :
  plain_segment month → plain_segment month' → plain_segment name → plain_segment name' →
  log_path base type year month name = log_path base type' year' month' name' →
  type = type' ∧ month = month' ∧ name = name'.
Proof.
  intros Hm Hm' Hn Hn' Heq. unfold log_path in Heq.
  apply (inj (String.app _)) in Heq.
  change (?f +:+ "/" +:+ ?y +:+ "/" +:+ ?m +:+ "/" +:+ ?n)
    with (Path.join_with "/" [f; y; m; n]) in Heq.
  apply (f_equal Path.segments) in Heq.
  pose proof (folder_plain type). pose proof (folder_plain type').
  pose proof (Number_toString_plain year). pose proof (Number_toString_plain year').
  rewrite !segments_join_with in Heq
    by (try done; apply plain_segments_slash_free; plain_list).
  injection Heq as Hf _ -> ->. by apply folder_inj in Hf as ->.
Qed.

Lemma LoggerTs_fullPath (this : LoggerTs.Logger) (date : Date) (type : LogType) (h : nat) :
  JsDate.in_range date →
  let file := LoggerTs_file this date type h in
  fullPath file
  = log_path (LoggerTs.logsPath this) type (JsDate.getFullYear date)
      (LoggerTs.parseMonth (JsDate.getMonth date))
      (stem (JsDate.getDay date) (JsDate.getHours date) (JsDate.getMinutes date))
  ∧ Path.join [filePath file; fileName file +:+ ".gz"] = fullPath file +:+ ".gz".
Proof.
  intros Hrange file. subst file. unfold fullPath, LoggerTs_file, log_path. cbn [filePath fileName].
  rewrite LoggerTs_logName_stem by done.
  destruct Hrange as (_ & _ & ? & ? & ?).
  destruct (stem_plain (JsDate.getDay date) (JsDate.getHours date) (JsDate.getMinutes date))
    as [Hname Hgz]; [lia..|].
  pose proof (folder_plain type) as Hf.
  pose proof (Number_toString_plain (JsDate.getFullYear date)) as Hy.
  pose proof (LoggerTs_parseMonth_plain (JsDate.getMonth date)) as Hm.
  unfold LoggerTs.typePath, LoggerTs.logDir.
  destruct (Path_join_layout (LoggerTs.logsPath this) _ _ _ _ Hf Hy Hm Hname) as [Hdir ->].
  destruct (Path_join_layout (LoggerTs.logsPath this) _ _ _ _ Hf Hy Hm Hgz) as [_ ->].
  rewrite Hdir. by rewrite !string_app_assoc.
Qed.

Lemma Sibling_fullPath (this : Sibling.Logger) (date : Date) (type : LogType) (h : nat) :
  JsDate.in_range date →
  let file := Sibling_file this date type h in
  fullPath file
  = log_path (Sibling.logsPath this) type (JsDate.getFullYear date)
      (MonthName (JsDate.getMonth date))
      (stem (JsDate.getDate date) (JsDate.getHours date) (JsDate.getMinutes date))
  ∧ Path.join [filePath file; fileName file +:+ ".gz"] = fullPath file +:+ ".gz".
Proof.
  intros Hrange file. subst file. unfold fullPath, Sibling_file, log_path. cbn [filePath fileName].
  rewrite Sibling_logName_stem by done.
  destruct Hrange as (Hmonth & ? & _ & ? & ?).
  destruct (stem_plain (JsDate.getDate date) (JsDate.getHours date) (JsDate.getMinutes date))
    as [Hname Hgz]; [lia..|].
  pose proof (folder_plain type) as Hf.
  pose proof (Number_toString_plain (JsDate.getFullYear date)) as Hy.
  pose proof (Sibling_parseMonth_plain (JsDate.getMonth date)) as Hm.
  unfold Sibling.typePath, Sibling.logDir.
  destruct (Path_join_layout (Sibling.logsPath this) _ _ _ _ Hf Hy Hm Hname) as [Hdir ->].
  destruct (Path_join_layout (Sibling.logsPath this) _ _ _ _ Hf Hy Hm Hgz) as [_ ->].
  rewrite Hdir, Sibling_parseMonth_MonthName by done. by rewrite !string_app_assoc.
Qed.

(** ** Opening a generation *)

(** What the environment's operations do to each component of the world;
    collected in a rewrite database so that composite operations are read
    off component by component. *)
Section env_projections.
Implicit Types w : World.
Implicit Types path : string.

Lemma mkdirSync_disk path w : disk (Env.mkdirSync path w) = disk w.
Proof. done. Qed.
Lemma mkdirSync_streams path w : streams (Env.mkdirSync path w) = streams w.
Proof. done. Qed.
Lemma mkdirSync_console path w : console (Env.mkdirSync path w) = console w.
Proof. done. Qed.
Lemma mkdirSync_unreadable path w : unreadable (Env.mkdirSync path w) = unreadable w.
Proof. done. Qed.

Lemma createWriteStream_handle path w : (Env.createWriteStream path w).1 = length (streams w).
Proof. done. Qed.
Lemma createWriteStream_disk path w :
  disk (Env.createWriteStream path w).2 = <[path := Text ""]> (disk w).
Proof. done. Qed.
Lemma createWriteStream_streams path w :
  streams (Env.createWriteStream path w).2
  = streams w ++ [ {| target := path; ended := false |} ].
Proof. done. Qed.
Lemma createWriteStream_console path w :
  console (Env.createWriteStream path w).2 = console w.
Proof. done. Qed.
Lemma createWriteStream_unreadable path w :
  unreadable (Env.createWriteStream path w).2 = unreadable w.
Proof. done. Qed.

Lemma console_call_disk m t x w : disk (Env.console_call m t x w) = disk w.
Proof. done. Qed.
Lemma console_call_streams m t x w : streams (Env.console_call m t x w) = streams w.
Proof. done. Qed.
Lemma console_call_unreadable m t x w :
  unreadable (Env.console_call m t x w) = unreadable w.
Proof. done. Qed.
Lemma console_call_console m t x w :
  console (Env.console_call m t x w)
  = console w ++ [ {| method := m; text := t; extra := x |} ].
Proof. done. Qed.

Lemma set_disk_disk f w : disk (Env.set_disk f w) = f (disk w).
Proof. done. Qed.
Lemma set_disk_streams f w : streams (Env.set_disk f w) = streams w.
Proof. done. Qed.
Lemma set_disk_console f w : console (Env.set_disk f w) = console w.
Proof. done. Qed.
Lemma set_disk_unreadable f w : unreadable (Env.set_disk f w) = unreadable w.
Proof. done. Qed.
End env_projections.

Create Rewrite HintDb world.
#[global] Hint Rewrite mkdirSync_disk mkdirSync_streams mkdirSync_console mkdirSync_unreadable
  createWriteStream_handle createWriteStream_disk createWriteStream_streams
  createWriteStream_console createWriteStream_unreadable
  console_call_disk console_call_streams console_call_unreadable console_call_console
  set_disk_disk set_disk_streams set_disk_console set_disk_unreadable : world.

Section LoggerTs_openFile.
Variables (type : LogType) (dir name : string) (st : LoggerTs.Logger * World).

Lemma LoggerTs_openFile_logFiles :
  LoggerTs.logFiles (LoggerTs.openFile type dir name st).1
  = <[type := {| filePath := dir; fileName := name; writeStream := length (streams st.2) |}]>
      (LoggerTs.logFiles st.1).
Proof. done. Qed.
Lemma LoggerTs_openFile_logsPath :
  LoggerTs.logsPath (LoggerTs.openFile type dir name st).1 = LoggerTs.logsPath st.1.
Proof. done. Qed.
Lemma LoggerTs_openFile_currentDay :
  LoggerTs.currentDay (LoggerTs.openFile type dir name st).1 = LoggerTs.currentDay st.1.
Proof. done. Qed.
Lemma LoggerTs_openFile_world :
  (LoggerTs.openFile type dir name st).2 = (Env.createWriteStream (Path.join [dir; name]) st.2).2.
Proof. done. Qed.
End LoggerTs_openFile.

Section Sibling_openFile.
Variables (type : LogType) (dir name : string) (st : Sibling.Logger * World).

Lemma Sibling_openFile_logFiles :
  Sibling.logFiles (Sibling.openFile type dir name st).1
  = <[type := {| filePath := dir; fileName := name; writeStream := length (streams st.2) |}]>
      (Sibling.logFiles st.1).
Proof. done. Qed.
Lemma Sibling_openFile_logsPath :
  Sibling.logsPath (Sibling.openFile type dir name st).1 = Sibling.logsPath st.1.
Proof. done. Qed.
Lemma Sibling_openFile_currentDay :
  Sibling.currentDay (Sibling.openFile type dir name st).1 = Sibling.currentDay st.1.
Proof. done. Qed.
Lemma Sibling_openFile_world :
  (Sibling.openFile type dir name st).2 = (Env.createWriteStream (Path.join [dir; name]) st.2).2.
Proof. done. Qed.
End Sibling_openFile.

#[global] Hint Rewrite LoggerTs_openFile_logFiles LoggerTs_openFile_logsPath
  LoggerTs_openFile_currentDay LoggerTs_openFile_world
  Sibling_openFile_logFiles Sibling_openFile_logsPath
  Sibling_openFile_currentDay Sibling_openFile_world : world.

Local Ltac open_generation :=
  autorewrite with world; cbn [fst snd LoggerTs.logsPath LoggerTs.currentDay
    LoggerTs.logFiles Sibling.logsPath Sibling.currentDay Sibling.logFiles].

Lemma LoggerTs_loadFiles_spec (this : LoggerTs.Logger) (date : Date) (w : World) :
  let file type :=
    LoggerTs_file this date type (length (streams w) + LogType_index type) in
  let opened type := {| target := fullPath (file type); ended := false |} in
  let r := LoggerTs.loadFiles this date w in
  LoggerTs.logsPath r.1 = LoggerTs.logsPath this
  ∧ LoggerTs.currentDay r.1 = JsDate.getDay date
  ∧ (∀ type, LoggerTs.logFiles r.1 !! type = Some (file type))
  ∧ streams r.2 = streams w ++ [opened INFO; opened WARN; opened DEBUG; opened ERROR]
  ∧ (∀ type, disk r.2 !! fullPath (file type) = Some (Text ""))
  ∧ (∀ p, (∀ type, p ≠ fullPath (file type)) → disk r.2 !! p = disk w !! p)
  ∧ console r.2 = console w
  ∧ unreadable r.2 = unreadable w.
Proof.
  intros file opened r. subst r. unfold LoggerTs.loadFiles.
  open_generation.
  split; [reflexivity|]. split; [reflexivity|].
  split; [|split; [|split; [|split; [|split; reflexivity]]]].
  - intros type. rewrite !length_app. cbn [length].
    destruct type; simplify_map_eq; subst file; unfold LoggerTs_file;
      do 2 f_equal; unfold LogType_index; cbn; lia.
  - by rewrite <- !app_assoc.
  - intros type. rewrite !lookup_insert. by destruct type; repeat case_decide.
  - intros p Hp. rewrite !lookup_insert_ne; [done|..]; intros <-.
    + by apply (Hp INFO). + by apply (Hp WARN). + by apply (Hp DEBUG). + by apply (Hp ERROR).
Qed.

Lemma Sibling_loadFiles_spec (this : Sibling.Logger) (date : Date) (w : World) :
  let file type :=
    Sibling_file this date type (length (streams w) + LogType_index type) in
  let opened type := {| target := fullPath (file type); ended := false |} in
  let r := Sibling.loadFiles this date w in
  Sibling.logsPath r.1 = Sibling.logsPath this
  ∧ Sibling.currentDay r.1 = JsDate.getDate date
  ∧ (∀ type, Sibling.logFiles r.1 !! type = Some (file type))
  ∧ streams r.2 = streams w ++ [opened INFO; opened WARN; opened DEBUG; opened ERROR]
  ∧ (∀ type, disk r.2 !! fullPath (file type) = Some (Text ""))
  ∧ (∀ p, (∀ type, p ≠ fullPath (file type)) → disk r.2 !! p = disk w !! p)
  ∧ console r.2 = console w
  ∧ unreadable r.2 = unreadable w.
Proof.
  intros file opened r. subst r. unfold Sibling.loadFiles.
  open_generation.
  split; [reflexivity|]. split; [reflexivity|].
  split; [|split; [|split; [|split; [|split; reflexivity]]]].
  - intros type. rewrite !length_app. cbn [length].
    destruct type; simplify_map_eq; subst file; unfold Sibling_file;
      do 2 f_equal; unfold LogType_index; cbn; lia.
  - by rewrite <- !app_assoc.
  - intros type. rewrite !lookup_insert. by destruct type; repeat case_decide.
  - intros p Hp. rewrite !lookup_insert_ne; [done|..]; intros <-.
    + by apply (Hp INFO). + by apply (Hp WARN). + by apply (Hp DEBUG). + by apply (Hp ERROR).
Qed.

(** The streams a generation opens are open on its files. *)
Lemma opened_lookup (w : World) (opened : LogType → StreamState) (type : LogType) :
  (streams w ++ [opened INFO; opened WARN; opened DEBUG; opened ERROR])
    !! (length (streams w) + LogType_index type)%nat = Some (opened type).
Proof.
  rewrite lookup_app_r by lia.
  replace (length (streams w) + LogType_index type - length (streams w))%nat
    with (LogType_index type) by lia.
  by destruct type.
Qed.

(** ** Paths of different generations, severities and kinds *)

Lemma LoggerTs_paths_apart (this : LoggerTs.Logger) (d d' : Date) (type type' : LogType)
    (h h' : nat) :
  JsDate.in_range d → JsDate.in_range d' →
  let p := fullPath (LoggerTs_file this d type h) in
  let p' := fullPath (LoggerTs_file this d' type' h') in
  p ≠ p' +:+ ".gz"
  ∧ (JsDate.getDay d ≠ JsDate.getDay d' → p ≠ p')
  ∧ (type ≠ type' → p ≠ p').
Proof.
  intros Hd Hd' p p'. subst p p'.
  destruct (LoggerTs_fullPath this d type h Hd) as [-> _].
  destruct (LoggerTs_fullPath this d' type' h' Hd') as [-> _].
  destruct Hd as (_ & _ & ? & ? & ?), Hd' as (_ & _ & ? & ? & ?).
  destruct (stem_plain (JsDate.getDay d) (JsDate.getHours d) (JsDate.getMinutes d))
    as [Hn Hgz]; [lia..|].
  destruct (stem_plain (JsDate.getDay d') (JsDate.getHours d') (JsDate.getMinutes d'))
    as [Hn' Hgz']; [lia..|].
  pose proof (LoggerTs_parseMonth_plain (JsDate.getMonth d)).
  pose proof (LoggerTs_parseMonth_plain (JsDate.getMonth d')).
  split_and!.
  - unfold log_path at 2. rewrite !string_app_assoc.
    fold (log_path (LoggerTs.logsPath this) type' (JsDate.getFullYear d')
            (LoggerTs.parseMonth (JsDate.getMonth d'))
            (stem (JsDate.getDay d') (JsDate.getHours d') (JsDate.getMinutes d') +:+ ".gz")).
    intros (_ & _ & Hstem)%log_path_inj; [|done..]. by apply stem_not_archive in Hstem.
  - intros Hday (_ & _ & Hstem)%log_path_inj; [|done..].
    apply stem_inj_day in Hstem; [done|lia..].
  - by intros Htype (? & _)%log_path_inj.
Qed.

Lemma Sibling_paths_apart (this : Sibling.Logger) (d d' : Date) (type type' : LogType)
    (h h' : nat) :
  JsDate.in_range d → JsDate.in_range d' →
  let p := fullPath (Sibling_file this d type h) in
  let p' := fullPath (Sibling_file this d' type' h') in
  p ≠ p' +:+ ".gz"
  ∧ (JsDate.getDate d ≠ JsDate.getDate d' → p ≠ p')
  ∧ (type ≠ type' → p ≠ p')
  ∧ (type ≠ type' → p +:+ ".gz" ≠ p' +:+ ".gz").
Proof.
  intros Hd Hd' p p'. subst p p'.
  destruct (Sibling_fullPath this d type h Hd) as [-> _].
  destruct (Sibling_fullPath this d' type' h' Hd') as [-> _].
  destruct Hd as (Hm & ? & _ & ? & ?), Hd' as (Hm' & ? & _ & ? & ?).
  destruct (stem_plain (JsDate.getDate d) (JsDate.getHours d) (JsDate.getMinutes d))
    as [Hn Hgz]; [lia..|].
  destruct (stem_plain (JsDate.getDate d') (JsDate.getHours d') (JsDate.getMinutes d'))
    as [Hn' Hgz']; [lia..|].
  pose proof (Sibling_parseMonth_plain (JsDate.getMonth d)) as Hp.
  pose proof (Sibling_parseMonth_plain (JsDate.getMonth d')) as Hp'.
  rewrite Sibling_parseMonth_MonthName in Hp, Hp' by done.
  split_and!.
  - unfold log_path at 2. rewrite !string_app_assoc.
    fold (log_path (Sibling.logsPath this) type' (JsDate.getFullYear d')
            (MonthName (JsDate.getMonth d'))
            (stem (JsDate.getDate d') (JsDate.getHours d') (JsDate.getMinutes d') +:+ ".gz")).
    intros (_ & _ & Hstem)%log_path_inj; [|done..]. by apply stem_not_archive in Hstem.
  - intros Hday (_ & _ & Hstem)%log_path_inj; [|done..].
    apply stem_inj_day in Hstem; [done|lia..].
  - by intros Htype (? & _)%log_path_inj.
  - intros Htype Heq. apply string_app_inv_tail in Heq.
    by apply log_path_inj in Heq as (? & _).
Qed.

Section apart.
Variables (this : LoggerTs.Logger) (that : Sibling.Logger) (d d' : Date).
Hypotheses (Hd : JsDate.in_range d) (Hd' : JsDate.in_range d').
Implicit Types type : LogType.
Implicit Types h : nat.

Lemma LoggerTs_path_not_archive type type' h h' :
  fullPath (LoggerTs_file this d type h) ≠ fullPath (LoggerTs_file this d' type' h') +:+ ".gz".
Proof. by destruct (LoggerTs_paths_apart this d d' type type' h h') as (? & _). Qed.

Lemma LoggerTs_path_other_day type type' h h' :
  JsDate.getDay d ≠ JsDate.getDay d' →
  fullPath (LoggerTs_file this d type h) ≠ fullPath (LoggerTs_file this d' type' h').
Proof. by destruct (LoggerTs_paths_apart this d d' type type' h h') as (_ & ? & _). Qed.

Lemma Sibling_path_not_archive type type' h h' :
  fullPath (Sibling_file that d type h) ≠ fullPath (Sibling_file that d' type' h') +:+ ".gz".
Proof. by destruct (Sibling_paths_apart that d d' type type' h h') as (? & _). Qed.

Lemma Sibling_path_other_day type type' h h' :
  JsDate.getDate d ≠ JsDate.getDate d' →
  fullPath (Sibling_file that d type h) ≠ fullPath (Sibling_file that d' type' h').
Proof. by destruct (Sibling_paths_apart that d d' type type' h h') as (_ & ? & _). Qed.

Lemma Sibling_path_other_type type type' h h' :
  type ≠ type' →
  fullPath (Sibling_file that d type h) ≠ fullPath (Sibling_file that d type' h').
Proof. by destruct (Sibling_paths_apart that d d type type' h h') as (_ & _ & ? & _). Qed.

Lemma Sibling_archive_other_type type type' h h' :
  type ≠ type' →
  fullPath (Sibling_file that d type h) +:+ ".gz"
  ≠ fullPath (Sibling_file that d type' h') +:+ ".gz".
Proof. by destruct (Sibling_paths_apart that d d type type' h h') as (_ & _ & _ & ?). Qed.
End apart.

(** ** A file and its archive *)

Lemma jl_cons x stack :
  jl (x :: stack) = (jl stack + match stack with [] => 0 | _ => 1 end + String.length x)%nat.
Proof.
  unfold jl. rewrite reverse_cons. destruct stack as [|y stack]; [done|].
  rewrite join_with_app; [|by intros ?%(f_equal length); rewrite length_reverse in *|done].
  rewrite !string_app_length. cbn. lia.
Qed.

Lemma jl_step allow stack seg :
  (jl (Path.normalize_step allow stack seg) ≤ jl (seg :: stack))%nat.
Proof.
  unfold Path.normalize_step. rewrite jl_cons.
  repeat case_decide; try lia.
  - destruct stack as [|top below]; [destruct allow; rewrite ?jl_cons; cbn; lia|].
    case_decide; [destruct allow; rewrite ?jl_cons; lia|].
    rewrite jl_cons. lia.
  - rewrite jl_cons. lia.
Qed.

Lemma string_app_nonempty_l (s t : string) : s ≠ "" → s +:+ t ≠ "".
Proof. destruct s; [done|]. by intros _. Qed.

Lemma string_app_nonempty_r (s t : string) : t ≠ "" → s +:+ t ≠ "".
Proof.
  intros Ht Heq. apply (f_equal String.length) in Heq.
  rewrite string_app_length in Heq. destruct t; [done|]. cbn in Heq. lia.
Qed.

Lemma normalize_length_le (J : string) :
  J ≠ "" →
  (String.length (Path.normalize J)
   ≤ (if Path.first_is_slash J then 1 else 0) + jl (Path_stack J) + 2)%nat.
Proof.
  intros HJ. unfold Path.normalize. destruct J as [|c J]; [done|].
  unfold Path.normalizeString. fold (Path_stack (String c J)). unfold jl.
  set (abs := Path.first_is_slash (String c J)).
  destruct (Path.join_with "/" (reverse (Path_stack (String c J)))) as [|a p] eqn:Hp.
  - destruct abs; [cbn; lia|]. destruct (Path.last_is_slash _); cbn; lia.
  - destruct abs, (Path.last_is_slash (String c J));
      rewrite ?string_app_length; cbn [String.length]; lia.
Qed.

Lemma normalize_length_eq (J : string) :
  J ≠ "" → Path.last_is_slash J = false →
  Path.join_with "/" (reverse (Path_stack J)) ≠ "" →
  String.length (Path.normalize J)
  = ((if Path.first_is_slash J then 1 else 0) + jl (Path_stack J))%nat.
Proof.
  intros HJ Hlast Hne. unfold Path.normalize. destruct J as [|c J]; [done|].
  unfold Path.normalizeString. fold (Path_stack (String c J)). unfold jl.
  rewrite Hlast.
  set (abs := Path.first_is_slash (String c J)).
  destruct (Path.join_with "/" (reverse (Path_stack (String c J)))) as [|a p] eqn:Hp; [done|].
  destruct abs; rewrite ?string_app_length; cbn [String.length]; lia.
Qed.

Lemma segments_app_plain (J x : string) :
  occurs "/" x = false →
  ∃ init s, Path.segments J = init ++ [s] ∧ Path.segments (J +:+ x) = init ++ [s +:+ x].
Proof.
  intros Hx. induction J as [|c J (init & s & HJ & HJx)].
  - exists [], "". split; [done|]. by apply segments_slash_free.
  - change (String c J +:+ x) with (String c (J +:+ x)). cbn [Path.segments].
    rewrite HJ, HJx. destruct (Ascii.eqb c "/").
    + by exists ("" :: init), s.
    + destruct init as [|i init]; cbn.
      * by exists [], (String c s).
      * by exists (String c i :: init), s.
Qed.

Lemma join_with_top_nonempty (t : string) (stack : list string) :
  t ≠ "" → Path.join_with "/" (reverse (t :: stack)) ≠ "".
Proof.
  intros Ht Heq. apply (f_equal String.length) in Heq.
  fold (jl (t :: stack)) in Heq. rewrite jl_cons in Heq. cbn in Heq.
  destruct t; [done|]. cbn in Heq. lia.
Qed.

(** Appending a suffix that makes the last segment an ordinary one makes
    the normalised path longer. *)
Lemma normalize_suffix_longer (J x : string) :
  J ≠ "" → occurs "/" x = false → (3 ≤ String.length x)%nat →
  (String.length (Path.normalize J) < String.length (Path.normalize (J +:+ x)))%nat.
Proof.
  intros HJ Hx Hlen.
  destruct (segments_app_plain J x Hx) as (init & s & Hseg & Hseg').
  assert (x ≠ "") as Hxne by (intros ->; cbn in Hlen; lia).
  assert (J +:+ x ≠ "") as HJx by (by apply string_app_nonempty_l).
  assert (Path.first_is_slash (J +:+ x) = Path.first_is_slash J) as Habs
    by (by apply first_is_slash_app).
  set (allow := negb (Path.first_is_slash J)).
  set (S0 := foldl (Path.normalize_step allow) [] init).
  assert (Path_stack J = Path.normalize_step allow S0 s) as HS.
  { unfold Path_stack. by rewrite Hseg, foldl_app. }
  assert (Path_stack (J +:+ x) = (s +:+ x) :: S0) as HS'.
  { unfold Path_stack. rewrite Habs, Hseg', foldl_app. cbn [foldl]. fold allow. fold S0.
    assert (3 ≤ String.length (s +:+ x))%nat as Hl by (rewrite string_app_length; lia).
    unfold Path.normalize_step.
    rewrite decide_False by (intros [H|H]; rewrite H in Hl; cbn in Hl; lia).
    rewrite decide_False by (intros H; rewrite H in Hl; cbn in Hl; lia). done. }
  pose proof (normalize_length_le J HJ) as Hle.
  rewrite (normalize_length_eq (J +:+ x) HJx).
  - rewrite Habs, HS', jl_cons, string_app_length.
    pose proof (jl_step allow S0 s) as Hstep. rewrite jl_cons in Hstep.
    rewrite HS in Hle. destruct (Path.first_is_slash J); lia.
  - by apply last_is_slash_app_plain.
  - rewrite HS'. by apply join_with_top_nonempty, string_app_nonempty_r.
Qed.

Lemma normalize_subdir_longer (J x : string) :
  J ≠ "" → occurs "/" x = false → (3 ≤ String.length x)%nat →
  (String.length (Path.normalize J)
   < String.length (Path.normalize (J +:+ "/" +:+ x)))%nat.
Proof.
  intros HJ Hx Hlen.
  assert (x ≠ "") as Hxne by (intros ->; cbn in Hlen; lia).
  assert (J +:+ "/" +:+ x ≠ "") as HJx by (by apply string_app_nonempty_l).
  assert (Path.first_is_slash (J +:+ "/" +:+ x) = Path.first_is_slash J) as Habs
    by (by apply first_is_slash_app).
  assert (Path_stack (J +:+ "/" +:+ x) = x :: Path_stack J) as HS'.
  { unfold Path_stack. rewrite Habs.
    change (J +:+ "/" +:+ x) with (J +:+ String "/" x).
    rewrite segments_app_slash, foldl_app, (segments_slash_free x Hx). cbn [foldl].
    unfold Path.normalize_step at 1.
    rewrite decide_False by (intros [H|H]; rewrite H in Hlen; cbn in Hlen; lia).
    rewrite decide_False by (intros H; rewrite H in Hlen; cbn in Hlen; lia). done. }
  pose proof (normalize_length_le J HJ) as Hle.
  rewrite (normalize_length_eq (J +:+ "/" +:+ x) HJx).
  - rewrite Habs, HS', jl_cons. destruct (Path.first_is_slash J), (Path_stack J); lia.
  - rewrite <- string_app_assoc. by apply last_is_slash_app_plain.
  - rewrite HS'. by apply join_with_top_nonempty.
Qed.

Lemma join_two (d n : string) :
  Path.join [d; n]
  = match d, n with
    | "", "" => "."
    | "", _ => Path.normalize n
    | _, "" => Path.normalize d
    | _, _ => Path.normalize (d +:+ "/" +:+ n)
    end.
Proof. by destruct d, n. Qed.

(** A log file and its archive never share a path. *)
Lemma fullPath_not_archivePath (file : LogFile) : fullPath file ≠ archivePath file.
Proof.
  unfold fullPath, archivePath. destruct file as [d n h]. cbn [filePath fileName].
  rewrite !join_two.
  intros Heq. apply (f_equal String.length) in Heq. revert Heq.
  destruct d as [|a d], n as [|b n].
  - done.
  - change (String b n +:+ ".gz") with (String b (n +:+ ".gz")). cbv iota.
    change (String b (n +:+ ".gz")) with (String b n +:+ ".gz").
    pose proof (normalize_suffix_longer (String b n) ".gz") as Hlt.
    specialize (Hlt ltac:(done) eq_refl). cbn [String.length] in Hlt. lia.
  - change ("" +:+ ".gz") with ".gz". cbv iota.
    pose proof (normalize_subdir_longer (String a d) ".gz") as Hlt.
    specialize (Hlt ltac:(done) eq_refl). cbn [String.length] in Hlt. lia.
  - change (String b n +:+ ".gz") with (String b (n +:+ ".gz")). cbv iota.
    change (String b (n +:+ ".gz")) with (String b n +:+ ".gz").
    pose proof (normalize_suffix_longer (String a d +:+ "/" +:+ String b n) ".gz") as Hlt.
    specialize (Hlt ltac:(done) eq_refl). cbn [String.length] in Hlt.
    rewrite !string_app_assoc in Hlt. lia.
Qed.

(** ** Writing and compressing in [src/logger.ts] *)

Lemma write_open_on (w : World) (file : LogFile) (chunk : string) :
  open_on w file →
  let w' := Env.write (writeStream file) chunk w in
  disk w' = alter (Env.append_data chunk) (fullPath file) (disk w)
  ∧ streams w' = streams w ∧ console w' = console w ∧ unreadable w' = unreadable w.
Proof. intros Hopen. unfold Env.write. by rewrite Hopen. Qed.

Lemma LoggerTs_compressFile_spec (this : LoggerTs.Logger) (type : LogType) (w : World) :
  let w' := LoggerTs.compressFile this type w in
  streams w' = streams w
  ∧ unreadable w' = unreadable w
  ∧ (∀ p, (∀ file, LoggerTs.logFiles this !! type = Some file → p ≠ archivePath file) →
          disk w' !! p = disk w !! p)
  ∧ ∃ reports,
      console w' = console w ++ reports
      ∧ Forall is_compress_report reports
      ∧ ∀ file, LoggerTs.logFiles this !! type = Some file → gzip_fails w file →
                compress_report file ∈ reports.
Proof.
  unfold LoggerTs.compressFile, Env.gzip_compressFile, gzip_fails.
  destruct (LoggerTs.logFiles this !! type) as [file|] eqn:Hfile; cbn zeta.
  - fold (fullPath file). fold (archivePath file).
    assert (∀ c p, (∀ f, Some file = Some f → p ≠ archivePath f) →
                   <[archivePath file := c]> (disk w) !! p = disk w !! p) as Hframe.
    { intros c p Hp. rewrite lookup_insert_ne; [done|]. intros <-. by apply (Hp file). }
    destruct (disk w !! fullPath file) as [c|] eqn:Hdisk; [case_decide|].
    + split_and!; [done|done| |].
      * intros p Hp. autorewrite with world. by apply Hframe.
      * exists [compress_report file]. split_and!; [done| |].
        -- repeat constructor. by exists file.
        -- intros ? [= <-] _. set_solver.
    + split_and!; [done|done| |].
      * intros p Hp. autorewrite with world. by apply Hframe.
      * exists []. split_and!; [by rewrite app_nil_r|done|].
        intros ? [= <-] [Hnone|Hin]; [by rewrite Hdisk in Hnone|done].
    + split_and!; [done|done| |].
      * intros p Hp. autorewrite with world. by apply Hframe.
      * exists [compress_report file]. split_and!; [done| |].
        -- repeat constructor. by exists file.
        -- intros ? [= <-] _. set_solver.
  - split_and!; [done..|]. exists []. by rewrite app_nil_r.
Qed.


Lemma LoggerTs_file_logsPath (this this' : LoggerTs.Logger) (date : Date) (type : LogType)
    (h : nat) :
  LoggerTs.logsPath this' = LoggerTs.logsPath this →
  LoggerTs_file this' date type h = LoggerTs_file this date type h.
Proof. intros Hpath. unfold LoggerTs_file, LoggerTs.typePath. by rewrite Hpath. Qed.

(** What a rollover does in [src/logger.ts]. *)
Lemma LoggerTs_reloadFiles_rollover (this : LoggerTs.Logger) (newDate : Date) (w : World) :
  JsDate.in_range newDate →
  JsDate.getDay newDate ≠ LoggerTs.currentDay this →
  let file type :=
    LoggerTs_file this newDate type (length (streams w) + LogType_index type) in
  let r := LoggerTs.reloadFiles this newDate w in
  LoggerTs.logsPath r.1 = LoggerTs.logsPath this
  ∧ LoggerTs.currentDay r.1 = JsDate.getDay newDate
  ∧ (∀ type, LoggerTs.logFiles r.1 !! type = Some (file type))
  ∧ (∀ type, open_on r.2 (file type))
  ∧ (∀ type, disk r.2 !! fullPath (file type) = Some (Text ""))
  ∧ (∀ p, (∀ type, p ≠ fullPath (file type)) →
          (∀ type, p ≠ fullPath (file type) +:+ ".gz") →
          (∀ f, LoggerTs.logFiles this !! INFO = Some f → p ≠ archivePath f) →
          disk r.2 !! p = disk w !! p)
  ∧ (∀ h st, streams w !! h = Some st → streams r.2 !! h = Some st)
  ∧ ∃ reports,
      console r.2 = console w ++ reports
      ∧ Forall is_compress_report reports
      ∧ ∀ f, LoggerTs.logFiles this !! INFO = Some f → gzip_fails w f →
             compress_report f ∈ reports.
Proof.
  intros Hrange Hday file r. subst r.
  unfold LoggerTs.reloadFiles. rewrite decide_True by done.
  unfold LoggerTs.compressFiles_until_await, LoggerTs.compressFiles_resumed.
  destruct (LoggerTs_compressFile_spec this INFO w)
    as (HsA & HuA & HdA & repA & HcA & HrA & HfA).
  set (wA := LoggerTs.compressFile this INFO w) in *.
  pose proof (LoggerTs_loadFiles_spec this newDate wA) as Hload.
  destruct (LoggerTs.loadFiles this newDate wA) as [this' wB].
  cbn [fst snd] in *. rewrite HsA in Hload.
  destruct Hload as (Hpath & Hcur & Hfiles & HsB & HdB1 & HdB2 & HcB & HuB).
  fold file in Hfiles, HsB, HdB1, HdB2.
  destruct (LoggerTs_compressFile_spec this' WARN wB)
    as (Hs1 & Hu1 & Hd1 & rep1 & Hc1 & Hr1 & _).
  set (w1 := LoggerTs.compressFile this' WARN wB) in *.
  destruct (LoggerTs_compressFile_spec this' DEBUG w1)
    as (Hs2 & Hu2 & Hd2 & rep2 & Hc2 & Hr2 & _).
  set (w2 := LoggerTs.compressFile this' DEBUG w1) in *.
  destruct (LoggerTs_compressFile_spec this' ERROR w2)
    as (Hs3 & Hu3 & Hd3 & rep3 & Hc3 & Hr3 & _).
  set (w3 := LoggerTs.compressFile this' ERROR w2) in *.
  assert (∀ type, archivePath (file type) = fullPath (file type) +:+ ".gz") as Harch.
  { intros type. by destruct (LoggerTs_fullPath this newDate type
      (length (streams w) + LogType_index type) Hrange) as [_ ?]. }
  assert (∀ p type, (∀ type', p ≠ fullPath (file type') +:+ ".gz") →
            ∀ f, LoggerTs.logFiles this' !! type = Some f → p ≠ archivePath f) as Hnew.
  { intros p type Hp f Hf Heq. rewrite Hfiles in Hf. injection Hf as <-.
    apply (Hp type). by rewrite <- (Harch type). }
  assert (∀ p, (∀ type, p ≠ fullPath (file type) +:+ ".gz") → disk w3 !! p = disk wB !! p)
    as Hresumed.
  { intros p Hp. rewrite Hd3, Hd2, Hd1 by eauto. done. }
  split_and!; [done..| | | | |].
  - intros type. unfold open_on. rewrite Hs3, Hs2, Hs1, HsB.
    exact (opened_lookup w (λ type, {| target := fullPath (file type); ended := false |}) type).
  - intros type. rewrite Hresumed; [apply HdB1|].
    intros type'. apply (LoggerTs_paths_apart this newDate newDate type type'); done.
  - intros p Hp1 Hp2 Hp3. rewrite Hresumed, HdB2, HdA by done. done.
  - intros h st Hh. rewrite Hs3, Hs2, Hs1, HsB. by apply lookup_app_l_Some.
  - exists (repA ++ rep1 ++ rep2 ++ rep3). split_and!.
    + rewrite Hc3, Hc2, Hc1, HcB, HcA. by rewrite <- !app_assoc.
    + by rewrite !Forall_app.
    + intros f Hf Hfail. apply elem_of_app. left. by apply HfA.
Qed.

Lemma LoggerTs_logToFile_unfold (this : LoggerTs.Logger) (type : LogType) (templated : string)
    (object : option JsObject) (newDate : Date) (w : World) (file : LogFile) :
  LoggerTs.logFiles this !! type = Some file →
  LoggerTs.logToFile this type templated object newDate w
  = LoggerTs.reloadFiles this newDate
      (Env.write (writeStream file)
         (file_line (truthy (LoggerTs.includeObjects (LoggerTs.settings this))) templated object)
         w).
Proof.
  intros Hfile. unfold LoggerTs.logToFile, file_line. rewrite Hfile.
  by destruct (truthy _), object.
Qed.

Lemma Sibling_logToFile_unfold (this : Sibling.Logger) (type : LogType) (templated : string)
    (object : option JsObject) (newDate : Date) (w : World) (file : LogFile) :
  Sibling.logFiles this !! type = Some file →
  Sibling.logToFile this type templated object newDate w
  = Sibling.reloadFiles this newDate
      (Env.write (writeStream file)
         (file_line (truthy (Sibling.logObjects (Sibling.settings this))) templated object)
         w).
Proof.
  intros Hfile. unfold Sibling.logToFile, file_line. rewrite Hfile.
  by destruct (truthy _), object.
Qed.

(** The line lands in the file the handle is open on. *)
Lemma write_lands (w : World) (file : LogFile) (chunk content : string) :
  open_on w file → disk w !! fullPath file = Some (Text content) →
  disk (Env.write (writeStream file) chunk w) !! fullPath file
  = Some (Text (content +:+ chunk)).
Proof.
  intros Hopen Hdisk. destruct (write_open_on w file chunk Hopen) as (-> & _).
  by rewrite lookup_alter_eq, Hdisk.
Qed.


(** A call of [src/logger.ts] that detects a rollover: the line is in the
    previous generation's file, which stays on the disk, and every severity
    has a new, open, empty file of its own. *)
Lemma LoggerTs_logToFile_rollover (this : LoggerTs.Logger) (w : World) (date0 newDate : Date)
    (type : LogType) (templated : string) (object : option JsObject) (file : LogFile)
    (content : string) :
  LoggerTs_ready this w date0 → JsDate.in_range newDate →
  LoggerTs.logFiles this !! type = Some file →
  disk w !! fullPath file = Some (Text content) →
  JsDate.getDay newDate ≠ LoggerTs.currentDay this →
  let line := file_line (truthy (LoggerTs.includeObjects (LoggerTs.settings this)))
                templated object in
  let r := LoggerTs.logToFile this type templated object newDate w in
  disk r.2 !! fullPath file = Some (Text (content +:+ line))
  ∧ ∀ type', ∃ file',
      LoggerTs.logFiles r.1 !! type' = Some file'
      ∧ fileName file' = LoggerTs.logName newDate
      ∧ fullPath file' ≠ fullPath file
      ∧ open_on r.2 file'
      ∧ disk r.2 !! fullPath file' = Some (Text "").
Proof.
  intros (Hrange0 & (Hcur & Hgen) & Hopen) Hrange Hfile Hdisk Hday line r. subst r.
  rewrite (LoggerTs_logToFile_unfold _ _ _ _ _ _ file Hfile). fold line.
  specialize (Hopen type file Hfile).
  pose proof (write_lands w file line content Hopen Hdisk) as Hline.
  destruct (write_open_on w file line Hopen) as (_ & Hstreams & _).
  set (w1 := Env.write (writeStream file) line w) in *.
  destruct (LoggerTs_reloadFiles_rollover this newDate w1 Hrange Hday)
    as (_ & _ & Hfiles & Hopened & Hempty & Hframe & _).
  destruct (Hgen type) as (h & Hh). rewrite Hfile in Hh. injection Hh as ->.
  rewrite Hcur in Hday.
  assert (JsDate.getDay date0 ≠ JsDate.getDay newDate) as Hday' by done.
  split.
  - rewrite Hframe; [done|..].
    + intros type'. by apply LoggerTs_path_other_day.
    + intros type'. by apply LoggerTs_path_not_archive.
    + intros f Hf. destruct (Hgen INFO) as (h' & Hh'). rewrite Hf in Hh'. injection Hh' as ->.
      destruct (LoggerTs_fullPath this date0 INFO h' Hrange0) as [_ Harch].
      unfold archivePath. rewrite Harch. by apply LoggerTs_path_not_archive.
  - intros type'. eexists. split_and!; [apply Hfiles|done| |apply Hopened|apply Hempty].
    apply not_eq_sym. by apply LoggerTs_path_other_day.
Qed.

(** ** Compressing in the sibling variant *)

Lemma Sibling_compressFile_fulfilled (this : Sibling.Logger) (type : LogType) (w : World)
    (file : LogFile) (c : FileContent) :
  Sibling.logFiles this !! type = Some file →
  disk w !! fullPath file = Some c → fullPath file ∉ unreadable w →
  let r := Sibling.compressFile this type w in
  r.1 = Fulfilled
  ∧ disk r.2 = delete (fullPath file) (<[archivePath file := Gzipped c]> (disk w))
  ∧ streams r.2
    = alter (λ st, {| target := target st; ended := true |}) (writeStream file) (streams w)
  ∧ console r.2 = console w
  ∧ unreadable r.2 = unreadable w.
Proof.
  intros Hfile Hdisk Hread.
  unfold Sibling.compressFile, Env.gzip_compressFile. rewrite Hfile.
  fold (fullPath file). rewrite Hdisk. by rewrite decide_False.
Qed.

Lemma Sibling_compressFile_rejected (this : Sibling.Logger) (type : LogType) (w : World)
    (file : LogFile) :
  Sibling.logFiles this !! type = Some file →
  disk w !! fullPath file = None ∨ fullPath file ∈ unreadable w →
  Sibling.compressFile this type w
  = (Rejected (GzipError (fullPath file)), empty_archive file w).
Proof.
  intros Hfile Hfail. unfold Sibling.compressFile, Env.gzip_compressFile. rewrite Hfile.
  fold (fullPath file). fold (archivePath file). fold (empty_archive file w).
  destruct (disk w !! fullPath file) as [c|]; [|done].
  destruct Hfail as [|Hin]; [done|]. by rewrite decide_True.
Qed.

Lemma ended_lookup (l : list StreamState) (h h' : nat) (t : string) (b : bool) :
  l !! h = Some {| target := t; ended := b |} →
  alter (λ st, {| target := target st; ended := true |}) h' l !! h
  = Some {| target := t; ended := if decide (h = h') then true else b |}.
Proof.
  intros Hl. destruct (decide (h = h')) as [<-|Hne].
  - by rewrite list_lookup_alter_eq, Hl.
  - by rewrite list_lookup_alter_ne.
Qed.

Local Ltac apart :=
  first [ by apply Sibling_path_other_type
        | by apply Sibling_path_not_archive
        | by apply not_eq_sym, Sibling_path_not_archive
        | by apply Sibling_archive_other_type
        | by apply not_eq_sym, Sibling_path_other_type
        | by apply not_eq_sym, Sibling_archive_other_type ].

Local Ltac lookup_apart tac :=
  repeat first [ rewrite lookup_delete_ne by tac | rewrite lookup_insert_ne by tac ].

(** When every file of the generation can be read, the four compressions
    succeed: each file is replaced by its archive and each handle is ended. *)
Lemma Sibling_compressFiles_fulfilled (this : Sibling.Logger) (date0 : Date) (w : World) :
  Sibling_ready this w date0 →
  (∀ type file, Sibling.logFiles this !! type = Some file → readable w file) →
  let r := Sibling.compressFiles this w in
  r.1 = Fulfilled
  ∧ (∀ type file, Sibling.logFiles this !! type = Some file →
       disk r.2 !! fullPath file = None
       ∧ disk r.2 !! (fullPath file +:+ ".gz") = Gzipped <$> disk w !! fullPath file
       ∧ streams r.2 !! writeStream file = Some {| target := fullPath file; ended := true |})
  ∧ (∀ p, (∀ type h, p ≠ fullPath (Sibling_file this date0 type h)) →
          (∀ type h, p ≠ fullPath (Sibling_file this date0 type h) +:+ ".gz") →
          disk r.2 !! p = disk w !! p)
  ∧ length (streams r.2) = length (streams w)
  ∧ console r.2 = console w
  ∧ unreadable r.2 = unreadable w.
Proof.
  intros (Hrange & (Hcur & Hgen) & Hopen) Hread r. subst r.
  destruct (Hgen INFO) as (hI & HI), (Hgen WARN) as (hW & HW),
    (Hgen DEBUG) as (hD & HD), (Hgen ERROR) as (hE & HE).
  destruct (Hread _ _ HI) as [[cI HcI] HuI], (Hread _ _ HW) as [[cW HcW] HuW],
    (Hread _ _ HD) as [[cD HcD] HuD], (Hread _ _ HE) as [[cE HcE] HuE].
  pose proof (Hopen _ _ HI) as HoI. pose proof (Hopen _ _ HW) as HoW.
  pose proof (Hopen _ _ HD) as HoD. pose proof (Hopen _ _ HE) as HoE.
  assert (∀ type h, archivePath (Sibling_file this date0 type h)
                    = fullPath (Sibling_file this date0 type h) +:+ ".gz") as Harch.
  { intros type h. by destruct (Sibling_fullPath this date0 type h Hrange) as [_ ?]. }
  unfold Sibling.compressFiles, Sibling.and_then.
  destruct (Sibling_compressFile_fulfilled this INFO w _ cI HI HcI HuI)
    as (Ho1 & Hd1 & Hs1 & Hc1 & Hu1).
  destruct (Sibling.compressFile this INFO w) as [o1 w1]. cbn [fst snd] in *. subst o1.
  destruct (Sibling_compressFile_fulfilled this WARN w1 _ cW HW)
    as (Ho2 & Hd2 & Hs2 & Hc2 & Hu2).
  { rewrite Hd1, Harch. lookup_apart apart. done. }
  { by rewrite Hu1. }
  destruct (Sibling.compressFile this WARN w1) as [o2 w2]. cbn [fst snd] in *. subst o2.
  destruct (Sibling_compressFile_fulfilled this DEBUG w2 _ cD HD)
    as (Ho3 & Hd3 & Hs3 & Hc3 & Hu3).
  { rewrite Hd2, Hd1, !Harch. lookup_apart apart. done. }
  { by rewrite Hu2, Hu1. }
  destruct (Sibling.compressFile this DEBUG w2) as [o3 w3]. cbn [fst snd] in *. subst o3.
  destruct (Sibling_compressFile_fulfilled this ERROR w3 _ cE HE)
    as (Ho4 & Hd4 & Hs4 & Hc4 & Hu4).
  { rewrite Hd3, Hd2, Hd1, !Harch. lookup_apart apart. done. }
  { by rewrite Hu3, Hu2, Hu1. }
  destruct (Sibling.compressFile this ERROR w3) as [o4 w4]. cbn [fst snd] in *. subst o4.
  rewrite Hd4, Hd3, Hd2, Hd1, Hs4, Hs3, Hs2, Hs1, !Harch.
  split_and!; [done| | |by rewrite !length_alter|congruence|congruence].
  - intros type file Hfile. split_and!.
    + destruct type; rewrite Hfile in *; simplify_eq;
        lookup_apart apart; by rewrite lookup_delete_eq.
    + destruct type; rewrite Hfile in *; simplify_eq;
        lookup_apart apart; rewrite lookup_insert_eq; by rewrite ?HcI, ?HcW, ?HcD, ?HcE.
    + assert (open_on w file) as Hof by eauto. unfold open_on in Hof.
      rewrite (ended_lookup _ _ _ _ _
                 (ended_lookup _ _ _ _ _ (ended_lookup _ _ _ _ _ (ended_lookup _ _ _ _ _ Hof)))).
      do 2 f_equal. destruct type; rewrite Hfile in *; simplify_eq; cbn [writeStream];
        repeat case_decide; done.
  - intros p Hp1 Hp2. lookup_apart ltac:(by auto). done.
Qed.

Lemma Sibling_file_logsPath (this this' : Sibling.Logger) (date : Date) (type : LogType)
    (h : nat) :
  Sibling.logsPath this' = Sibling.logsPath this →
  Sibling_file this' date type h = Sibling_file this date type h.
Proof. intros Hpath. unfold Sibling_file, Sibling.typePath. by rewrite Hpath. Qed.

(** A call of the sibling variant that detects a rollover while every file
    of the old generation can be read: the line is in the archive of the
    previous generation's file, and every severity has a new, open, empty
    file of its own. *)
Lemma Sibling_logToFile_rollover (this : Sibling.Logger) (w : World) (date0 newDate : Date)
    (type : LogType) (templated : string) (object : option JsObject) (file : LogFile)
    (content : string) :
  Sibling_ready this w date0 → JsDate.in_range newDate →
  (∀ type file, Sibling.logFiles this !! type = Some file → readable w file) →
  Sibling.logFiles this !! type = Some file →
  disk w !! fullPath file = Some (Text content) →
  JsDate.getDate newDate ≠ Sibling.currentDay this →
  let line := file_line (truthy (Sibling.logObjects (Sibling.settings this)))
                templated object in
  let r := Sibling.logToFile this type templated object newDate w in
  r.1 = Fulfilled
  ∧ disk r.2.2 !! (fullPath file +:+ ".gz") = Some (Gzipped (Text (content +:+ line)))
  ∧ disk r.2.2 !! fullPath file = None
  ∧ ∀ type', ∃ file',
      Sibling.logFiles r.2.1 !! type' = Some file'
      ∧ fileName file' = Sibling.logName newDate
      ∧ fullPath file' ≠ fullPath file
      ∧ open_on r.2.2 file'
      ∧ disk r.2.2 !! fullPath file' = Some (Text "").
Proof.
  intros Hready Hrange Hread Hfile Hdisk Hday line r. subst r.
  rewrite (Sibling_logToFile_unfold _ _ _ _ _ _ file Hfile). fold line.
  pose proof Hready as (Hrange0 & (Hcur & Hgen) & Hopen).
  pose proof (Hopen type file Hfile) as Hof.
  pose proof (write_lands w file line content Hof Hdisk) as Hline.
  destruct (write_open_on w file line Hof) as (Hd1 & Hs1 & _ & Hu1).
  set (w1 := Env.write (writeStream file) line w) in *.
  assert (Sibling_ready this w1 date0) as Hready1.
  { split_and!; [done..|]. intros type' f Hf. unfold open_on. rewrite Hs1. by eapply Hopen. }
  assert (∀ type' f, Sibling.logFiles this !! type' = Some f → readable w1 f) as Hread1.
  { intros type' f Hf. destruct (Hread _ _ Hf) as [Hsome Hun]. split; [|by rewrite Hu1].
    rewrite Hd1, lookup_alter. case_decide; [|done]. by apply fmap_is_Some. }
  unfold Sibling.reloadFiles. rewrite decide_True by done.
  destruct (Sibling_compressFiles_fulfilled this date0 w1 Hready1 Hread1)
    as (Ho & Hold & _ & Hlen & _).
  destruct (Sibling.compressFiles this w1) as [o w2]. cbn [fst snd] in *. subst o.
  pose proof (Sibling_loadFiles_spec this newDate w2) as Hload.
  destruct (Sibling.loadFiles this newDate w2) as [this' w3]. cbn [fst snd] in *.
  destruct Hload as (_ & _ & Hfiles & Hs3 & Hempty & Hframe & _).
  destruct (Hold type file Hfile) as (Hgone & Harchive & _).
  destruct (Hgen type) as (h & Hh). rewrite Hfile in Hh. injection Hh as ->.
  rewrite Hcur in Hday.
  assert (JsDate.getDate date0 ≠ JsDate.getDate newDate) as Hday' by done.
  split_and!; [done| | |].
  - rewrite Hframe, Harchive, Hline; [done|].
    intros type'. by apply not_eq_sym, Sibling_path_not_archive.
  - rewrite Hframe; [done|]. intros type'. by apply Sibling_path_other_day.
  - intros type'. eexists. split_and!; [apply Hfiles|done| | |apply Hempty].
    + by apply not_eq_sym, Sibling_path_other_day.
    + unfold open_on. rewrite Hs3. cbn [writeStream Sibling_file].
      exact (opened_lookup w2 (λ type, {| target := fullPath (Sibling_file this newDate type
               (length (streams w2) + LogType_index type)); ended := false |}) type').
Qed.

(** ** The examples are well-formed *)

Lemma monday_in_range : JsDate.in_range monday.
Proof. unfold JsDate.in_range. cbn. lia. Qed.

Lemma tuesday_in_range : JsDate.in_range tuesday.
Proof. unfold JsDate.in_range. cbn. lia. Qed.

Lemma LoggerTs_constructor_ready (ns path : string) (s : option LoggerTs.LoggerSettings)
    (tmpl : option string) (now : Date) (w : World) :
  JsDate.in_range now →
  let st := LoggerTs.constructor ns path s tmpl now w in
  LoggerTs_ready st.1 st.2 now
  ∧ ∀ type file, LoggerTs.logFiles st.1 !! type = Some file →
      disk st.2 !! fullPath file = Some (Text "") ∧ (fullPath file ∈ unreadable st.2 → 
      fullPath file ∈ unreadable w).
Proof.
  intros Hrange st. subst st. unfold LoggerTs.constructor.
  set (this := {| LoggerTs.namespace := ns |}).
  pose proof (LoggerTs_loadFiles_spec this now w) as Hload.
  destruct (LoggerTs.loadFiles this now w) as [this' w']. cbn [fst snd] in *.
  destruct Hload as (Hpath & Hcur & Hfiles & Hstreams & Hempty & _ & _ & Hun).
  split; [split_and!|]; [done| | |].
  - split; [done|]. intros type. eexists. rewrite Hfiles.
    by rewrite (LoggerTs_file_logsPath this this').
  - intros type file Hfile. rewrite Hfiles in Hfile. injection Hfile as <-.
    unfold open_on. rewrite Hstreams. cbn [writeStream LoggerTs_file].
    exact (opened_lookup w (λ type, {| target := fullPath (LoggerTs_file this now type
             (length (streams w) + LogType_index type)); ended := false |}) type).
  - intros type file Hfile. rewrite Hfiles in Hfile. injection Hfile as <-.
    split; [apply Hempty | by rewrite Hun].
Qed.

Lemma Sibling_constructor_ready (ns path : string) (s : option Sibling.LoggerSettings)
    (tmpl : option string) (now : Date) (w : World) :
  JsDate.in_range now →
  let st := Sibling.constructor ns path s tmpl now w in
  Sibling_ready st.1 st.2 now
  ∧ ∀ type file, Sibling.logFiles st.1 !! type = Some file →
      disk st.2 !! fullPath file = Some (Text "") ∧ (fullPath file ∈ unreadable st.2 → 
      fullPath file ∈ unreadable w).
Proof.
  intros Hrange st. subst st. unfold Sibling.constructor.
  set (this := {| Sibling.namespace := ns |}).
  pose proof (Sibling_loadFiles_spec this now w) as Hload.
  destruct (Sibling.loadFiles this now w) as [this' w']. cbn [fst snd] in *.
  destruct Hload as (Hpath & Hcur & Hfiles & Hstreams & Hempty & _ & _ & Hun).
  split; [split_and!|]; [done| | |].
  - split; [done|]. intros type. eexists. rewrite Hfiles.
    by rewrite (Sibling_file_logsPath this this').
  - intros type file Hfile. rewrite Hfiles in Hfile. injection Hfile as <-.
    unfold open_on. rewrite Hstreams. cbn [writeStream Sibling_file].
    exact (opened_lookup w (λ type, {| target := fullPath (Sibling_file this now type
             (length (streams w) + LogType_index type)); ended := false |}) type).
  - intros type file Hfile. rewrite Hfiles in Hfile. injection Hfile as <-.
    split; [apply Hempty | by rewrite Hun].
Qed.

(** ** Write first, then check *)

Lemma LoggerTs_echoed_frame (this : LoggerTs.Logger) (type : LogType) (templated : string)
    (object : option JsObject) (w : World) :
  let wc := LoggerTs_echoed this type templated object w in
  disk wc = disk w ∧ streams wc = streams w ∧ unreadable wc = unreadable w.
Proof.
  unfold LoggerTs_echoed, LoggerTs.logToConsole.
  by destruct (truthy (LoggerTs.consoleLog (LoggerTs.settings this))),
       (truthy (LoggerTs.includeObjects (LoggerTs.settings this))), object.
Qed.

Lemma Sibling_echoed_frame (this : Sibling.Logger) (type : LogType) (templated : string)
    (object : option JsObject) (w : World) :
  let wc := Sibling_echoed this type templated object w in
  disk wc = disk w ∧ streams wc = streams w ∧ unreadable wc = unreadable w.
Proof.
  unfold Sibling_echoed, Sibling.logToConsole.
  by destruct (truthy (Sibling.logToConsole_ (Sibling.settings this))),
       (truthy (Sibling.logObjects (Sibling.settings this))), object.
Qed.

Lemma LoggerTs_ready_streams (this : LoggerTs.Logger) (w w' : World) (date : Date) :
  streams w' = streams w → LoggerTs_ready this w date → LoggerTs_ready this w' date.
Proof.
  intros Hs (? & ? & Hopen). split_and!; [done..|].
  intros type f Hf. unfold open_on. rewrite Hs. by eapply Hopen.
Qed.

Lemma Sibling_ready_streams (this : Sibling.Logger) (w w' : World) (date : Date) :
  streams w' = streams w → Sibling_ready this w date → Sibling_ready this w' date.
Proof.
  intros Hs (? & ? & Hopen). split_and!; [done..|].
  intros type f Hf. unfold open_on. rewrite Hs. by eapply Hopen.
Qed.

(** C4: a public call with file logging in effect writes the line through
    the handle of the current map entry and only then runs the rollover
    check.  When the check detects a rollover, in [src/logger.ts] the line is
    at the end of the previous generation's file and in the sibling variant
    (every old file being readable) in that file's archive; in both, every
    severity then has a new file, different from the previous one, open and
    empty. *)
Theorem C4_line_goes_to_previous_generation
    (this : LoggerTs.Logger) (that : Sibling.Logger) (w w' : World)
    (date0 now newDate : Date) (type : LogType) (message : string)
    (object : option JsObject) (file file' : LogFile) (content content' : string) :
  JsDate.in_range newDate →
  LoggerTs_ready this w date0 →
  LoggerTs.logFiles this !! type = Some file →
  disk w !! fullPath file = Some (Text content) →
  JsDate.getDay newDate ≠ LoggerTs.currentDay this →
  truthy (Sibling.logToFiles (Sibling.settings that)) = true →
  Sibling_ready that w' date0 →
  (∀ type f, Sibling.logFiles that !! type = Some f → readable w' f) →
  Sibling.logFiles that !! type = Some file' →
  disk w' !! fullPath file' = Some (Text content') →
  JsDate.getDate newDate ≠ Sibling.currentDay that →
  let templated := LoggerTs.assembleTemplate this now type message in
  let templated' := Sibling.assembleTemplate that now type message in
  let line := file_line (truthy (LoggerTs.includeObjects (LoggerTs.settings this)))
                templated object in
  let line' := file_line (truthy (Sibling.logObjects (Sibling.settings that)))
                 templated' object in
  let r := LoggerTs_emit type this message object now newDate w in
  let r' := Sibling_emit type that message object now newDate w' in
  (r = (Fulfilled,
        LoggerTs.reloadFiles this newDate
          (Env.write (writeStream file) line (LoggerTs_echoed this type templated object w)))
   ∧ disk r.2.2 !! fullPath file = Some (Text (content +:+ line))
   ∧ ∀ type', ∃ new,
       LoggerTs.logFiles r.2.1 !! type' = Some new
       ∧ fileName new = LoggerTs.logName newDate
       ∧ fullPath new ≠ fullPath file
       ∧ open_on r.2.2 new
       ∧ disk r.2.2 !! fullPath new = Some (Text ""))
  ∧ (r' = Sibling.reloadFiles that newDate
            (Env.write (writeStream file') line' (Sibling_echoed that type templated' object w'))
     ∧ r'.1 = Fulfilled
     ∧ disk r'.2.2 !! (fullPath file' +:+ ".gz") = Some (Gzipped (Text (content' +:+ line')))
     ∧ disk r'.2.2 !! fullPath file' = None
     ∧ ∀ type', ∃ new,
         Sibling.logFiles r'.2.1 !! type' = Some new
         ∧ fileName new = Sibling.logName newDate
         ∧ fullPath new ≠ fullPath file'
         ∧ open_on r'.2.2 new
         ∧ disk r'.2.2 !! fullPath new = Some (Text "")).
Proof.
  intros Hrange Hready Hfile Hdisk Hday Hfiles' Hready' Hread' Hfile' Hdisk' Hday'
    templated templated' line line' r r'. subst r r'.
  rewrite LoggerTs_emit_unfold, Sibling_emit_unfold. cbn zeta. rewrite Hfiles'.
  fold templated templated' (LoggerTs_echoed this type templated object w)
    (Sibling_echoed that type templated' object w').
  destruct (LoggerTs_echoed_frame this type templated object w) as (Hd & Hs & _).
  destruct (Sibling_echoed_frame that type templated' object w') as (Hd' & Hs' & Hu').
  set (wc := LoggerTs_echoed this type templated object w) in *.
  set (wc' := Sibling_echoed that type templated' object w') in *.
  rewrite <- Hd in Hdisk. rewrite <- Hd' in Hdisk'.
  apply (LoggerTs_ready_streams this w wc) in Hready; [|done].
  apply (Sibling_ready_streams that w' wc') in Hready'; [|done].
  assert (∀ type f, Sibling.logFiles that !! type = Some f → readable wc' f) as Hread.
  { intros type' f Hf. unfold readable. rewrite Hd', Hu'. by eapply Hread'. }
  split.
  - cbn [snd fst]. split; [by rewrite (LoggerTs_logToFile_unfold _ _ _ _ _ _ file Hfile)|].
    by apply (LoggerTs_logToFile_rollover this wc date0).
  - split; [by apply Sibling_logToFile_unfold|].
    by apply (Sibling_logToFile_rollover that wc' date0).
Qed.

Lemma C4_line_goes_to_previous_generation_witness :
  let r := LoggerTs.info LoggerTs_example.1 "boot" None monday tuesday LoggerTs_example.2 in
  let r' := Sibling.info Sibling_example.1 "boot" None monday tuesday Sibling_example.2 in
  disk r.2.2 !! "logs/info/2021/February/01-10_30.log"
  = Some (Text ("[2021-03-15T10:30:00.000Z] [0] [svc] [boot]" +:+ newline))
  ∧ disk r'.2.2 !! "logs/info/2021/March/15-10_30.log.gz"
    = Some (Gzipped (Text ("[2021-03-15T10:30:00.000Z] [0] [svc] [boot]" +:+ newline))).
Proof.
  intros r r'.
  destruct (LoggerTs_constructor_ready "svc" "logs" None None monday empty_world
              monday_in_range) as [Hready Hdisk].
  destruct (Sibling_constructor_ready "svc" "logs" None None monday empty_world
              monday_in_range) as [Hready' Hdisk'].
  pose (file := {| filePath := "logs/info/2021/February"; fileName := "01-10_30.log";
                   writeStream := 0 |}).
  pose (file' := {| filePath := "logs/info/2021/March"; fileName := "15-10_30.log";
                    writeStream := 0 |}).
  assert (LoggerTs.logFiles LoggerTs_example.1 !! INFO = Some file) as Hfile
    by (vm_compute; reflexivity).
  assert (Sibling.logFiles Sibling_example.1 !! INFO = Some file') as Hfile'
    by (vm_compute; reflexivity).
  destruct (C4_line_goes_to_previous_generation
              LoggerTs_example.1 Sibling_example.1 LoggerTs_example.2 Sibling_example.2
              monday monday tuesday INFO "boot" None file file' "" "")
    as [(_ & H & _) (_ & _ & H' & _)].
  - exact tuesday_in_range.
  - exact Hready.
  - exact Hfile.
  - vm_compute; reflexivity.
  - vm_compute; discriminate.
  - vm_compute; reflexivity.
  - exact Hready'.
  - intros type f Hf. destruct (Hdisk' type f Hf) as [Hd Hu].
    split; [exists (Text ""); exact Hd|].
    intros Hin. apply Hu in Hin. by apply not_elem_of_empty in Hin.
  - exact Hfile'.
  - vm_compute; reflexivity.
  - vm_compute; discriminate.
  - revert H H'. vm_compute. intros H H'. split; [exact H | exact H'].
Defined.

(** ** A compression that fails *)


Lemma Sibling_ready_unlink (that : Sibling.Logger) (w : World) (date : Date) (p : string) :
  Sibling_ready that w date → Sibling_ready that (Env.unlink p w) date.
Proof. done. Qed.


(** The empty archive a rejected gzip call leaves does not make the next
    call succeed. *)
Lemma gzip_fails_empty_archive (w : World) (file : LogFile) :
  gzip_fails w file → gzip_fails (empty_archive file w) file.
Proof.
  unfold gzip_fails, empty_archive. intros [Hnone|Hin]; [left|by right].
  autorewrite with world. rewrite lookup_insert_ne; [done|].
  apply not_eq_sym, fullPath_not_archivePath.
Qed.

(** In the sibling variant a failure of the first compression rejects the
    promise of the rollover check: no new generation is opened. *)
Lemma Sibling_failed_compression_rejects
    (that : Sibling.Logger) (w : World) (newDate : Date) (old : LogFile) :
  JsDate.getDate newDate ≠ Sibling.currentDay that →
  Sibling.logFiles that !! INFO = Some old →
  gzip_fails w old →
  Sibling.reloadFiles that newDate w
  = (Rejected (GzipError (fullPath old)), (that, empty_archive old w)).
Proof.
  intros Hday Hold Hfail. unfold Sibling.reloadFiles. rewrite decide_True by done.
  unfold Sibling.compressFiles, Sibling.and_then.
  by rewrite (Sibling_compressFile_rejected that INFO w old Hold Hfail).
Qed.









(** ** What a call writes and echoes *)

Lemma LoggerTs_logToConsole_spec (this : LoggerTs.Logger) (func : ConsoleMethod)
    (templated : string) (object : option JsObject) (w : World) :
  LoggerTs.logToConsole this func templated object w
  = Env.console_call func templated
      (extra (echo (truthy (LoggerTs.includeObjects (LoggerTs.settings this)))
                func templated object)) w.
Proof. unfold LoggerTs.logToConsole, echo. by destruct (truthy _), object. Qed.

(** C8 (as stated, refuted): with the console option off, a call that
    triggers a rotation whose compression fails does produce console
    output, namely the failure report. *)
Lemma C8_console_output_with_echo_off :
  let s := {| LoggerTs.consoleLog := Some false; LoggerTs.includeObjects := Some true |} in
  let st := LoggerTs.constructor "svc" "logs" (Some s) None monday empty_world in
  let w := Env.unlink "logs/info/2021/February/01-10_30.log" st.2 in
  let r := (LoggerTs.info st.1 "boot" None monday tuesday w).2 in
  console w = []
  ∧ console r.2
    = [ {| method := console_error;
           text := "Couldn't compress file logs/info/2021/February/01-10_30.log";
           extra := Some (ArgError (GzipError "logs/info/2021/February/01-10_30.log")) |} ]
  ∧ console r.2 ≠ console w.
Proof. by vm_compute. Qed.

(** C8 (amended): the chunk appended to the severity's file is the rendered
    line, then the bracketed JSON text exactly when the include-objects
    setting is on and an object was supplied, then a line feed.  The console
    receives the echo of the rendered line exactly when the console setting
    is on; whatever else it receives is a compression-failure report of a
    rotation, and nothing when the call detects no rollover. *)
Theorem C8_file_line_and_console_echo
    (this : LoggerTs.Logger) (w : World) (date0 now newDate : Date) (type : LogType)
    (message : string) (object : option JsObject) (file : LogFile) (content : string) :
  JsDate.in_range newDate →
  LoggerTs_ready this w date0 →
  LoggerTs.logFiles this !! type = Some file →
  disk w !! fullPath file = Some (Text content) →
  let templated := LoggerTs.assembleTemplate this now type message in
  let include := truthy (LoggerTs.includeObjects (LoggerTs.settings this)) in
  let r := (LoggerTs_emit type this message object now newDate w).2 in
  disk r.2 !! fullPath file = Some (Text (content +:+ file_line include templated object))
  ∧ file_line false templated object = templated +:+ newline
  ∧ (∀ o, file_line true templated (Some o)
          = templated +:+ "[" +:+ JSON_stringify o +:+ "]" +:+ newline)
  ∧ file_line include templated None = templated +:+ newline
  ∧ ∃ reports,
      console r.2
      = console w
          ++ (if truthy (LoggerTs.consoleLog (LoggerTs.settings this))
              then [echo include (console_of type) templated object] else [])
          ++ reports
      ∧ Forall is_compress_report reports
      ∧ (reports = [] ∨ JsDate.getDay newDate ≠ LoggerTs.currentDay this).
Proof.
  intros Hrange Hready Hfile Hdisk templated include r. subst r include.
  rewrite LoggerTs_emit_unfold. cbn [snd]. fold templated.
  set (include := truthy (LoggerTs.includeObjects (LoggerTs.settings this))).
  set (wc := if truthy (LoggerTs.consoleLog (LoggerTs.settings this)) then _ else w).
  assert (disk wc = disk w ∧ streams wc = streams w
          ∧ console wc = console w
              ++ (if truthy (LoggerTs.consoleLog (LoggerTs.settings this))
                  then [echo include (console_of type) templated object] else []))
    as (Hdc & Hsc & Hcc).
  { subst wc. destruct (truthy (LoggerTs.consoleLog _)).
    - by rewrite LoggerTs_logToConsole_spec.
    - by rewrite app_nil_r. }
  assert (LoggerTs_ready this wc date0) as Hready'.
  { destruct Hready as (? & ? & Hopen). split_and!; [done..|].
    intros type' f Hf. unfold open_on. rewrite Hsc. by eapply Hopen. }
  rewrite <- Hdc in Hdisk.
  split_and!; [|done|done|by destruct include|].
  - destruct (decide (JsDate.getDay newDate ≠ LoggerTs.currentDay this)) as [Hday|Hday].
    + by apply (LoggerTs_logToFile_rollover this wc date0).
    + rewrite (LoggerTs_logToFile_unfold _ _ _ _ _ _ file Hfile). fold include.
      unfold LoggerTs.reloadFiles. rewrite decide_False by done. cbn [snd].
      destruct Hready' as (_ & _ & Hopen). by apply write_lands; [eapply Hopen|].
  - rewrite (LoggerTs_logToFile_unfold _ _ _ _ _ _ file Hfile). fold include.
    destruct Hready' as (_ & _ & Hopen).
    destruct (write_open_on wc file (file_line include templated object) (Hopen _ _ Hfile))
      as (_ & _ & Hc1 & _).
    destruct (decide (JsDate.getDay newDate ≠ LoggerTs.currentDay this)) as [Hday|Hday].
    + destruct (LoggerTs_reloadFiles_rollover this newDate
                  (Env.write (writeStream file) (file_line include templated object) wc)
                  Hrange Hday)
        as (_ & _ & _ & _ & _ & _ & _ & reports & Hconsole & Hreports & _).
      exists reports. split_and!; [|done|by right].
      by rewrite Hconsole, Hc1, Hcc, <- app_assoc.
    + exists []. split_and!; [|done|by left].
      unfold LoggerTs.reloadFiles. rewrite decide_False by done. cbn [snd].
      by rewrite Hc1, Hcc, !app_nil_r.
Qed.

Lemma C8_file_line_and_console_echo_witness :
  let s := {| LoggerTs.consoleLog := Some false; LoggerTs.includeObjects := Some true |} in
  let st := LoggerTs.constructor "svc" "logs" (Some s) None monday empty_world in
  let r := (LoggerTs.info st.1 "boot" (Some {| JSON_stringify := "[1,2]" |})
              monday monday st.2).2 in
  disk r.2 !! "logs/info/2021/February/01-10_30.log"
  = Some (Text ("[2021-03-15T10:30:00.000Z] [0] [svc] [boot][[1,2]]" +:+ newline)).
Proof.
  intros s st r.
  destruct (LoggerTs_constructor_ready "svc" "logs" (Some s) None monday empty_world
              monday_in_range) as [Hready _].
  pose (file := {| filePath := "logs/info/2021/February"; fileName := "01-10_30.log";
                   writeStream := 0 |}).
  destruct (C8_file_line_and_console_echo st.1 st.2 monday monday monday INFO "boot"
              (Some {| JSON_stringify := "[1,2]" |}) file "") as (H & _).
  - exact monday_in_range.
  - exact Hready.
  - vm_compute; reflexivity.
  - vm_compute; reflexivity.
  - exact H.
Defined.

(** ** Handles across a rotation *)

(** In [src/logger.ts] the handle of the previous generation is still open
    after a rotation, next to the new one. *)
Lemma LoggerTs_rollover_keeps_old_handle_open
    (this : LoggerTs.Logger) (w : World) (date0 newDate : Date) (type : LogType)
    (old : LogFile) :
  JsDate.in_range newDate →
  LoggerTs_ready this w date0 →
  JsDate.getDay newDate ≠ LoggerTs.currentDay this →
  LoggerTs.logFiles this !! type = Some old →
  let r := LoggerTs.reloadFiles this newDate w in
  open_on r.2 old
  ∧ ∃ new, LoggerTs.logFiles r.1 !! type = Some new
           ∧ open_on r.2 new
           ∧ writeStream new ≠ writeStream old.
Proof.
  intros Hrange (_ & _ & Hopen) Hday Hold r. subst r.
  destruct (LoggerTs_reloadFiles_rollover this newDate w Hrange Hday)
    as (_ & _ & Hfiles & Hopened & _ & _ & Hkeep & _).
  specialize (Hopen type old Hold).
  split; [by apply Hkeep|].
  eexists. split_and!; [apply Hfiles|apply Hopened|].
  cbn [writeStream LoggerTs_file]. apply lookup_lt_Some in Hopen. lia.
Qed.

(** C6: after a call that rotates (constructed on Monday, info("boot") on
    Tuesday), [src/logger.ts] has eight open write streams, the four of
    Monday's generation and the four of Tuesday's; the sibling variant has
    ended Monday's four and has only Tuesday's open. *)
Theorem C6_logger_ts_never_ends_old_streams :
  let r := (LoggerTs.info LoggerTs_example.1 "boot" None monday tuesday LoggerTs_example.2).2 in
  let r' := (Sibling.info Sibling_example.1 "boot" None monday tuesday Sibling_example.2).2 in
  target <$> Env.open_streams r.2
  = [ "logs/info/2021/February/01-10_30.log"; "logs/warn/2021/February/01-10_30.log";
      "logs/debug/2021/February/01-10_30.log"; "logs/error/2021/February/01-10_30.log";
      "logs/info/2021/February/02-00_05.log"; "logs/warn/2021/February/02-00_05.log";
      "logs/debug/2021/February/02-00_05.log"; "logs/error/2021/February/02-00_05.log" ]
  ∧ target <$> Env.open_streams r'.2
    = [ "logs/info/2021/March/16-00_05.log"; "logs/warn/2021/March/16-00_05.log";
        "logs/debug/2021/March/16-00_05.log"; "logs/error/2021/March/16-00_05.log" ].
Proof. by vm_compute. Qed.

(** ** The layout the sibling variant produces *)

Lemma base_prefix_examples :
  base_prefix "logs" = "logs/" ∧ base_prefix "/var/log/" = "/var/log/"
  ∧ base_prefix "./logs/../out" = "out/" ∧ base_prefix "." = "" ∧ base_prefix "/" = "/".
Proof. by vm_compute. Qed.

(** Whenever the sibling variant opens a generation, at construction or at
    rotation, each severity's file is at
    [<base>/<severity>/<year>/<MonthName>/<DD>-<HH>_<MM>.log] with the month
    named by its 0-based index and [DD] the day of the month. *)
Lemma Sibling_loadFiles_layout (this : Sibling.Logger) (date : Date) (w : World)
    (type : LogType) :
  JsDate.in_range date →
  let r := Sibling.loadFiles this date w in
  ∃ file, Sibling.logFiles r.1 !! type = Some file
          ∧ open_on r.2 file
          ∧ fullPath file
            = log_path (Sibling.logsPath this) type (JsDate.getFullYear date)
                (MonthName (JsDate.getMonth date))
                (stem (JsDate.getDate date) (JsDate.getHours date) (JsDate.getMinutes date)).
Proof.
  intros Hrange r. subst r.
  destruct (Sibling_loadFiles_spec this date w) as (_ & _ & Hfiles & Hstreams & _).
  eexists. split_and!; [apply Hfiles| |by apply Sibling_fullPath].
  unfold open_on. rewrite Hstreams. cbn [writeStream Sibling_file].
  exact (opened_lookup w (λ type, {| target := fullPath (Sibling_file this date type
           (length (streams w) + LogType_index type)); ended := false |}) type).
Qed.

(** ** The states [src/logger.ts] reaches *)

(** Every public call keeps the logger ready: its map was made by
    [loadFiles] at one clock reading, the newest one when the call rotated,
    and its handles are open. *)
Lemma LoggerTs_emit_ready (type : LogType) (this : LoggerTs.Logger) (message : string)
    (object : option JsObject) (now newDate date0 : Date) (w : World) :
  LoggerTs_ready this w date0 → JsDate.in_range newDate →
  let r := (LoggerTs_emit type this message object now newDate w).2 in
  LoggerTs_ready r.1 r.2
    (if decide (JsDate.getDay newDate ≠ LoggerTs.currentDay this) then newDate else date0).
Proof.
  intros (Hrange0 & (Hcur & Hgen) & Hopen) Hrange r. subst r.
  rewrite LoggerTs_emit_unfold. cbn [snd].
  set (templated := LoggerTs.assembleTemplate this now type message).
  set (wc := if truthy (LoggerTs.consoleLog (LoggerTs.settings this)) then _ else w).
  assert (streams wc = streams w) as Hsc.
  { subst wc. destruct (truthy (LoggerTs.consoleLog _)); [|done].
    by rewrite LoggerTs_logToConsole_spec. }
  destruct (Hgen type) as (h & Hfile).
  rewrite (LoggerTs_logToFile_unfold _ _ _ _ _ _ _ Hfile).
  assert (open_on wc (LoggerTs_file this date0 type h)) as Hof.
  { unfold open_on. rewrite Hsc. by eapply Hopen. }
  destruct (write_open_on wc _ (file_line (truthy (LoggerTs.includeObjects
              (LoggerTs.settings this))) templated object) Hof) as (_ & Hs1 & _).
  set (w1 := Env.write _ _ wc) in *.
  case_decide as Hday.
  - destruct (LoggerTs_reloadFiles_rollover this newDate w1 Hrange Hday)
      as (Hpath & Hcur' & Hfiles & Hopened & _).
    split_and!; [done| |].
    + split; [done|]. intros type'.
      exists (length (streams w1) + LogType_index type')%nat.
      rewrite Hfiles. f_equal. symmetry. by apply LoggerTs_file_logsPath.
    + intros type' f Hf. rewrite Hfiles in Hf. injection Hf as <-. apply Hopened.
  - unfold LoggerTs.reloadFiles. rewrite decide_False by (by intros []). cbn [fst snd].
    split_and!; [done..|].
    intros type' f Hf. unfold open_on. rewrite Hs1, Hsc. by eapply Hopen.
Qed.

(** * Further properties of the code *)

(** ** Two-digit numerals *)

Lemma slice_last2_length (s : string) :
  (2 ≤ String.length s)%nat → String.length (slice_last2 s) = 2%nat.
Proof.
  induction s as [|a s IH]; cbn [String.length]; [lia|].
  destruct s as [|b [|c s]]; cbn [String.length] in *; [lia|done|].
  intros _. change (slice_last2 (String a (String b (String c s))))
    with (slice_last2 (String b (String c s))).
  apply IH. lia.
Qed.

(** X1: [beautifyNumber] always returns exactly two characters, and for a
    number from 0 to 99 they are its decimal digits, padded with a zero on
    the left. *)
Theorem beautifyNumber_two_characters (number : Z) :
  String.length (beautifyNumber number) = 2%nat
  ∧ (beautifyNumber number = two_digits number ∨ number < 0 ∨ 100 ≤ number).
Proof.
  split.
  - unfold beautifyNumber. apply slice_last2_length.
    destruct (Number_toString_plain number) as (_ & Hne & _).
    destruct (Number_toString number); [done|]. cbn. lia.
  - destruct (decide (0 ≤ number < 100)) as [Hn|Hn]; [|lia].
    left. by apply beautifyNumber_two_digits.
Qed.

(** ** The month tables *)

Lemma MonthName_inj (m m' : Z) :
  0 ≤ m ≤ 11 → 0 ≤ m' ≤ 11 → MonthName m = MonthName m' → m = m'.
Proof.
  intros Hm Hm'.
  assert (m = 0 ∨ m = 1 ∨ m = 2 ∨ m = 3 ∨ m = 4 ∨ m = 5 ∨
          m = 6 ∨ m = 7 ∨ m = 8 ∨ m = 9 ∨ m = 10 ∨ m = 11) as Hcases by lia.
  assert (m' = 0 ∨ m' = 1 ∨ m' = 2 ∨ m' = 3 ∨ m' = 4 ∨ m' = 5 ∨
          m' = 6 ∨ m' = 7 ∨ m' = 8 ∨ m' = 9 ∨ m' = 10 ∨ m' = 11) as Hcases' by lia.
  destruct_or!; subst; first [ reflexivity | discriminate ].
Qed.

(** X2: the month table of the sibling variant names the month of every
    0-based index from 0 to 11, so different months get different
    directories; any other number is named January. *)
Theorem Sibling_parseMonth_names_every_month (month month' other : Z) :
  0 ≤ month ≤ 11 → 0 ≤ month' ≤ 11 → other < 0 ∨ 11 < other →
  Sibling.parseMonth month = MonthName month
  ∧ (Sibling.parseMonth month = Sibling.parseMonth month' → month = month')
  ∧ Sibling.parseMonth other = "January".
Proof.
  intros Hm Hm' Ho. split_and!.
  - by apply Sibling_parseMonth_MonthName.
  - rewrite !Sibling_parseMonth_MonthName by done. by apply MonthName_inj.
  - destruct other as [|p|p]; [lia| |done].
    assert (12 ≤ Z.pos p) as Hp by lia.
    unfold Sibling.parseMonth.
    repeat (destruct p as [p|p|]; try reflexivity; try lia).
Qed.

Lemma Sibling_parseMonth_names_every_month_witness :
  Sibling.parseMonth 2 = "March" ∧ Sibling.parseMonth 12 = "January".
Proof.
  destruct (Sibling_parseMonth_names_every_month 2 5 12) as (H1 & _ & H2); [lia..|].
  split; [exact H1 | exact H2].
Defined.

Lemma LoggerTs_parseMonth_MonthName (month : Z) :
  0 ≤ month ≤ 11 → LoggerTs.parseMonth month = MonthName (Z.max 0 (month - 1)).
Proof.
  intros Hm.
  assert (month = 0 ∨ month = 1 ∨ month = 2 ∨ month = 3 ∨ month = 4 ∨ month = 5 ∨
          month = 6 ∨ month = 7 ∨ month = 8 ∨ month = 9 ∨ month = 10 ∨ month = 11)
    as Hcases by lia.
  destruct_or!; by subst.
Qed.

(** X3: the month table of [src/logger.ts] is 1-based: for the 0-based
    index [getMonth()] supplies it names the month before, so that January
    and February are both named January and no month is named December. *)
Theorem LoggerTs_parseMonth_is_one_behind (month : Z) :
  0 ≤ month ≤ 11 →
  LoggerTs.parseMonth month = MonthName (Z.max 0 (month - 1))
  ∧ LoggerTs.parseMonth month ≠ "December"
  ∧ (1 ≤ month → LoggerTs.parseMonth month = Sibling.parseMonth (month - 1)).
Proof.
  intros Hm. split_and!.
  - by apply LoggerTs_parseMonth_MonthName.
  - rewrite LoggerTs_parseMonth_MonthName by done.
    change "December" with (MonthName 11).
    intros Heq%MonthName_inj; lia.
  - intros H1. rewrite LoggerTs_parseMonth_MonthName, Sibling_parseMonth_MonthName by lia.
    f_equal. lia.
Qed.

Lemma LoggerTs_parseMonth_is_one_behind_witness :
  LoggerTs.parseMonth 11 = "November".
Proof.
  destruct (LoggerTs_parseMonth_is_one_behind 11) as (H & _); [lia|]. exact H.
Defined.

(** ** Rendering a line *)

Lemma GetSubstitution_no_dollar (matched before after rep : string) :
  occurs "$" rep = false → GetSubstitution matched before after rep = rep.
Proof.
  induction rep as [|c rep IH]; [done|]. cbn [occurs GetSubstitution].
  intros [Hc Hrep]%orb_false_iff. rewrite Hc. by rewrite IH.
Qed.

(** The scan copies a stretch that does not hold the first character of
    the pattern. *)
Lemma replace_scan_copies (p : ascii) (pat rep : string) (A : string) :
  occurs p A = false →
  ∀ before S,
    replace_scan (String p pat) rep before 0 (A +:+ S)
    = A +:+ replace_scan (String p pat) rep (before +:+ A) 0 S.
Proof.
  induction A as [|c A IH]; intros HA before S.
  - by rewrite string_app_nil_r.
  - cbn [occurs] in HA. apply orb_false_iff in HA as [Hc HA].
    change (String c A +:+ S) with (String c (A +:+ S)).
    cbn [replace_scan strip_prefix]. rewrite Ascii.eqb_sym, Hc.
    rewrite (IH HA). rewrite string_app_assoc. done.
Qed.

Lemma replace_g_without_marker (p : ascii) (pat rep s : string) :
  occurs p s = false → replace_g (String p pat) rep s = s.
Proof.
  intros Hs. unfold replace_g.
  rewrite <- (string_app_nil_r s) at 1. rewrite (replace_scan_copies p pat rep s Hs).
  cbn [replace_scan]. by rewrite string_app_nil_r.
Qed.

(** X4: a template that holds no percent sign holds no placeholder, and
    every line rendered from it is the template itself. *)
Theorem assemble_without_placeholders (template namespace : string) (now : Date)
    (type : LogType) (message : string) :
  occurs "%" template = false →
  assemble template namespace now type message = template.
Proof.
  intros Ht. unfold assemble.
  rewrite (replace_g_without_marker "%" "date%" _ template Ht).
  rewrite (replace_g_without_marker "%" "type%" _ template Ht).
  rewrite (replace_g_without_marker "%" "namespace%" _ template Ht).
  apply (replace_g_without_marker "%" "message%" _ template Ht).
Qed.

Lemma assemble_without_placeholders_witness :
  assemble "static line" "svc" monday INFO "boot" = "static line".
Proof. apply assemble_without_placeholders. reflexivity. Defined.

(** X5: with the default template, a clock reading and a namespace that
    hold neither a percent nor a dollar sign, and a message that holds no
    dollar sign, the rendered line is
    [[<date>] [<number of the severity>] [<namespace>] [<message>]]. *)
Theorem assemble_default_format (namespace : string) (now : Date) (type : LogType)
    (message : string) :
  occurs "%" (getDate now) = false → occurs "$" (getDate now) = false →
  occurs "%" namespace = false → occurs "$" namespace = false →
  occurs "$" message = false →
  assemble default_template namespace now type message
  = "[" +:+ getDate now +:+ "] [" +:+ String (digit (LogType_value type)) ""
      +:+ "] [" +:+ namespace +:+ "] [" +:+ message +:+ "]".
Proof.
  intros Hd1 Hd2 Hn1 Hn2 Hm. unfold assemble.
  set (d := getDate now) in *.
  assert (replace_g "%date%" d default_template
          = ("[" +:+ d +:+ "] [") +:+ "%type%] [%namespace%] [%message%]") as ->.
  { transitivity ("[" +:+ GetSubstitution "%date%" "[" "] [%type%] [%namespace%] [%message%]" d
                    +:+ "] [%type%] [%namespace%] [%message%]"); [reflexivity|].
    rewrite GetSubstitution_no_dollar by done. by rewrite !string_app_assoc. }
  rewrite LogType_toString_digit.
  set (t := String (digit (LogType_value type)) "").
  assert (occurs "%" t = false ∧ occurs "$" t = false) as [Ht1 Ht2] by (by destruct type).
  unfold replace_g at 3. rewrite replace_scan_copies
    by (by rewrite !occurs_app, Hd1).
  set (A1 := "" +:+ "[" +:+ d +:+ "] [").
  assert (replace_scan "%type%" t A1 0 "%type%] [%namespace%] [%message%]"
          = GetSubstitution "%type%" A1 "] [%namespace%] [%message%]" t
              +:+ "] [%namespace%] [%message%]") as -> by reflexivity.
  rewrite GetSubstitution_no_dollar by done.
  assert (("[" +:+ d +:+ "] [") +:+ t +:+ "] [%namespace%] [%message%]"
          = ("[" +:+ d +:+ "] [" +:+ t +:+ "] [") +:+ "%namespace%] [%message%]") as ->.
  { rewrite !string_app_assoc. done. }
  unfold replace_g at 2. rewrite replace_scan_copies
    by (by rewrite !occurs_app, Hd1, Ht1).
  set (A2 := "" +:+ "[" +:+ d +:+ "] [" +:+ t +:+ "] [").
  assert (replace_scan "%namespace%" namespace A2 0 "%namespace%] [%message%]"
          = GetSubstitution "%namespace%" A2 "] [%message%]" namespace
              +:+ "] [%message%]") as -> by reflexivity.
  rewrite GetSubstitution_no_dollar by done.
  assert (("[" +:+ d +:+ "] [" +:+ t +:+ "] [") +:+ namespace +:+ "] [%message%]"
          = ("[" +:+ d +:+ "] [" +:+ t +:+ "] [" +:+ namespace +:+ "] [") +:+ "%message%]")
    as ->.
  { rewrite !string_app_assoc. done. }
  unfold replace_g. rewrite replace_scan_copies
    by (by rewrite !occurs_app, Hd1, Ht1, Hn1).
  set (A3 := "" +:+ "[" +:+ d +:+ "] [" +:+ t +:+ "] [" +:+ namespace +:+ "] [").
  assert (replace_scan "%message%" message A3 0 "%message%]"
          = GetSubstitution "%message%" A3 "]" message +:+ "]") as -> by reflexivity.
  rewrite GetSubstitution_no_dollar by done.
  rewrite !string_app_assoc. done.
Qed.

Lemma assemble_default_format_witness :
  assemble default_template "svc" monday WARN "disk 90% full"
  = "[2021-03-15T10:30:00.000Z] [1] [svc] [disk 90% full]".
Proof.
  pose proof (assemble_default_format "svc" monday WARN "disk 90% full") as H.
  apply H; reflexivity.
Defined.

(** ** Where a generation's files are *)

Section env_dirs.
Implicit Types (w : World) (p : string).

Lemma mkdirSync_dirs p w : dirs (Env.mkdirSync p w) = {[p]} ∪ dirs w.
Proof. done. Qed.
Lemma createWriteStream_dirs p w : dirs (Env.createWriteStream p w).2 = dirs w.
Proof. done. Qed.
End env_dirs.

Lemma LoggerTs_loadFiles_dirs (this : LoggerTs.Logger) (date : Date) (w : World)
    (type : LogType) :
  LoggerTs.typePath this (folder type) date ∈ dirs (LoggerTs.loadFiles this date w).2.
Proof.
  unfold LoggerTs.loadFiles. open_generation.
  rewrite !createWriteStream_dirs, !mkdirSync_dirs. destruct type; set_solver.
Qed.

Lemma Sibling_loadFiles_dirs (this : Sibling.Logger) (date : Date) (w : World)
    (type : LogType) :
  Sibling.typePath this (folder type) date ∈ dirs (Sibling.loadFiles this date w).2.
Proof.
  unfold Sibling.loadFiles. open_generation.
  rewrite !createWriteStream_dirs, !mkdirSync_dirs. destruct type; set_solver.
Qed.

(** X6: whenever the sibling variant opens a generation, at construction or
    at rotation, the file of each severity is at
    [<base>/<severity>/<year>/<MonthName>/<DD>-<HH>_<MM>.log], with the
    month named by its 0-based index and [DD] the day of the month; its
    directory has been created, the file is empty, the map entry's handle
    is open on it, and its archive would be the same path followed by
    [.gz]. *)
Theorem Sibling_generation_layout (this : Sibling.Logger) (date : Date) (w : World)
    (type : LogType) :
  JsDate.in_range date →
  let r := Sibling.loadFiles this date w in
  ∃ file, Sibling.logFiles r.1 !! type = Some file
          ∧ fullPath file
            = log_path (Sibling.logsPath this) type (JsDate.getFullYear date)
                (MonthName (JsDate.getMonth date))
                (stem (JsDate.getDate date) (JsDate.getHours date) (JsDate.getMinutes date))
          ∧ archivePath file = fullPath file +:+ ".gz"
          ∧ filePath file ∈ dirs r.2
          ∧ disk r.2 !! fullPath file = Some (Text "")
          ∧ open_on r.2 file.
Proof.
  intros Hrange r. subst r.
  destruct (Sibling_loadFiles_spec this date w) as (_ & _ & Hfiles & Hstreams & Hempty & _).
  destruct (Sibling_fullPath this date type (length (streams w) + LogType_index type) Hrange)
    as [Hpath Harch].
  eexists. split_and!; [apply Hfiles|exact Hpath|exact Harch| |apply Hempty|].
  - apply Sibling_loadFiles_dirs.
  - unfold open_on. rewrite Hstreams. cbn [writeStream Sibling_file].
    exact (opened_lookup w (λ type, {| target := fullPath (Sibling_file this date type
             (length (streams w) + LogType_index type)); ended := false |}) type).
Qed.

Lemma Sibling_generation_layout_witness :
  ∃ file, Sibling.logFiles Sibling_example.1 !! ERROR = Some file
          ∧ fullPath file = "logs/error/2021/March/15-10_30.log".
Proof.
  destruct (Sibling_generation_layout
              {| Sibling.namespace := "svc"; Sibling.logsPath := "logs";
                 Sibling.template := default_template;
                 Sibling.settings := Sibling.default_settings;
                 Sibling.currentDay := 0; Sibling.logFiles := ∅ |}
              monday empty_world ERROR monday_in_range) as (file & Hfile & Hpath & _).
  exists file. split; [exact Hfile|].
  revert Hpath. vm_compute. intros Hpath. exact Hpath.
Defined.

(** X7: whenever [src/logger.ts] opens a generation, the file of each
    severity is at [<base>/<severity>/<year>/<month>/<DD>-<HH>_<MM>.log]
    where the month is named one behind (January for both January and
    February) and [DD] is the day of the week, 00 to 06; its directory has
    been created, the file is empty and the map entry's handle is open on
    it. *)
Theorem LoggerTs_generation_layout (this : LoggerTs.Logger) (date : Date) (w : World)
    (type : LogType) :
  JsDate.in_range date →
  let r := LoggerTs.loadFiles this date w in
  ∃ file, LoggerTs.logFiles r.1 !! type = Some file
          ∧ fullPath file
            = log_path (LoggerTs.logsPath this) type (JsDate.getFullYear date)
                (MonthName (Z.max 0 (JsDate.getMonth date - 1)))
                (stem (JsDate.getDay date) (JsDate.getHours date) (JsDate.getMinutes date))
          ∧ archivePath file = fullPath file +:+ ".gz"
          ∧ filePath file ∈ dirs r.2
          ∧ disk r.2 !! fullPath file = Some (Text "")
          ∧ open_on r.2 file.
Proof.
  intros Hrange r. subst r.
  destruct (LoggerTs_loadFiles_spec this date w) as (_ & _ & Hfiles & Hstreams & Hempty & _).
  destruct (LoggerTs_fullPath this date type (length (streams w) + LogType_index type) Hrange)
    as [Hpath Harch].
  rewrite LoggerTs_parseMonth_MonthName in Hpath by apply Hrange.
  eexists. split_and!; [apply Hfiles|exact Hpath|exact Harch| |apply Hempty|].
  - apply LoggerTs_loadFiles_dirs.
  - unfold open_on. rewrite Hstreams. cbn [writeStream LoggerTs_file].
    exact (opened_lookup w (λ type, {| target := fullPath (LoggerTs_file this date type
             (length (streams w) + LogType_index type)); ended := false |}) type).
Qed.

Lemma LoggerTs_generation_layout_witness :
  ∃ file, LoggerTs.logFiles LoggerTs_example.1 !! ERROR = Some file
          ∧ fullPath file = "logs/error/2021/February/01-10_30.log".
Proof.
  destruct (LoggerTs_generation_layout
              {| LoggerTs.namespace := "svc"; LoggerTs.logsPath := "logs";
                 LoggerTs.template := default_template;
                 LoggerTs.settings := LoggerTs.default_settings;
                 LoggerTs.currentDay := 0; LoggerTs.logFiles := ∅ |}
              monday empty_world ERROR monday_in_range) as (file & Hfile & Hpath & _).
  exists file. split; [exact Hfile|].
  revert Hpath. vm_compute. intros Hpath. exact Hpath.
Defined.

Lemma base_prefix_trailing_slash (base : string) :
  base ≠ "" → base_prefix (base +:+ "/") = base_prefix base.
Proof.
  intros Hne. destruct base as [|c base]; [done|].
  change (String c base +:+ "/") with (String c (base +:+ "/")).
  unfold base_prefix.
  change (String c (base +:+ "/")) with (String c base +:+ String "/" "").
  assert (Path_stack (String c base +:+ String "/" "") = Path_stack (String c base)) as ->.
  { unfold Path_stack. rewrite segments_app_slash, foldl_app.
    rewrite first_is_slash_app by done. done. }
  by rewrite first_is_slash_app by done.
Qed.

(** X8: a separator at the end of the base directory makes no difference:
    a logger given [<base>/] opens the same files as one given [<base>]. *)
Theorem logsPath_trailing_slash (this this' : LoggerTs.Logger)
    (that that' : Sibling.Logger) (date : Date) (type : LogType) (h : nat) :
  JsDate.in_range date →
  LoggerTs.logsPath this ≠ "" → LoggerTs.logsPath this' = LoggerTs.logsPath this +:+ "/" →
  Sibling.logsPath that ≠ "" → Sibling.logsPath that' = Sibling.logsPath that +:+ "/" →
  fullPath (LoggerTs_file this' date type h) = fullPath (LoggerTs_file this date type h)
  ∧ fullPath (Sibling_file that' date type h) = fullPath (Sibling_file that date type h).
Proof.
  intros Hrange Hne Hslash Hne' Hslash'. split.
  - destruct (LoggerTs_fullPath this date type h Hrange) as [-> _].
    destruct (LoggerTs_fullPath this' date type h Hrange) as [-> _].
    unfold log_path. by rewrite Hslash, base_prefix_trailing_slash.
  - destruct (Sibling_fullPath that date type h Hrange) as [-> _].
    destruct (Sibling_fullPath that' date type h Hrange) as [-> _].
    unfold log_path. by rewrite Hslash', base_prefix_trailing_slash.
Qed.

Lemma logsPath_trailing_slash_witness :
  let this := {| LoggerTs.namespace := "svc"; LoggerTs.logsPath := "logs";
                 LoggerTs.template := default_template;
                 LoggerTs.settings := LoggerTs.default_settings;
                 LoggerTs.currentDay := 0; LoggerTs.logFiles := ∅ |} in
  let this' := {| LoggerTs.namespace := "svc"; LoggerTs.logsPath := "logs/";
                  LoggerTs.template := default_template;
                  LoggerTs.settings := LoggerTs.default_settings;
                  LoggerTs.currentDay := 0; LoggerTs.logFiles := ∅ |} in
  fullPath (LoggerTs_file this' monday INFO 0) = fullPath (LoggerTs_file this monday INFO 0).
Proof.
  intros this this'.
  destruct (logsPath_trailing_slash this this'
              {| Sibling.namespace := "svc"; Sibling.logsPath := "logs";
                 Sibling.template := default_template;
                 Sibling.settings := Sibling.default_settings;
                 Sibling.currentDay := 0; Sibling.logFiles := ∅ |}
              {| Sibling.namespace := "svc"; Sibling.logsPath := "logs/";
                 Sibling.template := default_template;
                 Sibling.settings := Sibling.default_settings;
                 Sibling.currentDay := 0; Sibling.logFiles := ∅ |}
              monday INFO 0 monday_in_range) as [H _];
    [discriminate | reflexivity | discriminate | reflexivity | exact H].
Defined.

(** ** Calls of [src/logger.ts] within one day *)

Lemma LoggerTs_emit_same_day (type : LogType) (this : LoggerTs.Logger) (message : string)
    (object : option JsObject) (now newDate : Date) (w : World) (file : LogFile) :
  LoggerTs.logFiles this !! type = Some file →
  JsDate.getDay newDate = LoggerTs.currentDay this →
  let templated := LoggerTs.assembleTemplate this now type message in
  LoggerTs_emit type this message object now newDate w
  = (Fulfilled,
     (this,
      Env.write (writeStream file)
        (file_line (truthy (LoggerTs.includeObjects (LoggerTs.settings this))) templated object)
        (LoggerTs_echoed this type templated object w))).
Proof.
  intros Hfile Hday templated. rewrite LoggerTs_emit_unfold. fold templated.
  rewrite (LoggerTs_logToFile_unfold _ _ _ _ _ _ file Hfile).
  unfold LoggerTs.reloadFiles. by rewrite decide_False by (by intros []).
Qed.

Lemma LoggerTs_generation_paths_apart (this : LoggerTs.Logger) (date : Date)
    (type type' : LogType) (file file' : LogFile) :
  JsDate.in_range date → LoggerTs_generation this date →
  LoggerTs.logFiles this !! type = Some file →
  LoggerTs.logFiles this !! type' = Some file' →
  type ≠ type' → fullPath file ≠ fullPath file'.
Proof.
  intros Hrange [_ Hgen] Hfile Hfile' Hne.
  destruct (Hgen type) as (h & Hh), (Hgen type') as (h' & Hh').
  rewrite Hfile in Hh. rewrite Hfile' in Hh'. injection Hh as ->. injection Hh' as ->.
  pose proof (LoggerTs_paths_apart this date date type type' h h' Hrange Hrange) as Hapart.
  cbv zeta in Hapart. destruct Hapart as (_ & _ & Hapart). by apply Hapart.
Qed.

(** X9: a call of [src/logger.ts] that detects no rollover leaves the
    logger and the streams as they are and changes one thing on the disk:
    the chunk is appended to the file of the call's severity.  Every other
    path, in particular the file of every other severity, is untouched. *)
Theorem LoggerTs_same_day_call_touches_one_file
    (this : LoggerTs.Logger) (w : World) (date0 now newDate : Date) (type : LogType)
    (message : string) (object : option JsObject) (file : LogFile) :
  LoggerTs_ready this w date0 →
  LoggerTs.logFiles this !! type = Some file →
  JsDate.getDay newDate = LoggerTs.currentDay this →
  let line := file_line (truthy (LoggerTs.includeObjects (LoggerTs.settings this)))
                (LoggerTs.assembleTemplate this now type message) object in
  let r := (LoggerTs_emit type this message object now newDate w).2 in
  r.1 = this
  ∧ streams r.2 = streams w
  ∧ disk r.2 !! fullPath file = Env.append_data line <$> disk w !! fullPath file
  ∧ (∀ p, p ≠ fullPath file → disk r.2 !! p = disk w !! p)
  ∧ (∀ type' file', type' ≠ type → LoggerTs.logFiles this !! type' = Some file' →
       disk r.2 !! fullPath file' = disk w !! fullPath file').
Proof.
  intros (Hrange & Hgen & Hopen) Hfile Hday line r. subst r.
  rewrite (LoggerTs_emit_same_day _ _ _ _ _ _ _ file Hfile Hday). cbn [fst snd].
  fold line.
  destruct (LoggerTs_echoed_frame this type (LoggerTs.assembleTemplate this now type message)
              object w) as (Hdc & Hsc & _).
  set (wc := LoggerTs_echoed _ _ _ _ _) in *.
  assert (open_on wc file) as Hof by (unfold open_on; rewrite Hsc; by eapply Hopen).
  destruct (write_open_on wc file line Hof) as (Hd1 & Hs1 & _).
  assert (∀ p, p ≠ fullPath file
               → disk (Env.write (writeStream file) line wc) !! p = disk w !! p) as Hframe.
  { intros p Hp. rewrite Hd1, Hdc. by rewrite lookup_alter_ne. }
  split_and!; [done|congruence| |done|].
  - by rewrite Hd1, Hdc, lookup_alter_eq.
  - intros type' file' Hne Hfile'. apply Hframe.
    by apply (LoggerTs_generation_paths_apart this date0 type' type).
Qed.

Lemma LoggerTs_same_day_call_touches_one_file_witness :
  let r := (LoggerTs.warn LoggerTs_example.1 "low disk" None monday monday
              LoggerTs_example.2).2 in
  disk r.2 !! "logs/info/2021/February/01-10_30.log" = Some (Text "")
  ∧ disk r.2 !! "logs/warn/2021/February/01-10_30.log"
    = Some (Text ("[2021-03-15T10:30:00.000Z] [1] [svc] [low disk]" +:+ newline)).
Proof.
  intros r.
  destruct (LoggerTs_constructor_ready "svc" "logs" None None monday empty_world
              monday_in_range) as [Hready _].
  pose (file := {| filePath := "logs/warn/2021/February"; fileName := "01-10_30.log";
                   writeStream := 1 |}).
  destruct (LoggerTs_same_day_call_touches_one_file LoggerTs_example.1 LoggerTs_example.2
              monday monday monday WARN "low disk" None file) as (_ & _ & Hown & Hframe & _).
  - exact Hready.
  - vm_compute; reflexivity.
  - vm_compute; reflexivity.
  - split.
    + specialize (Hframe "logs/info/2021/February/01-10_30.log").
      revert Hframe. vm_compute. intros Hframe. apply Hframe. discriminate.
    + revert Hown. vm_compute. intros Hown. exact Hown.
Defined.

(** X10: over any sequence of calls of [src/logger.ts] none of which
    detects a rollover, the file of a severity receives the chunks of the
    calls of that severity, in the order of the calls, and nothing else;
    the logger does not change. *)
Theorem LoggerTs_lines_land_in_call_order
    (this : LoggerTs.Logger) (date0 : Date) (type : LogType) (file : LogFile)
    (calls : list Call) (w : World) (content : string) :
  LoggerTs_ready this w date0 →
  LoggerTs.logFiles this !! type = Some file →
  disk w !! fullPath file = Some (Text content) →
  Forall (λ c, JsDate.getDay (call_newDate c) = LoggerTs.currentDay this) calls →
  let st := LoggerTs_run calls (this, w) in
  st.1 = this
  ∧ disk st.2 !! fullPath file = Some (Text (content +:+ LoggerTs_lines this type calls)).
Proof.
  intros Hready Hfile Hdisk Hcalls. revert w content Hready Hdisk.
  induction Hcalls as [|c calls Hday _ IH]; intros w content Hready Hdisk.
  - cbn. by rewrite string_app_nil_r.
  - cbn [LoggerTs_run foldl LoggerTs_lines fst snd].
    pose proof Hready as (Hrange & Hgen & Hopen).
    destruct Hgen as [Hcur Hmap]. destruct (Hmap (call_type c)) as (h & Hc).
    rewrite (LoggerTs_emit_same_day _ _ _ _ _ _ _ _ Hc Hday). cbn [fst snd].
    fold (LoggerTs_line this c).
    destruct (LoggerTs_echoed_frame this (call_type c)
                (LoggerTs.assembleTemplate this (call_now c) (call_type c) (call_message c))
                (call_object c) w) as (Hdc & Hsc & _).
    set (wc := LoggerTs_echoed _ _ _ _ _) in *.
    assert (open_on wc (LoggerTs_file this date0 (call_type c) h)) as Hof.
    { unfold open_on. rewrite Hsc. by eapply Hopen. }
    destruct (write_open_on wc _ (LoggerTs_line this c) Hof) as (Hd1 & Hs1 & _).
    set (w1 := Env.write _ _ wc) in *.
    assert (LoggerTs_ready this w1 date0) as Hready1.
    { apply (LoggerTs_ready_streams this w); [congruence|done]. }
    fold (LoggerTs_run calls (this, w1)).
    case_decide as Htype.
    + subst type. rewrite Hfile in Hc. injection Hc as Hc.
      rewrite <- string_app_assoc. apply IH; [done|].
      rewrite Hd1, <- Hc, lookup_alter_eq, Hdc, Hdisk. done.
    + change ("" +:+ ?s) with s. apply IH; [done|].
      rewrite Hd1, lookup_alter_ne, Hdc; [done|].
      apply (LoggerTs_generation_paths_apart this date0 (call_type c) type); done.
Qed.

Lemma LoggerTs_lines_land_in_call_order_witness :
  let calls := [ {| call_type := INFO; call_message := "a"; call_object := None;
                    call_now := monday; call_newDate := monday |};
                 {| call_type := WARN; call_message := "b"; call_object := None;
                    call_now := monday; call_newDate := monday |};
                 {| call_type := INFO; call_message := "c"; call_object := None;
                    call_now := monday; call_newDate := monday |} ] in
  disk (LoggerTs_run calls LoggerTs_example).2 !! "logs/info/2021/February/01-10_30.log"
  = Some (Text ("[2021-03-15T10:30:00.000Z] [0] [svc] [a]" +:+ newline
                  +:+ "[2021-03-15T10:30:00.000Z] [0] [svc] [c]" +:+ newline)).
Proof.
  intros calls.
  destruct (LoggerTs_constructor_ready "svc" "logs" None None monday empty_world
              monday_in_range) as [Hready _].
  pose (file := {| filePath := "logs/info/2021/February"; fileName := "01-10_30.log";
                   writeStream := 0 |}).
  destruct (LoggerTs_lines_land_in_call_order LoggerTs_example.1 monday INFO file calls
              LoggerTs_example.2 "") as (_ & H).
  - exact Hready.
  - vm_compute; reflexivity.
  - vm_compute; reflexivity.
  - repeat constructor.
  - revert H. vm_compute. intros H. exact H.
Defined.

(** ** Any sequence of calls of [src/logger.ts] *)

Lemma LoggerTs_run_ready (calls : list Call) :
  Forall (λ c, JsDate.in_range (call_newDate c)) calls →
  ∀ (st : LoggerTs.Logger * World) (date : Date),
    LoggerTs_ready st.1 st.2 date →
    ∃ date', LoggerTs_ready (LoggerTs_run calls st).1 (LoggerTs_run calls st).2 date'.
Proof.
  induction 1 as [|c calls Hc _ IH]; intros st date Hready.
  - by exists date.
  - cbn [LoggerTs_run foldl].
    fold (LoggerTs_run calls
            (LoggerTs_emit (call_type c) st.1 (call_message c) (call_object c)
               (call_now c) (call_newDate c) st.2).2).
    eapply IH.
    apply (LoggerTs_emit_ready (call_type c) st.1 (call_message c) (call_object c)
             (call_now c) (call_newDate c) date st.2 Hready Hc).
Qed.

(** X11: after any sequence of public calls on a logger that the
    constructor of [src/logger.ts] made, the map has an entry for every
    severity, all four made by [loadFiles] at one clock reading, and the
    handle of each entry is an open stream on the entry's file. *)
Theorem LoggerTs_every_severity_stays_open
    (ns path : string) (s : option LoggerTs.LoggerSettings) (tmpl : option string)
    (now : Date) (w : World) (calls : list Call) :
  JsDate.in_range now →
  Forall (λ c, JsDate.in_range (call_newDate c)) calls →
  let st := LoggerTs_run calls (LoggerTs.constructor ns path s tmpl now w) in
  ∃ date, LoggerTs_ready st.1 st.2 date.
Proof.
  intros Hnow Hcalls st. subst st.
  destruct (LoggerTs_constructor_ready ns path s tmpl now w Hnow) as [Hready _].
  by apply (LoggerTs_run_ready calls Hcalls _ now).
Qed.

Lemma LoggerTs_every_severity_stays_open_witness :
  let calls := [ {| call_type := INFO; call_message := "a"; call_object := None;
                    call_now := monday; call_newDate := monday |};
                 {| call_type := ERROR; call_message := "b"; call_object := None;
                    call_now := tuesday; call_newDate := tuesday |} ] in
  ∃ date, LoggerTs_ready (LoggerTs_run calls LoggerTs_example).1
            (LoggerTs_run calls LoggerTs_example).2 date.
Proof.
  intros calls.
  apply (LoggerTs_every_severity_stays_open "svc" "logs" None None monday empty_world calls).
  - exact monday_in_range.
  - repeat constructor; cbn; lia.
Defined.

Section keeps.
Implicit Types (w : World) (this : LoggerTs.Logger).

Lemma World_keeps_refl w : World_keeps w w.
Proof. by split. Qed.

Lemma World_keeps_trans w1 w2 w3 : World_keeps w1 w2 → World_keeps w2 w3 → World_keeps w1 w3.
Proof. intros [Hd1 Hs1] [Hd2 Hs2]. split; eauto. Qed.

Lemma World_keeps_frame w w' :
  disk w' = disk w → streams w' = streams w → World_keeps w w'.
Proof. intros Hd Hs. split; intros ??; by rewrite ?Hd, ?Hs. Qed.

Lemma write_keeps h chunk w : World_keeps w (Env.write h chunk w).
Proof.
  unfold Env.write. destruct (streams w !! h) as [st|]; [|apply World_keeps_refl].
  destruct (ended st); [apply World_keeps_refl|].
  split; [|done]. intros p Hp. autorewrite with world.
  rewrite lookup_alter. case_decide; [subst; by apply fmap_is_Some|done].
Qed.

Lemma LoggerTs_compressFile_keeps this type w :
  World_keeps w (LoggerTs.compressFile this type w).
Proof.
  unfold LoggerTs.compressFile, Env.gzip_compressFile.
  destruct (LoggerTs.logFiles this !! type) as [file|]; [|apply World_keeps_refl].
  assert (∀ dest c w', disk w' = <[dest := c]> (disk w) → streams w' = streams w →
                       World_keeps w w') as Hinsert.
  { intros dest c w' Hd Hs. split; [|intros ??; by rewrite Hs].
    intros p' Hp'. rewrite Hd, lookup_insert. by case_decide. }
  destruct (disk w !! _) as [c|]; [case_decide|]; by eapply Hinsert.
Qed.

Lemma LoggerTs_loadFiles_keeps this date w :
  World_keeps w (LoggerTs.loadFiles this date w).2.
Proof.
  destruct (LoggerTs_loadFiles_spec this date w) as (_ & _ & _ & Hs & Hempty & Hframe & _).
  split.
  - intros p Hp.
    set (f type := fullPath (LoggerTs_file this date type
                     (length (streams w) + LogType_index type))) in *.
    destruct (decide (p = f INFO)) as [->|HI]; [unfold f; by rewrite Hempty|].
    destruct (decide (p = f WARN)) as [->|HW]; [unfold f; by rewrite Hempty|].
    destruct (decide (p = f DEBUG)) as [->|HD]; [unfold f; by rewrite Hempty|].
    destruct (decide (p = f ERROR)) as [->|HE]; [unfold f; by rewrite Hempty|].
    rewrite Hframe; [done|]. by intros [].
  - intros h st Hh. rewrite Hs. by apply lookup_app_l_Some.
Qed.

Lemma LoggerTs_reloadFiles_keeps this newDate w :
  World_keeps w (LoggerTs.reloadFiles this newDate w).2.
Proof.
  unfold LoggerTs.reloadFiles. case_decide; [|apply World_keeps_refl].
  unfold LoggerTs.compressFiles_until_await, LoggerTs.compressFiles_resumed.
  pose proof (LoggerTs_loadFiles_keeps this newDate (LoggerTs.compressFile this INFO w)) as Hload.
  destruct (LoggerTs.loadFiles this newDate _) as [this' w2]. cbn [snd] in *.
  eapply World_keeps_trans; [apply LoggerTs_compressFile_keeps|].
  eapply World_keeps_trans; [apply Hload|].
  eapply World_keeps_trans; [apply LoggerTs_compressFile_keeps|].
  eapply World_keeps_trans; apply LoggerTs_compressFile_keeps.
Qed.

Lemma LoggerTs_emit_keeps type this message object now newDate w :
  World_keeps w (LoggerTs_emit type this message object now newDate w).2.2.
Proof.
  rewrite LoggerTs_emit_unfold. cbn [snd].
  set (templated := LoggerTs.assembleTemplate this now type message).
  fold (LoggerTs_echoed this type templated object w).
  destruct (LoggerTs_echoed_frame this type templated object w) as (Hd & Hs & _).
  eapply World_keeps_trans; [by apply World_keeps_frame|].
  unfold LoggerTs.logToFile.
  eapply World_keeps_trans; [|apply LoggerTs_reloadFiles_keeps].
  destruct (LoggerTs.logFiles this !! type) as [file|]; [|apply World_keeps_refl].
  destruct (truthy _), object; apply write_keeps.
Qed.
End keeps.

(** X12: [src/logger.ts] never removes a file and never ends a stream: over
    any sequence of public calls, from any state, every path that held a
    file still holds one and every stream is in the state it was in. *)
Theorem LoggerTs_never_unlinks_never_ends (calls : list Call)
    (st : LoggerTs.Logger * World) :
  World_keeps st.2 (LoggerTs_run calls st).2.
Proof.
  revert st. induction calls as [|c calls IH]; intros st; [apply World_keeps_refl|].
  cbn [LoggerTs_run foldl].
  fold (LoggerTs_run calls
          (LoggerTs_emit (call_type c) st.1 (call_message c) (call_object c)
             (call_now c) (call_newDate c) st.2).2).
  eapply World_keeps_trans; [|apply IH]. apply LoggerTs_emit_keeps.
Qed.

Lemma LoggerTs_reloadFiles_streams (this : LoggerTs.Logger) (newDate : Date) (w : World) :
  JsDate.getDay newDate ≠ LoggerTs.currentDay this →
  let file type :=
    LoggerTs_file this newDate type (length (streams w) + LogType_index type) in
  let r := LoggerTs.reloadFiles this newDate w in
  (∀ type, LoggerTs.logFiles r.1 !! type = Some (file type))
  ∧ streams r.2 = streams w ++ ((λ type, fresh_stream (file type)) <$> [INFO; WARN; DEBUG; ERROR]).
Proof.
  intros Hday file r. subst r.
  unfold LoggerTs.reloadFiles. rewrite decide_True by done.
  unfold LoggerTs.compressFiles_until_await, LoggerTs.compressFiles_resumed.
  destruct (LoggerTs_compressFile_spec this INFO w) as (HsA & _).
  set (wA := LoggerTs.compressFile this INFO w) in *.
  pose proof (LoggerTs_loadFiles_spec this newDate wA) as Hload.
  destruct (LoggerTs.loadFiles this newDate wA) as [this' wB].
  cbn [fst snd] in *. rewrite HsA in Hload.
  destruct Hload as (_ & _ & Hfiles & HsB & _).
  destruct (LoggerTs_compressFile_spec this' WARN wB) as (Hs1 & _).
  set (w1 := LoggerTs.compressFile this' WARN wB) in *.
  destruct (LoggerTs_compressFile_spec this' DEBUG w1) as (Hs2 & _).
  set (w2 := LoggerTs.compressFile this' DEBUG w1) in *.
  destruct (LoggerTs_compressFile_spec this' ERROR w2) as (Hs3 & _).
  split; [done|]. by rewrite Hs3, Hs2, Hs1, HsB.
Qed.

(** X13: every call of [src/logger.ts] that detects a rollover adds four
    open streams, those of the new map entries, to the ones that were open
    before: the handles of the previous generation are not closed. *)
Theorem LoggerTs_rotation_leaks_four_handles
    (type : LogType) (this : LoggerTs.Logger) (message : string) (object : option JsObject)
    (now newDate : Date) (w : World) :
  JsDate.getDay newDate ≠ LoggerTs.currentDay this →
  let r := (LoggerTs_emit type this message object now newDate w).2 in
  ∃ file : LogType → LogFile,
    (∀ type', LoggerTs.logFiles r.1 !! type' = Some (file type'))
    ∧ Env.open_streams r.2
      = Env.open_streams w ++ ((λ type, fresh_stream (file type)) <$> [INFO; WARN; DEBUG; ERROR]).
Proof.
  intros Hday r. subst r. rewrite LoggerTs_emit_unfold. cbn [snd].
  set (templated := LoggerTs.assembleTemplate this now type message).
  fold (LoggerTs_echoed this type templated object w).
  destruct (LoggerTs_echoed_frame this type templated object w) as (_ & Hsc & _).
  set (wc := LoggerTs_echoed _ _ _ _ _) in *.
  unfold LoggerTs.logToFile.
  set (w1 := match LoggerTs.logFiles this !! type with Some _ => _ | None => wc end).
  assert (streams w1 = streams w) as Hs1.
  { subst w1. destruct (LoggerTs.logFiles this !! type) as [file|]; [|done].
    assert (∀ chunk, streams (Env.write (writeStream file) chunk wc) = streams w) as Hw.
    { intros chunk. unfold Env.write.
      destruct (streams wc !! writeStream file) as [st|]; [|done]. by destruct (ended st). }
    destruct (truthy _), object; apply Hw. }
  destruct (LoggerTs_reloadFiles_streams this newDate w1 Hday) as [Hfiles Hstreams].
  eexists. split; [exact Hfiles|].
  unfold Env.open_streams. rewrite Hstreams, Hs1, filter_app. done.
Qed.

Lemma LoggerTs_rotation_leaks_four_handles_witness :
  let r := (LoggerTs.info LoggerTs_example.1 "boot" None monday tuesday
              LoggerTs_example.2).2 in
  length (Env.open_streams r.2) = 8%nat.
Proof.
  intros r.
  destruct (LoggerTs_rotation_leaks_four_handles INFO LoggerTs_example.1 "boot" None monday
              tuesday LoggerTs_example.2) as (file & _ & H).
  - vm_compute. discriminate.
  - unfold r. change (LoggerTs.info) with (LoggerTs_emit INFO). rewrite H.
    rewrite length_app, length_fmap. reflexivity.
Defined.

(** ** What a rotation of [src/logger.ts] archives *)

Section LoggerTs_apart.
Variables (this : LoggerTs.Logger) (d d' : Date).
Hypotheses (Hd : JsDate.in_range d) (Hd' : JsDate.in_range d').
Implicit Types type : LogType.
Implicit Types h : nat.

Lemma LoggerTs_path_other_type type type' h h' :
  type ≠ type' →
  fullPath (LoggerTs_file this d type h) ≠ fullPath (LoggerTs_file this d type' h').
Proof.
  pose proof (LoggerTs_paths_apart this d d type type' h h' Hd Hd) as H.
  cbv zeta in H. by destruct H as (_ & _ & ?).
Qed.

Lemma LoggerTs_archive_other_type type type' h h' :
  type ≠ type' →
  fullPath (LoggerTs_file this d type h) +:+ ".gz"
  ≠ fullPath (LoggerTs_file this d type' h') +:+ ".gz".
Proof.
  intros Hne Heq%string_app_inv_tail. by apply LoggerTs_path_other_type in Heq.
Qed.

Lemma LoggerTs_archive_other_day type type' h h' :
  JsDate.getDay d ≠ JsDate.getDay d' →
  fullPath (LoggerTs_file this d type h) +:+ ".gz"
  ≠ fullPath (LoggerTs_file this d' type' h') +:+ ".gz".
Proof.
  intros Hne Heq%string_app_inv_tail. by apply LoggerTs_path_other_day in Heq.
Qed.
End LoggerTs_apart.

Lemma LoggerTs_compressFile_success (this : LoggerTs.Logger) (type : LogType) (w : World)
    (file : LogFile) (c : FileContent) :
  LoggerTs.logFiles this !! type = Some file →
  disk w !! fullPath file = Some c → fullPath file ∉ unreadable w →
  LoggerTs.compressFile this type w
  = Env.set_disk (insert (archivePath file) (Gzipped c)) w.
Proof.
  intros Hfile Hdisk Hread. unfold LoggerTs.compressFile, Env.gzip_compressFile.
  rewrite Hfile. fold (fullPath file). rewrite Hdisk. by rewrite decide_False.
Qed.

Local Ltac apart_ts :=
  first [ by apply LoggerTs_path_other_type
        | by apply LoggerTs_path_not_archive
        | by apply not_eq_sym, LoggerTs_path_not_archive
        | by apply LoggerTs_archive_other_type
        | by apply LoggerTs_path_other_day
        | by apply LoggerTs_archive_other_day
        | by apply not_eq_sym, LoggerTs_path_other_day
        | by apply not_eq_sym, LoggerTs_archive_other_day ].

Lemma LoggerTs_reloadFiles_archives (this : LoggerTs.Logger) (w : World)
    (date0 newDate : Date) (hI : nat) (cI : FileContent) :
  JsDate.in_range date0 → JsDate.in_range newDate →
  LoggerTs_generation this date0 →
  JsDate.getDay newDate ≠ LoggerTs.currentDay this →
  let old type h := LoggerTs_file this date0 type h in
  let new type h := LoggerTs_file this newDate type h in
  LoggerTs.logFiles this !! INFO = Some (old INFO hI) →
  disk w !! fullPath (old INFO hI) = Some cI →
  fullPath (old INFO hI) ∉ unreadable w →
  (∀ type h, fullPath (new type h) ∉ unreadable w) →
  let r := LoggerTs.reloadFiles this newDate w in
  disk r.2 !! (fullPath (old INFO hI) +:+ ".gz") = Some (Gzipped cI)
  ∧ (∀ type h, disk r.2 !! fullPath (old type h) = disk w !! fullPath (old type h))
  ∧ (∀ type h, type ≠ INFO →
       disk r.2 !! (fullPath (old type h) +:+ ".gz")
       = disk w !! (fullPath (old type h) +:+ ".gz"))
  ∧ (∀ type h, type ≠ INFO →
       disk r.2 !! (fullPath (new type h) +:+ ".gz") = Some (Gzipped (Text "")))
  ∧ (∀ h, disk r.2 !! (fullPath (new INFO h) +:+ ".gz")
          = disk w !! (fullPath (new INFO h) +:+ ".gz")).
Proof.
  intros Hrange0 Hrange [Hcur Hgen] Hday old new HI HcI HuI Hnew r. subst r.
  rewrite Hcur in Hday.
  assert (JsDate.getDay date0 ≠ JsDate.getDay newDate) as Hday' by done.
  assert (∀ type h, archivePath (old type h) = fullPath (old type h) +:+ ".gz") as Harch0.
  { intros type h. by destruct (LoggerTs_fullPath this date0 type h Hrange0) as [_ ?]. }
  assert (∀ type h, archivePath (new type h) = fullPath (new type h) +:+ ".gz") as Harch.
  { intros type h. by destruct (LoggerTs_fullPath this newDate type h Hrange) as [_ ?]. }
  unfold LoggerTs.reloadFiles. rewrite decide_True by (by rewrite Hcur).
  unfold LoggerTs.compressFiles_until_await, LoggerTs.compressFiles_resumed.
  rewrite (LoggerTs_compressFile_success this INFO w _ cI HI HcI HuI), Harch0.
  set (wA := Env.set_disk _ w).
  pose proof (LoggerTs_loadFiles_spec this newDate wA) as Hload.
  destruct (LoggerTs.loadFiles this newDate wA) as [this' wB]. cbn [fst snd] in *.
  destruct Hload as (_ & _ & Hfiles & _ & Hempty & Hframe & _ & HuB).
  change (streams wA) with (streams w) in *. change (unreadable wA) with (unreadable w) in *.
  set (n := length (streams w)) in *.
  fold (new INFO (n + LogType_index INFO)%nat) in Hempty, Hframe.
  assert (∀ type, LoggerTs.logFiles this' !! type = Some (new type (n + LogType_index type)%nat))
    as Hfiles' by done.
  assert (∀ type, disk wB !! fullPath (new type (n + LogType_index type)%nat) = Some (Text ""))
    as Hempty' by done.
  assert (∀ p, (∀ type h, p ≠ fullPath (new type h)) → disk wB !! p = disk wA !! p) as Hframe'.
  { intros p Hp. apply Hframe. intros type. apply Hp. }
  clear Hfiles Hempty Hframe.
  rewrite (LoggerTs_compressFile_success this' WARN wB _ (Text "") (Hfiles' WARN));
    [|apply Hempty'|rewrite HuB; apply Hnew].
  rewrite Harch. set (w1 := Env.set_disk _ wB).
  rewrite (LoggerTs_compressFile_success this' DEBUG w1 _ (Text "") (Hfiles' DEBUG));
    [|subst w1; autorewrite with world; rewrite lookup_insert_ne by apart_ts; apply Hempty'
     |subst w1; autorewrite with world; rewrite HuB; apply Hnew].
  rewrite Harch. set (w2 := Env.set_disk _ w1).
  rewrite (LoggerTs_compressFile_success this' ERROR w2 _ (Text "") (Hfiles' ERROR));
    [|subst w2 w1; autorewrite with world; rewrite !lookup_insert_ne by apart_ts; apply Hempty'
     |subst w2 w1; autorewrite with world; rewrite HuB; apply Hnew].
  rewrite Harch. subst w2 w1. autorewrite with world.
  assert (∀ p, (∀ type h, p ≠ fullPath (new type h)) →
               (∀ type h, p ≠ fullPath (new type h) +:+ ".gz") →
               <[fullPath (new ERROR (n + LogType_index ERROR)%nat) +:+ ".gz" := Gzipped (Text "")]>
                 (<[fullPath (new DEBUG (n + LogType_index DEBUG)%nat) +:+ ".gz" := Gzipped (Text "")]>
                    (<[fullPath (new WARN (n + LogType_index WARN)%nat) +:+ ".gz" := Gzipped (Text "")]>
                       (disk wB))) !! p
               = <[fullPath (old INFO hI) +:+ ".gz" := Gzipped cI]> (disk w) !! p) as Hrest.
  { intros p Hp1 Hp2. rewrite !lookup_insert_ne by (apply not_eq_sym, Hp2).
    by rewrite Hframe'. }
  split_and!.
  - rewrite Hrest; [by rewrite lookup_insert_eq|intros; apart_ts..].
  - intros type h. rewrite Hrest; [|intros; apart_ts..].
    rewrite lookup_insert_ne; [done|]. apply not_eq_sym. apart_ts.
  - intros type h Htype. rewrite Hrest; [|intros; apart_ts..].
    rewrite lookup_insert_ne; [done|]. apart_ts.
  - intros type h Htype.
    assert (fullPath (new type h) = fullPath (new type (n + LogType_index type)%nat)) as ->.
    { by rewrite !(proj1 (LoggerTs_fullPath this newDate type _ Hrange)). }
    destruct type; [done|..].
    + rewrite !lookup_insert_ne by apart_ts. by rewrite lookup_insert_eq.
    + rewrite !lookup_insert_ne by apart_ts. by rewrite lookup_insert_eq.
    + by rewrite lookup_insert_eq.
  - intros h. rewrite !lookup_insert_ne by apart_ts.
    rewrite Hframe' by (intros; apply not_eq_sym; apart_ts).
    subst wA. autorewrite with world. rewrite lookup_insert_ne; [done|]. apart_ts.
Qed.

(** X14: a call of [src/logger.ts] that detects a rollover archives the
    info file of the previous generation, with the content the file then
    has, and keeps the file.  The warn, debug and error files of the
    previous generation get no archive: the three compressions that run
    after the new files are opened read the new map entries, so what is
    archived in their place is the new, still empty, file of each of these
    severities. *)
Theorem LoggerTs_rotation_archives_info_only
    (this : LoggerTs.Logger) (w : World) (date0 now newDate : Date) (type : LogType)
    (message : string) (object : option JsObject) (oldI : LogFile) :
  LoggerTs_ready this w date0 → JsDate.in_range newDate →
  JsDate.getDay newDate ≠ LoggerTs.currentDay this →
  LoggerTs.logFiles this !! INFO = Some oldI → readable w oldI →
  (∀ type' h, fullPath (LoggerTs_file this newDate type' h) ∉ unreadable w) →
  let r := (LoggerTs_emit type this message object now newDate w).2 in
  is_Some (disk r.2 !! fullPath oldI)
  ∧ disk r.2 !! (fullPath oldI +:+ ".gz") = Gzipped <$> disk r.2 !! fullPath oldI
  ∧ (∀ type' old', type' ≠ INFO → LoggerTs.logFiles this !! type' = Some old' →
       disk r.2 !! (fullPath old' +:+ ".gz") = disk w !! (fullPath old' +:+ ".gz"))
  ∧ (∀ type' new', type' ≠ INFO → LoggerTs.logFiles r.1 !! type' = Some new' →
       disk r.2 !! fullPath new' = Some (Text "")
       ∧ disk r.2 !! (fullPath new' +:+ ".gz") = Some (Gzipped (Text ""))).
Proof.
  intros Hready Hrange Hday HI [HcI HuI] Hnew r. subst r.
  pose proof Hready as (Hrange0 & Hgen & Hopen).
  pose proof Hgen as [Hcur Hmap].
  destruct (Hmap type) as (h & Hfile).
  rewrite LoggerTs_emit_unfold. cbn [snd].
  set (templated := LoggerTs.assembleTemplate this now type message).
  fold (LoggerTs_echoed this type templated object w).
  destruct (LoggerTs_echoed_frame this type templated object w) as (Hdc & Hsc & Huc).
  set (wc := LoggerTs_echoed _ _ _ _ _) in *.
  rewrite (LoggerTs_logToFile_unfold _ _ _ _ _ _ _ Hfile).
  set (line := file_line _ templated object).
  assert (open_on wc (LoggerTs_file this date0 type h)) as Hof.
  { unfold open_on. rewrite Hsc. by eapply Hopen. }
  destruct (write_open_on wc _ line Hof) as (Hd1 & _ & _ & Hu1).
  set (w1 := Env.write _ line wc) in *.
  destruct (Hmap INFO) as (hI & HI'). rewrite HI in HI'. injection HI' as ->.
  assert (is_Some (disk w1 !! fullPath (LoggerTs_file this date0 INFO hI))) as [cI HcI'].
  { rewrite Hd1, lookup_alter, Hdc. case_decide; [|done]. apply fmap_is_Some. congruence. }
  destruct (LoggerTs_reloadFiles_archives this w1 date0 newDate hI cI Hrange0 Hrange Hgen Hday
              HI HcI') as (A1 & A2 & A3 & A4 & _).
  { by rewrite Hu1, Huc. }
  { intros type' h'. rewrite Hu1, Huc. apply Hnew. }
  destruct (LoggerTs_reloadFiles_rollover this newDate w1 Hrange Hday)
    as (_ & _ & Hfiles & _ & Hempty & _).
  split_and!.
  - by rewrite A2, HcI'.
  - by rewrite A1, A2, HcI'.
  - intros type' old' Htype Hold'. destruct (Hmap type') as (h' & Hh').
    rewrite Hold' in Hh'. injection Hh' as ->. rewrite A3 by done.
    rewrite Hd1, lookup_alter_ne, Hdc; [done|]. by apply LoggerTs_path_not_archive.
  - intros type' new' Htype Hnew'. rewrite Hfiles in Hnew'. injection Hnew' as <-.
    split; [apply Hempty | by apply A4].
Qed.

Lemma LoggerTs_rotation_archives_info_only_witness :
  let r := (LoggerTs.warn LoggerTs_example.1 "late" None monday tuesday
              LoggerTs_example.2).2 in
  disk r.2 !! "logs/info/2021/February/01-10_30.log.gz" = Some (Gzipped (Text ""))
  ∧ disk r.2 !! "logs/warn/2021/February/01-10_30.log.gz" = None
  ∧ disk r.2 !! "logs/warn/2021/February/02-00_05.log.gz" = Some (Gzipped (Text "")).
Proof.
  intros r.
  destruct (LoggerTs_constructor_ready "svc" "logs" None None monday empty_world
              monday_in_range) as [Hready Hdisk].
  pose (oldI := {| filePath := "logs/info/2021/February"; fileName := "01-10_30.log";
                   writeStream := 0 |}).
  pose (oldW := {| filePath := "logs/warn/2021/February"; fileName := "01-10_30.log";
                   writeStream := 1 |}).
  pose (newW := {| filePath := "logs/warn/2021/February"; fileName := "02-00_05.log";
                   writeStream := 5 |}).
  assert (LoggerTs.logFiles LoggerTs_example.1 !! INFO = Some oldI) as HI
    by (vm_compute; reflexivity).
  assert (unreadable LoggerTs_example.2 = ∅) as Hun by (vm_compute; reflexivity).
  destruct (LoggerTs_rotation_archives_info_only LoggerTs_example.1 LoggerTs_example.2
              monday monday tuesday WARN "late" None oldI) as (_ & H1 & H2 & H3).
  - exact Hready.
  - exact tuesday_in_range.
  - vm_compute; discriminate.
  - exact HI.
  - destruct (Hdisk INFO oldI HI) as [Hd Hu]. split; [by exists (Text "")|].
    intros Hin. apply Hu in Hin. by apply not_elem_of_empty in Hin.
  - intros type' h. rewrite Hun. apply not_elem_of_empty.
  - pose proof (H2 WARN oldW) as H2'.
    assert (WARN ≠ INFO) as Hne by discriminate.
    specialize (H2' Hne). clear Hne.
    assert (LoggerTs.logFiles LoggerTs_example.1 !! WARN = Some oldW) as HW
      by (vm_compute; reflexivity).
    specialize (H2' HW). clear HW.
    destruct (H3 WARN newW) as [_ H3']; [discriminate|vm_compute; reflexivity|].
    revert H1 H2' H3'. vm_compute. intros H1 H2' H3'.
    split; [exact H1|split; [exact H2'|exact H3']].
Defined.

(** ** Constructing twice *)

(** X15: a logger of [src/logger.ts] constructed on a base directory on
    which another one is logging, at a clock reading that gives the same
    directory and file name, opens the very files the first one writes to
    and empties them: what the first logger had written is gone. *)
Theorem LoggerTs_second_constructor_truncates
    (ns ns' path : string) (s s' : option LoggerTs.LoggerSettings) (tmpl tmpl' : option string)
    (now now' now2 : Date) (w : World) (type : LogType) (message : string)
    (object : option JsObject) :
  JsDate.in_range now →
  LoggerTs.logDir now2 = LoggerTs.logDir now →
  LoggerTs.logName now2 = LoggerTs.logName now →
  let st := LoggerTs.constructor ns path s tmpl now w in
  let r := (LoggerTs_emit type st.1 message object now' now st.2).2 in
  let st' := LoggerTs.constructor ns' path s' tmpl' now2 r.2 in
  ∃ file file',
    LoggerTs.logFiles st.1 !! type = Some file
    ∧ LoggerTs.logFiles st'.1 !! type = Some file'
    ∧ fullPath file' = fullPath file
    ∧ disk r.2 !! fullPath file
      = Some (Text (file_line (truthy (LoggerTs.includeObjects (LoggerTs.settings st.1)))
                      (LoggerTs.assembleTemplate st.1 now' type message) object))
    ∧ disk st'.2 !! fullPath file = Some (Text "").
Proof.
  intros Hrange Hdir Hname st r st'.
  destruct (LoggerTs_constructor_ready ns path s tmpl now w Hrange) as [Hready Hdisk].
  fold st in Hready, Hdisk.
  pose proof Hready as (_ & [Hcur Hmap] & Hopen).
  destruct (Hmap type) as (h & Hfile).
  assert (LoggerTs.logsPath st.1 = path) as Hpath.
  { subst st. unfold LoggerTs.constructor.
    by destruct (LoggerTs_loadFiles_spec
                   {| LoggerTs.namespace := ns; LoggerTs.logsPath := path;
                      LoggerTs.template :=
                        match tmpl with
                        | Some t => if decide (t = "") then default_template else t
                        | None => default_template
                        end;
                      LoggerTs.settings :=
                        match s with Some s => s | None => LoggerTs.default_settings end;
                      LoggerTs.currentDay := 0; LoggerTs.logFiles := ∅ |} now w) as (-> & _). }
  subst st'. unfold LoggerTs.constructor at 1.
  set (this' := {| LoggerTs.namespace := ns' |}).
  destruct (LoggerTs_loadFiles_spec this' now2 r.2) as (_ & _ & Hfiles' & _ & Hempty' & _).
  assert (fullPath (LoggerTs_file this' now2 type (length (streams r.2) + LogType_index type))
          = fullPath (LoggerTs_file st.1 now type h)) as Hsame.
  { unfold fullPath, LoggerTs_file, LoggerTs.typePath. cbn [filePath fileName].
    by rewrite Hdir, Hname, Hpath. }
  eexists _, _. split_and!; [exact Hfile|apply Hfiles'|exact Hsame| |].
  - subst r. rewrite (LoggerTs_emit_same_day _ _ _ _ _ _ _ _ Hfile) by done. cbn [snd].
    destruct (LoggerTs_echoed_frame st.1 type
                (LoggerTs.assembleTemplate st.1 now' type message) object st.2)
      as (Hdc & Hsc & _).
    set (wc := LoggerTs_echoed _ _ _ _ _) in *.
    assert (open_on wc (LoggerTs_file st.1 now type h)) as Hof.
    { unfold open_on. rewrite Hsc. by eapply Hopen. }
    rewrite (write_lands wc _ _ "" Hof); [done|].
    rewrite Hdc. by apply (Hdisk type).
  - rewrite <- Hsame. apply Hempty'.
Qed.

Lemma LoggerTs_second_constructor_truncates_witness :
  let r := (LoggerTs.info LoggerTs_example.1 "boot" None monday monday LoggerTs_example.2).2 in
  let st' := LoggerTs.constructor "other" "logs" None None monday r.2 in
  disk r.2 !! "logs/info/2021/February/01-10_30.log"
  = Some (Text ("[2021-03-15T10:30:00.000Z] [0] [svc] [boot]" +:+ newline))
  ∧ disk st'.2 !! "logs/info/2021/February/01-10_30.log" = Some (Text "").
Proof.
  intros r st'.
  destruct (LoggerTs_second_constructor_truncates "svc" "other" "logs" None None None None
              monday monday monday empty_world INFO "boot" None monday_in_range
              eq_refl eq_refl) as (file & file' & Hfile & _ & _ & H1 & H2).
  assert (LoggerTs.logFiles LoggerTs_example.1 !! INFO
          = Some {| filePath := "logs/info/2021/February"; fileName := "01-10_30.log";
                    writeStream := 0 |}) as Hfile0 by (vm_compute; reflexivity).
  unfold LoggerTs_example in Hfile0. rewrite Hfile in Hfile0. injection Hfile0 as ->.
  revert H1 H2. vm_compute. intros H1 H2. split; [exact H1 | exact H2].
Defined.

(** ** The sibling variant: what a call reports and when it does not settle *)

Lemma write_frame (h : nat) (chunk : string) (w : World) :
  let w' := Env.write h chunk w in
  streams w' = streams w ∧ console w' = console w ∧ unreadable w' = unreadable w
  ∧ ∀ p, disk w !! p = None → disk w' !! p = None.
Proof.
  unfold Env.write. destruct (streams w !! h) as [st|]; [|done].
  destruct (ended st); [done|]. split_and!; [done..|].
  intros p Hp. autorewrite with world. rewrite lookup_alter. case_decide; [|done].
  subst. by rewrite Hp.
Qed.

Lemma Sibling_compressFile_console (that : Sibling.Logger) (type : LogType) (w : World) :
  console (Sibling.compressFile that type w).2 = console w.
Proof.
  unfold Sibling.compressFile, Env.gzip_compressFile.
  destruct (Sibling.logFiles that !! type) as [file|]; [|done].
  destruct (disk w !! _) as [c|]; [|done]. by case_decide.
Qed.

Lemma Sibling_compressFiles_console (that : Sibling.Logger) (w : World) :
  console (Sibling.compressFiles that w).2 = console w.
Proof.
  unfold Sibling.compressFiles, Sibling.and_then.
  pose proof (Sibling_compressFile_console that INFO w) as H1.
  destruct (Sibling.compressFile that INFO w) as [[] w1]; cbn [fst snd] in *; [|done..].
  pose proof (Sibling_compressFile_console that WARN w1) as H2.
  destruct (Sibling.compressFile that WARN w1) as [[] w2]; cbn [fst snd] in *;
    [|congruence..].
  pose proof (Sibling_compressFile_console that DEBUG w2) as H3.
  destruct (Sibling.compressFile that DEBUG w2) as [[] w3]; cbn [fst snd] in *;
    [|congruence..].
  rewrite Sibling_compressFile_console. congruence.
Qed.

Lemma Sibling_reloadFiles_console (that : Sibling.Logger) (newDate : Date) (w : World) :
  console (Sibling.reloadFiles that newDate w).2.2 = console w.
Proof.
  unfold Sibling.reloadFiles. case_decide; [|done].
  pose proof (Sibling_compressFiles_console that w) as Hc.
  destruct (Sibling.compressFiles that w) as [[] w1]; cbn [fst snd] in *; [|done..].
  by destruct (Sibling_loadFiles_spec that newDate w1) as (_ & _ & _ & _ & _ & _ & -> & _).
Qed.

Lemma Sibling_logToConsole_spec (this : Sibling.Logger) (func : ConsoleMethod)
    (templated : string) (object : option JsObject) (w : World) :
  Sibling.logToConsole this func templated object w
  = Env.console_call func templated
      (extra (echo (truthy (Sibling.logObjects (Sibling.settings this)))
                func templated object)) w.
Proof. unfold Sibling.logToConsole, echo. by destruct (truthy _), object. Qed.

(** X16: the sibling variant writes nothing to the console but the echo:
    whatever a call does, rotation and failing compression included, the
    console afterwards holds what it held before and then, when the console
    option is on, the one echo of the rendered line, through the routine of
    the severity and with the object when the objects option is on and an
    object was supplied. *)
Theorem Sibling_console_is_the_echo
    (type : LogType) (that : Sibling.Logger) (message : string) (object : option JsObject)
    (now newDate : Date) (w : World) :
  let templated := Sibling.assembleTemplate that now type message in
  let r := Sibling_emit type that message object now newDate w in
  console r.2.2
  = console w
      ++ (if truthy (Sibling.logToConsole_ (Sibling.settings that))
          then [echo (truthy (Sibling.logObjects (Sibling.settings that)))
                  (console_of type) templated object]
          else []).
Proof.
  intros templated r. subst r. rewrite Sibling_emit_unfold. cbv zeta. fold templated.
  set (wc := if truthy (Sibling.logToConsole_ (Sibling.settings that)) then _ else w).
  assert (console wc
          = console w
              ++ (if truthy (Sibling.logToConsole_ (Sibling.settings that))
                  then [echo (truthy (Sibling.logObjects (Sibling.settings that)))
                          (console_of type) templated object]
                  else [])) as <-.
  { subst wc. destruct (truthy (Sibling.logToConsole_ _)).
    - by rewrite Sibling_logToConsole_spec.
    - by rewrite app_nil_r. }
  destruct (truthy (Sibling.logToFiles _)); [|done].
  unfold Sibling.logToFile. rewrite Sibling_reloadFiles_console.
  destruct (Sibling.logFiles that !! type) as [file|]; [|done].
  assert (∀ chunk, console (Env.write (writeStream file) chunk wc) = console wc) as Hw.
  { intros chunk. apply write_frame. }
  destruct (truthy (Sibling.logObjects (Sibling.settings that))), object; apply Hw.
Qed.

(** X17: with the files option off, a call of the sibling variant leaves
    the logger, the disk and the streams as they are, whatever the day: it
    neither writes nor rotates, and its promise is fulfilled. *)
Theorem Sibling_files_option_off
    (type : LogType) (that : Sibling.Logger) (message : string) (object : option JsObject)
    (now newDate : Date) (w : World) :
  truthy (Sibling.logToFiles (Sibling.settings that)) = false →
  let r := Sibling_emit type that message object now newDate w in
  r.1 = Fulfilled ∧ r.2.1 = that
  ∧ disk r.2.2 = disk w ∧ streams r.2.2 = streams w ∧ dirs r.2.2 = dirs w.
Proof.
  intros Hoff r. subst r. rewrite Sibling_emit_unfold. cbv zeta. rewrite Hoff.
  cbn [fst snd]. unfold Sibling.logToConsole.
  by destruct (truthy (Sibling.logToConsole_ (Sibling.settings that))),
       (truthy (Sibling.logObjects (Sibling.settings that))), object.
Qed.

Lemma Sibling_files_option_off_witness :
  let s := {| Sibling.logToFiles := None; Sibling.logToConsole_ := Some true;
              Sibling.logObjects := Some true |} in
  let st := Sibling.constructor "svc" "logs" (Some s) None monday empty_world in
  let r := Sibling.info st.1 "boot" None monday tuesday st.2 in
  r.1 = Fulfilled ∧ disk r.2.2 = disk st.2.
Proof.
  intros s st r.
  destruct (Sibling_files_option_off INFO st.1 "boot" None monday tuesday st.2)
    as (H1 & _ & H2 & _); [reflexivity|].
  split; [exact H1 | exact H2].
Defined.

(** X18: in the sibling variant, a call that detects a rollover while the
    info file of the previous generation cannot be compressed rejects with
    the error of the gzip call.  The logger is unchanged, so the day is
    still the old one and the next call tries again; no stream is opened
    or ended, and the console gets nothing but the echo. *)
Theorem Sibling_failed_compression_rejects_call
    (type : LogType) (that : Sibling.Logger) (message : string) (object : option JsObject)
    (now newDate : Date) (w : World) (old : LogFile) :
  truthy (Sibling.logToFiles (Sibling.settings that)) = true →
  JsDate.getDate newDate ≠ Sibling.currentDay that →
  Sibling.logFiles that !! INFO = Some old →
  gzip_fails w old →
  let r := Sibling_emit type that message object now newDate w in
  r.1 = Rejected (GzipError (fullPath old))
  ∧ r.2.1 = that
  ∧ streams r.2.2 = streams w
  ∧ gzip_fails r.2.2 old.
Proof.
  intros Hon Hday Hold Hfail r. subst r. rewrite Sibling_emit_unfold. cbv zeta.
  rewrite Hon.
  set (templated := Sibling.assembleTemplate that now type message).
  fold (Sibling_echoed that type templated object w).
  destruct (Sibling_echoed_frame that type templated object w) as (Hdc & Hsc & Huc).
  set (wc := Sibling_echoed _ _ _ _ _) in *.
  unfold Sibling.logToFile.
  set (w1 := match Sibling.logFiles that !! type with Some _ => _ | None => wc end).
  assert (streams w1 = streams w ∧ gzip_fails w1 old) as [Hs1 Hfail1].
  { assert (gzip_fails wc old) as Hfailc.
    { unfold gzip_fails. by rewrite Hdc, Huc. }
    subst w1. destruct (Sibling.logFiles that !! type) as [file|]; [|done].
    assert (∀ chunk, streams (Env.write (writeStream file) chunk wc) = streams w
                     ∧ gzip_fails (Env.write (writeStream file) chunk wc) old) as Hw.
    { intros chunk. destruct (write_frame (writeStream file) chunk wc) as (-> & _ & Hu & Hd).
      split; [done|]. unfold gzip_fails. rewrite Hu.
      destruct Hfailc as [Hnone|Hin]; [left; by apply Hd | by right]. }
    destruct (truthy (Sibling.logObjects (Sibling.settings that))), object; apply Hw. }
  rewrite (Sibling_failed_compression_rejects that w1 newDate old Hday Hold Hfail1).
  split_and!; [done|done|done|]. by apply gzip_fails_empty_archive.
Qed.

Lemma Sibling_failed_compression_rejects_call_witness :
  let w := Env.unlink "logs/info/2021/March/15-10_30.log" Sibling_example.2 in
  let r := Sibling.warn Sibling_example.1 "late" None monday tuesday w in
  r.1 = Rejected (GzipError "logs/info/2021/March/15-10_30.log").
Proof.
  intros w r.
  pose (old := {| filePath := "logs/info/2021/March"; fileName := "15-10_30.log";
                  writeStream := 0 |}).
  destruct (Sibling_failed_compression_rejects_call WARN Sibling_example.1 "late" None monday
              tuesday w old) as (H1 & _).
  - reflexivity.
  - vm_compute; discriminate.
  - vm_compute; reflexivity.
  - left. vm_compute; reflexivity.
  - revert H1. vm_compute. intros H1. exact H1.
Defined.

Lemma Sibling_compressFiles_fulfilled_inv (that : Sibling.Logger) (w : World) :
  (Sibling.compressFiles that w).1 = Fulfilled →
  ∀ type, is_Some (Sibling.logFiles that !! type).
Proof.
  unfold Sibling.compressFiles, Sibling.and_then.
  assert (∀ type w, (Sibling.compressFile that type w).1 = Fulfilled →
                    is_Some (Sibling.logFiles that !! type)) as Hone.
  { intros type w'. unfold Sibling.compressFile.
    by destruct (Sibling.logFiles that !! type). }
  destruct (Sibling.compressFile that INFO w) as [o1 w1] eqn:E1. cbn [fst snd].
  destruct o1; [|done..].
  destruct (Sibling.compressFile that WARN w1) as [o2 w2] eqn:E2. cbn [fst snd].
  destruct o2; [|done..].
  destruct (Sibling.compressFile that DEBUG w2) as [o3 w3] eqn:E3. cbn [fst snd].
  destruct o3; [|done..].
  intros E4 type.
  destruct type; [apply (Hone INFO w)|apply (Hone WARN w1)|apply (Hone DEBUG w2)
                 |apply (Hone ERROR w3)]; by rewrite ?E1, ?E2, ?E3.
Qed.

(** X19: in the sibling variant, a call that detects a rollover while some
    severity has no entry in the map is not fulfilled and opens no new
    generation; when the missing entry is the info entry, the promise of
    the call never settles. *)
Theorem Sibling_missing_entry_blocks_rotation
    (type missing : LogType) (that : Sibling.Logger) (message : string)
    (object : option JsObject) (now newDate : Date) (w : World) :
  truthy (Sibling.logToFiles (Sibling.settings that)) = true →
  JsDate.getDate newDate ≠ Sibling.currentDay that →
  Sibling.logFiles that !! missing = None →
  let r := Sibling_emit type that message object now newDate w in
  r.1 ≠ Fulfilled ∧ r.2.1 = that ∧ (missing = INFO → r.1 = Pending).
Proof.
  intros Hon Hday Hmissing r. subst r. rewrite Sibling_emit_unfold. cbv zeta.
  rewrite Hon. unfold Sibling.logToFile.
  set (w1 := match Sibling.logFiles that !! type with Some _ => _ | None => _ end).
  unfold Sibling.reloadFiles. rewrite decide_True by done.
  pose proof (Sibling_compressFiles_fulfilled_inv that w1) as Hinv.
  assert (missing = INFO → (Sibling.compressFiles that w1).1 = Pending) as Hpending.
  { intros ->. unfold Sibling.compressFiles, Sibling.and_then, Sibling.compressFile.
    by rewrite Hmissing. }
  destruct (Sibling.compressFiles that w1) as [[] w2]; cbn [fst snd] in *.
  - destruct (Hinv eq_refl missing) as [f Hf]. congruence.
  - split_and!; [done|done|]. intros Hm. by specialize (Hpending Hm).
  - by split_and!.
Qed.

Lemma Sibling_missing_entry_blocks_rotation_witness :
  let that := {| Sibling.namespace := "svc"; Sibling.logsPath := "logs";
                 Sibling.template := default_template;
                 Sibling.settings := Sibling.default_settings;
                 Sibling.currentDay := 15; Sibling.logFiles := ∅ |} in
  (Sibling.info that "boot" None monday tuesday empty_world).1 = Pending.
Proof.
  intros that.
  destruct (Sibling_missing_entry_blocks_rotation INFO INFO that "boot" None monday tuesday
              empty_world) as (_ & _ & H).
  - reflexivity.
  - vm_compute; discriminate.
  - reflexivity.
  - by apply H.
Defined.

(** ** The sibling variant: what a rotation leaves behind *)

Lemma Sibling_write_ready (that : Sibling.Logger) (w : World) (date0 : Date) (file : LogFile)
    (chunk : string) :
  Sibling_ready that w date0 →
  (∀ type f, Sibling.logFiles that !! type = Some f → readable w f) →
  open_on w file →
  let w1 := Env.write (writeStream file) chunk w in
  Sibling_ready that w1 date0
  ∧ (∀ type f, Sibling.logFiles that !! type = Some f → readable w1 f)
  ∧ disk w1 = alter (Env.append_data chunk) (fullPath file) (disk w)
  ∧ streams w1 = streams w.
Proof.
  intros Hready Hread Hof w1. subst w1.
  destruct (write_open_on w file chunk Hof) as (Hd1 & Hs1 & _ & Hu1).
  split_and!; [by apply (Sibling_ready_streams that w)| |done|done].
  intros type f Hf. destruct (Hread _ _ Hf) as [Hsome Hun]. split; [|by rewrite Hu1].
  rewrite Hd1, lookup_alter. case_decide as Heq; [|done]. apply fmap_is_Some. by rewrite ?Heq.
Qed.

(** X20: in the sibling variant, a call that detects a rollover while
    every file of the previous generation can be read is fulfilled, and
    afterwards every severity's previous file is gone from the disk, its
    stream is ended, and its archive holds what the file held, the chunk
    of this call included for the severity of the call. *)
Theorem Sibling_rotation_archives_every_file
    (that : Sibling.Logger) (w : World) (date0 now newDate : Date) (type : LogType)
    (message : string) (object : option JsObject) :
  Sibling_ready that w date0 → JsDate.in_range newDate →
  (∀ type' f, Sibling.logFiles that !! type' = Some f → readable w f) →
  truthy (Sibling.logToFiles (Sibling.settings that)) = true →
  JsDate.getDate newDate ≠ Sibling.currentDay that →
  let line := file_line (truthy (Sibling.logObjects (Sibling.settings that)))
                (Sibling.assembleTemplate that now type message) object in
  let r := Sibling_emit type that message object now newDate w in
  r.1 = Fulfilled
  ∧ (∀ type' old, Sibling.logFiles that !! type' = Some old →
       disk r.2.2 !! fullPath old = None
       ∧ streams r.2.2 !! writeStream old = Some {| target := fullPath old; ended := true |}
       ∧ disk r.2.2 !! (fullPath old +:+ ".gz")
         = Gzipped <$> (if decide (type' = type)
                        then Env.append_data line <$> disk w !! fullPath old
                        else disk w !! fullPath old)).
Proof.
  intros Hready Hrange Hread Hon Hday line r. subst r.
  rewrite Sibling_emit_unfold. cbv zeta. rewrite Hon.
  set (templated := Sibling.assembleTemplate that now type message) in *.
  fold (Sibling_echoed that type templated object w).
  destruct (Sibling_echoed_frame that type templated object w) as (Hdc & Hsc & Huc).
  set (wc := Sibling_echoed _ _ _ _ _) in *.
  assert (Sibling_ready that wc date0) as Hreadyc by (by apply (Sibling_ready_streams that w)).
  assert (∀ type' f, Sibling.logFiles that !! type' = Some f → readable wc f) as Hreadc.
  { intros type' f Hf. unfold readable. rewrite Hdc, Huc. by eapply Hread. }
  pose proof Hreadyc as (Hrange0 & (Hcur & Hgen) & Hopen).
  destruct (Hgen type) as (h & Hfile).
  rewrite (Sibling_logToFile_unfold _ _ _ _ _ _ _ Hfile). fold line.
  destruct (Sibling_write_ready that wc date0 _ line Hreadyc Hreadc (Hopen _ _ Hfile))
    as (Hready1 & Hread1 & Hd1 & Hs1).
  set (w1 := Env.write _ line wc) in *.
  unfold Sibling.reloadFiles. rewrite decide_True by done.
  destruct (Sibling_compressFiles_fulfilled that date0 w1 Hready1 Hread1)
    as (Ho & Hold & _).
  destruct (Sibling.compressFiles that w1) as [o w2]. cbn [fst snd] in *. subst o.
  pose proof (Sibling_loadFiles_spec that newDate w2) as Hload.
  destruct (Sibling.loadFiles that newDate w2) as [that' w3]. cbn [fst snd] in *.
  destruct Hload as (_ & _ & _ & Hs3 & _ & Hframe & _).
  rewrite Hcur in Hday.
  assert (JsDate.getDate date0 ≠ JsDate.getDate newDate) as Hday' by done.
  split; [done|]. intros type' old Hold'.
  destruct (Hold type' old Hold') as (Hgone & Harchive & Hended).
  destruct (Hgen type') as (h' & Hh'). rewrite Hold' in Hh'. injection Hh' as ->.
  split_and!.
  - rewrite Hframe; [done|]. intros type''. by apply Sibling_path_other_day.
  - rewrite Hs3. by apply lookup_app_l_Some.
  - rewrite Hframe by (intros type''; by apply not_eq_sym, Sibling_path_not_archive).
    rewrite Harchive, Hd1, Hdc. f_equal. case_decide as Htype.
    + subst type'. rewrite Hfile in Hold'. injection Hold' as <-.
      by rewrite lookup_alter_eq.
    + rewrite lookup_alter_ne; [done|]. by apply Sibling_path_other_type.
Qed.

Lemma Sibling_rotation_archives_every_file_witness :
  let r := Sibling.warn Sibling_example.1 "late" None monday tuesday Sibling_example.2 in
  disk r.2.2 !! "logs/error/2021/March/15-10_30.log" = None
  ∧ disk r.2.2 !! "logs/error/2021/March/15-10_30.log.gz" = Some (Gzipped (Text "")).
Proof.
  intros r.
  destruct (Sibling_constructor_ready "svc" "logs" None None monday empty_world
              monday_in_range) as [Hready Hdisk].
  pose (old := {| filePath := "logs/error/2021/March"; fileName := "15-10_30.log";
                  writeStream := 3 |}).
  destruct (Sibling_rotation_archives_every_file Sibling_example.1 Sibling_example.2
              monday monday tuesday WARN "late" None) as (_ & H).
  - exact Hready.
  - exact tuesday_in_range.
  - intros type f Hf. destruct (Hdisk type f Hf) as [Hd Hu].
    split; [exists (Text ""); exact Hd|].
    intros Hin. apply Hu in Hin. by apply not_elem_of_empty in Hin.
  - reflexivity.
  - vm_compute; discriminate.
  - destruct (H ERROR old) as (H1 & _ & H2); [vm_compute; reflexivity|].
    revert H1 H2. vm_compute. intros H1 H2. split; [exact H1 | exact H2].
Defined.

Section never_reopens.
Variable that : Sibling.Logger.

Lemma Sibling_compressFile_never_reopens (type : LogType) (w : World) :
  never_reopens w (Sibling.compressFile that type w).2.
Proof.
  unfold Sibling.compressFile, Env.gzip_compressFile.
  destruct (Sibling.logFiles that !! type) as [file|]; [|by intros ??].
  destruct (disk w !! _) as [c|]; [|by intros ??]. case_decide; [by intros ??|].
  intros h st. cbn [snd]. unfold Env.unlink. autorewrite with world.
  unfold Env.end_stream. cbn [streams]. autorewrite with world.
  destruct (decide (h = writeStream file)) as [->|Hne].
  - rewrite list_lookup_alter_eq. destruct (streams w !! writeStream file) as [st0|]; [|done].
    cbn. by intros [= <-].
  - by rewrite list_lookup_alter_ne.
Qed.

Lemma Sibling_compressFiles_never_reopens (w : World) :
  never_reopens w (Sibling.compressFiles that w).2.
Proof.
  unfold Sibling.compressFiles, Sibling.and_then.
  pose proof (Sibling_compressFile_never_reopens INFO w) as H1.
  destruct (Sibling.compressFile that INFO w) as [[] w1]; cbn [fst snd] in *; [|done..].
  pose proof (Sibling_compressFile_never_reopens WARN w1) as H2.
  destruct (Sibling.compressFile that WARN w1) as [[] w2]; cbn [fst snd] in *;
    [|intros ????; eauto..].
  pose proof (Sibling_compressFile_never_reopens DEBUG w2) as H3.
  destruct (Sibling.compressFile that DEBUG w2) as [[] w3]; cbn [fst snd] in *;
    [|intros ????; eauto..].
  pose proof (Sibling_compressFile_never_reopens ERROR w3) as H4.
  intros ????; eauto.
Qed.
End never_reopens.

Lemma open_streams_all_ended (w : World) :
  (∀ h st, streams w !! h = Some st → ended st = true) → Env.open_streams w = [].
Proof.
  unfold Env.open_streams. intros Hall.
  apply Forall_lookup_2 in Hall. induction Hall as [|st l Hst _ IH]; [done|].
  rewrite filter_cons. rewrite decide_False; [done|]. by rewrite Hst.
Qed.

(** X21: in the sibling variant, when the map was made by [loadFiles], its
    handles are open and no other stream is, a call that rotates (every
    previous file being readable) is fulfilled and restores that state for
    the new clock reading: exactly four streams are open afterwards, those
    of the four new map entries in the order info, warn, debug, error. *)
Theorem Sibling_rotation_leaves_four_streams_open
    (that : Sibling.Logger) (w : World) (date0 now newDate : Date) (type : LogType)
    (message : string) (object : option JsObject) :
  Sibling_ready that w date0 → Sibling_owned that w → JsDate.in_range newDate →
  (∀ type' f, Sibling.logFiles that !! type' = Some f → readable w f) →
  truthy (Sibling.logToFiles (Sibling.settings that)) = true →
  JsDate.getDate newDate ≠ Sibling.currentDay that →
  let r := Sibling_emit type that message object now newDate w in
  r.1 = Fulfilled
  ∧ Sibling_ready r.2.1 r.2.2 newDate
  ∧ Sibling_owned r.2.1 r.2.2
  ∧ ∃ file : LogType → LogFile,
      (∀ type', Sibling.logFiles r.2.1 !! type' = Some (file type'))
      ∧ Env.open_streams r.2.2
        = (λ type', fresh_stream (file type')) <$> [INFO; WARN; DEBUG; ERROR].
Proof.
  intros Hready Howned Hrange Hread Hon Hday r. subst r.
  rewrite Sibling_emit_unfold. cbv zeta. rewrite Hon.
  set (templated := Sibling.assembleTemplate that now type message) in *.
  fold (Sibling_echoed that type templated object w).
  destruct (Sibling_echoed_frame that type templated object w) as (Hdc & Hsc & Huc).
  set (wc := Sibling_echoed _ _ _ _ _) in *.
  assert (Sibling_ready that wc date0) as Hreadyc by (by apply (Sibling_ready_streams that w)).
  assert (∀ type' f, Sibling.logFiles that !! type' = Some f → readable wc f) as Hreadc.
  { intros type' f Hf. unfold readable. rewrite Hdc, Huc. by eapply Hread. }
  pose proof Hreadyc as (Hrange0 & (Hcur & Hgen) & Hopen).
  destruct (Hgen type) as (h & Hfile).
  rewrite (Sibling_logToFile_unfold _ _ _ _ _ _ _ Hfile).
  set (line := file_line _ templated object).
  destruct (Sibling_write_ready that wc date0 _ line Hreadyc Hreadc (Hopen _ _ Hfile))
    as (Hready1 & Hread1 & Hd1 & Hs1).
  set (w1 := Env.write _ line wc) in *.
  unfold Sibling.reloadFiles. rewrite decide_True by done.
  destruct (Sibling_compressFiles_fulfilled that date0 w1 Hready1 Hread1)
    as (Ho & Hold & _).
  pose proof (Sibling_compressFiles_never_reopens that w1) as Hnever.
  destruct (Sibling.compressFiles that w1) as [o w2]. cbn [fst snd] in *. subst o.
  pose proof (Sibling_loadFiles_spec that newDate w2) as Hload.
  destruct (Sibling.loadFiles that newDate w2) as [that' w3]. cbn [fst snd] in *.
  destruct Hload as (Hpath & Hcur' & Hfiles & Hs3 & _).
  assert (∀ h' st, streams w2 !! h' = Some st → ended st = true) as Hended.
  { intros h' st Hh'. destruct (ended st) eqn:Hst; [done|].
    pose proof (Hnever h' st Hh' Hst) as Hw1. rewrite Hs1, Hsc in Hw1.
    destruct (Howned h' st Hw1 Hst) as (type' & f & Hf & <-).
    destruct (Hold type' f Hf) as (_ & _ & Hf'). rewrite Hf' in Hh'.
    injection Hh' as <-. done. }
  set (file type' := Sibling_file that newDate type'
                       (length (streams w2) + LogType_index type')) in *.
  split_and!; [done| |..].
  - split_and!; [done| |].
    + split; [done|]. intros type'. eexists. rewrite Hfiles. unfold file.
      by rewrite (Sibling_file_logsPath that that').
    + intros type' f Hf. rewrite Hfiles in Hf. injection Hf as <-.
      unfold open_on. rewrite Hs3. unfold file. cbn [writeStream Sibling_file].
      exact (opened_lookup w2 (λ type, {| target := fullPath (Sibling_file that newDate type
               (length (streams w2) + LogType_index type)); ended := false |}) type').
  - intros h' st Hh' Hst. rewrite Hs3 in Hh'.
    apply lookup_app_Some in Hh' as [Hh'|[Hlen Hh']].
    + apply Hended in Hh'. congruence.
    + assert (∃ type', (h' - length (streams w2))%nat = LogType_index type') as [type' Hidx].
      { apply lookup_lt_Some in Hh'. cbn [length] in Hh'.
        destruct (h' - length (streams w2))%nat as [|[|[|[|k]]]] eqn:Hk;
          [by exists INFO|by exists WARN|by exists DEBUG|by exists ERROR|lia]. }
      exists type', (file type'). split; [apply Hfiles|].
      unfold file. cbn [writeStream Sibling_file]. lia.
  - exists file. split; [exact Hfiles|].
    unfold Env.open_streams. rewrite Hs3, filter_app.
    fold (Env.open_streams w2). by rewrite open_streams_all_ended.
Qed.

(** The constructor leaves no open stream unowned when there was none
    open before. *)
Lemma Sibling_constructor_owned (ns path : string) (s : option Sibling.LoggerSettings)
    (tmpl : option string) (now : Date) (w : World) :
  (∀ h st, streams w !! h = Some st → ended st = true) →
  let st := Sibling.constructor ns path s tmpl now w in
  Sibling_owned st.1 st.2.
Proof.
  intros Hended st. subst st. unfold Sibling.constructor.
  set (that := {| Sibling.namespace := ns |}).
  destruct (Sibling_loadFiles_spec that now w) as (_ & _ & Hfiles & Hs & _).
  intros h st Hh Hst. rewrite Hs in Hh.
  apply lookup_app_Some in Hh as [Hh|[Hlen Hh]].
  - apply Hended in Hh. congruence.
  - assert (∃ type', (h - length (streams w))%nat = LogType_index type') as [type' Hidx].
    { apply lookup_lt_Some in Hh. cbn [length] in Hh.
      destruct (h - length (streams w))%nat as [|[|[|[|k]]]] eqn:Hk;
        [by exists INFO|by exists WARN|by exists DEBUG|by exists ERROR|lia]. }
    eexists type', _. split; [apply Hfiles|].
    cbn [writeStream Sibling_file]. lia.
Qed.

Lemma Sibling_rotation_leaves_four_streams_open_witness :
  let r := Sibling.info Sibling_example.1 "boot" None monday tuesday Sibling_example.2 in
  length (Env.open_streams r.2.2) = 4%nat.
Proof.
  intros r.
  destruct (Sibling_constructor_ready "svc" "logs" None None monday empty_world
              monday_in_range) as [Hready Hdisk].
  destruct (Sibling_rotation_leaves_four_streams_open Sibling_example.1 Sibling_example.2
              monday monday tuesday INFO "boot" None) as (_ & _ & _ & file & _ & H).
  - exact Hready.
  - apply Sibling_constructor_owned. intros h st Hh. by destruct h.
  - exact tuesday_in_range.
  - intros type f Hf. destruct (Hdisk type f Hf) as [Hd Hu].
    split; [exists (Text ""); exact Hd|].
    intros Hin. apply Hu in Hin. by apply not_elem_of_empty in Hin.
  - reflexivity.
  - vm_compute; discriminate.
  - unfold r. change Sibling.info with (Sibling_emit INFO). rewrite H. reflexivity.
Defined.

(** X22: in the sibling variant, when at a rollover the info file of the
    previous generation is compressed but the warn file cannot be, the
    call rejects with the error of the warn file and the logger keeps its
    map and its day; yet the info file is already gone and its stream
    ended, so the info entry of the map names a dead handle: whatever is
    written through it afterwards reaches no file, and the compression of
    the info file fails from then on. *)
Theorem Sibling_half_done_rotation
    (that : Sibling.Logger) (w : World) (date0 now newDate : Date) (type : LogType)
    (message : string) (object : option JsObject) (oldI oldW : LogFile) :
  Sibling_ready that w date0 →
  truthy (Sibling.logToFiles (Sibling.settings that)) = true →
  JsDate.getDate newDate ≠ Sibling.currentDay that →
  Sibling.logFiles that !! INFO = Some oldI → readable w oldI →
  Sibling.logFiles that !! WARN = Some oldW → gzip_fails w oldW →
  let r := Sibling_emit type that message object now newDate w in
  r.1 = Rejected (GzipError (fullPath oldW))
  ∧ r.2.1 = that
  ∧ disk r.2.2 !! fullPath oldI = None
  ∧ is_Some (disk r.2.2 !! (fullPath oldI +:+ ".gz"))
  ∧ (∀ chunk, Env.write (writeStream oldI) chunk r.2.2 = r.2.2)
  ∧ gzip_fails r.2.2 oldI.
Proof.
  intros Hready Hon Hday HI [HcI HuI] HW Hfail r. subst r.
  rewrite Sibling_emit_unfold. cbv zeta. rewrite Hon.
  set (templated := Sibling.assembleTemplate that now type message) in *.
  fold (Sibling_echoed that type templated object w).
  destruct (Sibling_echoed_frame that type templated object w) as (Hdc & Hsc & Huc).
  set (wc := Sibling_echoed _ _ _ _ _) in *.
  assert (Sibling_ready that wc date0) as Hreadyc by (by apply (Sibling_ready_streams that w)).
  pose proof Hreadyc as (Hrange0 & (Hcur & Hgen) & Hopen).
  destruct (Hgen type) as (h & Hfile).
  rewrite (Sibling_logToFile_unfold _ _ _ _ _ _ _ Hfile).
  set (line := file_line _ templated object).
  destruct (write_open_on wc _ line (Hopen _ _ Hfile)) as (Hd1 & Hs1 & _ & Hu1).
  destruct (write_frame (writeStream (Sibling_file that date0 type h)) line wc)
    as (_ & _ & _ & Hnone).
  set (w1 := Env.write _ line wc) in *.
  assert (is_Some (disk w1 !! fullPath oldI)) as [cI HcI1].
  { rewrite Hd1, lookup_alter, Hdc. case_decide as Heq; [|done]. apply fmap_is_Some. by rewrite ?Heq. }
  assert (gzip_fails w1 oldW) as Hfail1.
  { unfold gzip_fails. rewrite Hu1, Huc.
    destruct Hfail as [Hn|Hin]; [left; apply Hnone; by rewrite Hdc | by right]. }
  destruct (Hgen INFO) as (hI & HI'). rewrite HI in HI'. injection HI' as ->.
  destruct (Hgen WARN) as (hW & HW'). rewrite HW in HW'. injection HW' as ->.
  destruct (Sibling_fullPath that date0 INFO hI Hrange0) as [_ Harch].
  fold (archivePath (Sibling_file that date0 INFO hI)) in Harch.
  unfold Sibling.reloadFiles. rewrite decide_True by done.
  unfold Sibling.compressFiles, Sibling.and_then.
  destruct (Sibling_compressFile_fulfilled that INFO w1 _ cI HI HcI1)
    as (Ho & HdI & HsI & _ & HuI1).
  { by rewrite Hu1, Huc. }
  destruct (Sibling.compressFile that INFO w1) as [o wI]. cbn [fst snd] in *. subst o.
  rewrite Harch in HdI.
  rewrite (Sibling_compressFile_rejected that WARN wI _ HW).
  2:{ unfold gzip_fails in *. rewrite HuI1, HdI.
      destruct Hfail1 as [Hn|Hin]; [left|by right].
      rewrite lookup_delete_ne by (by apply Sibling_path_other_type).
      rewrite lookup_insert_ne; [done|]. by apply not_eq_sym, Sibling_path_not_archive. }
  destruct (Sibling_fullPath that date0 WARN hW Hrange0) as [_ HarchW].
  fold (archivePath (Sibling_file that date0 WARN hW)) in HarchW.
  cbn [fst snd]. unfold empty_archive. rewrite HarchW.
  assert (disk (Env.set_disk
                  <[fullPath (Sibling_file that date0 WARN hW) +:+ ".gz" := Text ""]> wI)
            !! fullPath (Sibling_file that date0 INFO hI) = None) as Hgone.
  { autorewrite with world.
    rewrite lookup_insert_ne by (by apply not_eq_sym, Sibling_path_not_archive).
    by rewrite HdI, lookup_delete_eq. }
  split_and!; [done|done|done| | |by left].
  - autorewrite with world.
    rewrite lookup_insert_ne by (by apply Sibling_archive_other_type).
    rewrite HdI, lookup_delete_ne by (by apply Sibling_path_not_archive).
    by rewrite lookup_insert_eq.
  - intros chunk. unfold Env.write. autorewrite with world. rewrite HsI.
    assert (open_on w1 (Sibling_file that date0 INFO hI)) as HoI.
    { unfold open_on. rewrite Hs1. by eapply Hopen. }
    rewrite (ended_lookup _ _ _ _ _ HoI). by rewrite decide_True.
Qed.

Lemma Sibling_half_done_rotation_witness :
  let w := Env.unlink "logs/warn/2021/March/15-10_30.log" Sibling_example.2 in
  let r := Sibling.info Sibling_example.1 "boot" None monday tuesday w in
  r.1 = Rejected (GzipError "logs/warn/2021/March/15-10_30.log")
  ∧ disk r.2.2 !! "logs/info/2021/March/15-10_30.log" = None.
Proof.
  intros w r.
  destruct (Sibling_constructor_ready "svc" "logs" None None monday empty_world
              monday_in_range) as [Hready Hdisk].
  pose (oldI := {| filePath := "logs/info/2021/March"; fileName := "15-10_30.log";
                   writeStream := 0 |}).
  pose (oldW := {| filePath := "logs/warn/2021/March"; fileName := "15-10_30.log";
                   writeStream := 1 |}).
  destruct (Sibling_half_done_rotation Sibling_example.1 w monday monday tuesday INFO "boot"
              None oldI oldW) as (H1 & _ & H2 & _).
  - apply Sibling_ready_unlink. exact Hready.
  - reflexivity.
  - vm_compute; discriminate.
  - vm_compute; reflexivity.
  - split; [exists (Text ""); vm_compute; reflexivity|].
    intros Hin. revert Hin. vm_compute. discriminate.
  - vm_compute; reflexivity.
  - left. vm_compute; reflexivity.
  - revert H1 H2. vm_compute. intros H1 H2. split; [exact H1 | exact H2].
Defined.

(** ** Calls of the sibling variant within one day *)

(** X23: a call of the sibling variant that detects no rollover, with the
    files option on, is fulfilled, leaves the logger and the streams as they
    are and changes one thing on the disk: the chunk is appended to the file
    of the call's severity.  Every other path, in particular the file of
    every other severity, is untouched. *)
Theorem Sibling_same_day_call_touches_one_file
    (that : Sibling.Logger) (w : World) (date0 now newDate : Date) (type : LogType)
    (message : string) (object : option JsObject) (file : LogFile) :
  Sibling_ready that w date0 →
  truthy (Sibling.logToFiles (Sibling.settings that)) = true →
  Sibling.logFiles that !! type = Some file →
  JsDate.getDate newDate = Sibling.currentDay that →
  let line := file_line (truthy (Sibling.logObjects (Sibling.settings that)))
                (Sibling.assembleTemplate that now type message) object in
  let r := Sibling_emit type that message object now newDate w in
  r.1 = Fulfilled
  ∧ r.2.1 = that
  ∧ streams r.2.2 = streams w
  ∧ disk r.2.2 !! fullPath file = Env.append_data line <$> disk w !! fullPath file
  ∧ (∀ p, p ≠ fullPath file → disk r.2.2 !! p = disk w !! p)
  ∧ (∀ type' file', type' ≠ type → Sibling.logFiles that !! type' = Some file' →
       disk r.2.2 !! fullPath file' = disk w !! fullPath file').
Proof.
  intros (Hrange & [Hcur Hgen] & Hopen) Hon Hfile Hday line r. subst r.
  rewrite Sibling_emit_unfold. cbv zeta. rewrite Hon.
  set (templated := Sibling.assembleTemplate that now type message) in *.
  fold (Sibling_echoed that type templated object w).
  destruct (Sibling_echoed_frame that type templated object w) as (Hdc & Hsc & _).
  set (wc := Sibling_echoed _ _ _ _ _) in *.
  rewrite (Sibling_logToFile_unfold _ _ _ _ _ _ _ Hfile). fold line.
  unfold Sibling.reloadFiles. rewrite decide_False by (by intros []). cbn [fst snd].
  assert (open_on wc file) as Hof by (unfold open_on; rewrite Hsc; by eapply Hopen).
  destruct (write_open_on wc file line Hof) as (Hd1 & Hs1 & _).
  assert (∀ p, p ≠ fullPath file
               → disk (Env.write (writeStream file) line wc) !! p = disk w !! p) as Hframe.
  { intros p Hp. rewrite Hd1, Hdc. by rewrite lookup_alter_ne. }
  split_and!; [done|done|congruence| |done|].
  - by rewrite Hd1, Hdc, lookup_alter_eq.
  - intros type' file' Hne Hfile'. apply Hframe.
    destruct (Hgen type) as (h & Hh), (Hgen type') as (h' & Hh').
    rewrite Hfile in Hh. rewrite Hfile' in Hh'. injection Hh as ->. injection Hh' as ->.
    by apply Sibling_path_other_type.
Qed.

Lemma Sibling_same_day_call_touches_one_file_witness :
  let r := Sibling.warn Sibling_example.1 "low disk" None monday monday Sibling_example.2 in
  disk r.2.2 !! "logs/info/2021/March/15-10_30.log" = Some (Text "")
  ∧ disk r.2.2 !! "logs/warn/2021/March/15-10_30.log"
    = Some (Text ("[2021-03-15T10:30:00.000Z] [1] [svc] [low disk]" +:+ newline)).
Proof.
  intros r.
  destruct (Sibling_constructor_ready "svc" "logs" None None monday empty_world
              monday_in_range) as [Hready _].
  pose (file := {| filePath := "logs/warn/2021/March"; fileName := "15-10_30.log";
                   writeStream := 1 |}).
  destruct (Sibling_same_day_call_touches_one_file Sibling_example.1 Sibling_example.2
              monday monday monday WARN "low disk" None file)
    as (_ & _ & _ & Hown & Hframe & _).
  - exact Hready.
  - reflexivity.
  - vm_compute; reflexivity.
  - vm_compute; reflexivity.
  - split.
    + specialize (Hframe "logs/info/2021/March/15-10_30.log").
      revert Hframe. vm_compute. intros Hframe. apply Hframe. discriminate.
    + revert Hown. vm_compute. intros Hown. exact Hown.
Defined.
